(* ===== verification/_CoqProject ===== *)
-Q . S2P
Prelude.v
Json.v
Clock.v
IsoTime.v
Refresh.v
Store.v
Resolver.v
Api.v
Transport.v
Runs.v
Schema.v
Contract.v
Concurrency.v
Sensor.v
Config.v
Setup.v
Entities.v
Provider.v
