(* ===== verification/Prelude.v ===== *)
(** * Spot-hinta price cache: a verification development

    The program (src/custom_components/spothinta) is a Home Assistant
    integration that shows the current electricity spot price of a
    Nordic/Baltic bidding zone.  Its core, [SpotHintaAPI] in
    spothinta_api.py, keeps one cache dict per region, decides when to
    call api.spot-hinta.fi again (a daily 14:30 Helsinki cutover and a
    change of Helsinki date), sorts and stores the reply, computes
    min/max of the tax-inclusive prices, and answers "what is the
    price now" queries.  sensor.py wires one coordinator (a 120-minute
    refresh calling [fetch_data]) and one sensor (a quarter-hour update
    calling [calculate_current_price]) per config entry, all entries
    sharing one API object; config_flow.py creates the entries.

    ** Files and what they model

    - Prelude.v (this file): Python exceptions [py_exn] and the result
      type [py_res] with its bind notation [x <- m ;; k] (scope
      [py_scope]), [py_mapM], CPython's min/max loop [fold_pick], the
      hint database [spothinta], shared list lemmas.
    - Json.v: the values [response.json()] produces ([jvalue]) and the
      operations the code applies to them: [d[k]] ([py_getitem]),
      [d.get(k)] ([py_get]), truthiness, [float(...)] ([py_float]).
    - Clock.v: instants as integer UTC seconds; the time-zone interface
      [EetZone] (a Class: UTC+2 or +3, switching only at 01:00 UTC) with
      the laws the refresh rule needs, and its instance [helsinki] for
      [pytz.timezone('Europe/Helsinki')] (EU rule, from 1996 on).
    - IsoTime.v: [datetime.fromisoformat] on the provider's timestamps
      ([parse_iso], [fromisoformat]) and the printer [isoformat].
    - Refresh.v: the staleness test of [fetch_data] (lines 142-161) as
      [refresh_due], over any [EetZone], and the wall-clock rule
      [due_spec] it implements.
    - Store.v: the region dict ([region_cache], lines 48-60), the sort of
      the reply by ["DateTime"] (line 181; Python's stable sort as a
      stable insertion sort, [sort_by_datetime]) and [_process_data]
      ([process_data], lines 205-238).
    - Resolver.v: [calculate_current_price]'s loop and fallback
      ([scan_current], [fallback_last], [current_price_of], lines
      69-120) and the specification's rule [resolve_spec].
    - Api.v: the [SpotHintaAPI] object: its state [gmap string
      region_cache], [get_cache_data], [fetch_needed], [fetch_data]
      (lines 123-202), [calculate_current_price]; its invariants, the
      step relation [api_step] and reachability.
    - Transport.v: what [requests] makes of the network's answer
      (lines 175-178 and the [except] of lines 191-193): the URL,
      [raise_for_status] on the status code, [json()] on the body, as
      the [http_reply] [fetch_data] takes ([requests_reply]).
    - Runs.v: runs of coordinator polls against one API object
      ([fetch_run]) and the replies that follow the provider's format
      ([good_reply]).
    - Schema.v: the provider's record schema (spec section 6) as
      [record_wt], and type safety of the API object.
    - Contract.v: the specification's RegionCache (spec section 4.5)
      as a state of series and fetch instants with [ensure_fresh], and
      the relation [refines] between it and the code's cache.
    - Concurrency.v: Home Assistant's executor jobs, [fetch_data] and
      the sensor's price query, as threads:
      a heap of region dicts by identity ([cstate]), threads at a
      program point ([thread], [fpc]), one statement of one thread
      ([tstep]: the test, creation and return of [_get_cache_data], the
      reads of lines 135 and 139, the request, the stores of lines 185
      and 186, [_process_data]'s read and its two writes), the price
      query of [calculate_current_price] ([qstep]: [_get_cache_data]
      and one read of ['_data']), the coordinator refresh of
      sensor.py:85-100 ([cjob], [coord_step]: the executor job, the
      success test and [_get_cache_data] on the event loop), any
      interleaving ([conc_step], [mixed_step], [run_schedule],
      [run_mixed]) and a call run alone ([run_solo]).
    - Sensor.v: coordinators and sensors of sensor.py over a [world]
      that holds the API objects by identity, the entries' references to
      them and the aliasing of their region dicts by the coordinators
      ([coordinator_refresh], [sensor_update_state],
      [extra_state_attributes], [async_added_to_hass]).
    - Config.v: const.py and the configuration flow of config_flow.py.
    - Setup.v: [sensor.async_setup_entry], [__init__.async_setup_entry]
      and [__init__.async_unload_entry] on that world, and the host as
      a step relation with and without unloads.
    - Entities.v: the sensor entity's constant attributes and the
      identity [SpotHintaSensor.__init__] gives it ([sensor_init]), the
      sensor [async_setup_entry] builds for an entry ([setup_sensor]),
      and runs of the configuration flow ([run_flows]).
    - Provider.v: the provider's documented contract from the module
      comment of spothinta_api.py (parameters [request_ok], rate limit
      [per_minute_ok], the 429 answer [provider_answer]) and the host of Setup.v with the requests it
      sends as labels ([sent_step], [sent_run]).

    Components interact by calls: Setup calls Sensor and Config's
    constants, Sensor calls Api, Api calls Refresh, Store and Resolver,
    all of which read timestamps through IsoTime and zone offsets
    through the [EetZone] interface.  They also share state: every
    coordinator holds the one API object, whose region dicts the
    coordinators alias (Sensor.v) and whose [fetch_data] runs in
    concurrent executor threads (Concurrency.v).  The network, the
    clock and Home Assistant's scheduler enter as arguments:
    [fetch_data] takes the [http_reply] of [requests.get], the instant
    [now] of line 132 and the instant stored at line 186.

    ** What is proved (claims C1-C40 of the manifest)

    - Price query (C1, C12, C19): on the sorted series the store
      keeps, with prices that are [None] or numbers, the forward scan
      with early [break] equals the specification's rule "last record
      at or before now, else the last record"; a non-numeric price at
      the current record makes the code return the previous record's
      price instead; a query raises only in the fallback, because of
      the last record.
    - Refresh rule (C2, C7, C8, C25): [refresh_due] decides the
      wall-clock rule even across daylight-saving changes; a due region
      stays due until a fetch succeeds; at most two fetches per region
      and Helsinki day, and two do happen (midnight and 14:30) under the
      two-hour timer.
    - Store (C5, C6, C20, C21): the sort returns a sorted, stable
      permutation or raises the first bad record's error; min/max are
      the least and greatest readable tax-inclusive prices.
    - API object (C3, C4, C13-C15, C18): failed calls change nothing but
      the lazily created entry; a successful call installs the sorted
      reply, its instant and matching aggregates; every reachable state
      keeps sorted series; a region that has data never loses it; a
      list-valued price leaves stale aggregates beside a new series; an
      empty reply is refetched at every call.
    - Home Assistant glue (C9, C10): after a refresh a sensor shows the
      price its region's shared dict holds, which another sensor of the
      same region (other price type) may have written.
    - Parsing and configuration (C22, C23, C26, C27): ISO round trip,
      unique ids of config entries, the flow that never repeats them,
      and the sensors of the entries it creates, whose entity ids are
      pairwise distinct.
    - Sorting (C31): every stable sort by timestamp returns what the
      modelled insertion sort returns, so the choice of algorithm for
      CPython's [list.sort] is immaterial.
    - Runs (C32-C34): a due region is fetched at its next poll and is
      no longer due after a good reply; refetching at one instant
      terminates; under good replies at most two requests per region
      fall on one Helsinki date, whatever the interleaving.
    - Host (C35-C37): without unloads all entries share one API object;
      an unload pops it for every entry and doubles the requests; the
      configured resolution is shared by all entries of a region.
    - Type safety (C38, C39): with replies that follow the provider's
      schema neither [fetch_data] nor [calculate_current_price] raises
      and the cache keeps to the schema.
    - Provider (C16, C17): every request of every run of the host, from
      entries the configuration flow accepted, has the parameters the
      provider documents; the documented rate limit, though, is not
      respected: two regions set up at one instant send two requests
      in one second (Provider.setup_exceeds_rate_limit), and under a
      provider that answers 429 as documented the second setup fails
      with [ConfigEntryNotReady].
    - Refinement (C40): under good replies and transport failures
      [fetch_data] implements the specification's [ensureFresh] and
      calls the provider exactly when [isRefreshDue] holds.
    - Concurrency (C11, C24, C28-C30): a call that runs with no other
      thread in between is the sequential [fetch_data] of Api.v, which
      justifies the atomic-call model of the other files; under every
      interleaving of coordinator refreshes and price queries each dict
      keeps sorted data, each finished coordinator holds a dict with
      sorted data and each query answers on one whole stored series;
      but two calls that both find a region due both send the request
      (no coalescing), can leave one reply's series beside the other's
      min/max (no atomic install), and two first refreshes can store the
      reply into a dict the region no longer refers to, so that the
      coordinator whose fetch succeeded holds an empty dict (lost update
      at creation).

    ** Bounds and abstractions

    - Every loop of the code is a structural recursion over the reply
      list.  The one fuel of the development, that of [run_solo], is
      bounded by the statements of one call: 14 suffice on every path
      (C24), and more fuel gives the same result.
    - Threads interleave at the statements that read or write shared
      state; each such statement is one dict item access, atomic under
      CPython's interpreter lock.  Local computation (the refresh test,
      the sort, the min/max loop over the local [data]) reads no shared
      state and is folded into the adjacent step.
    - Instants are whole seconds.  The code compares instants with the
      cutover (a whole second) and with record timestamps (whole seconds
      in the provider's format), so flooring [datetime.now()] to the
      second does not change any comparison.
    - Prices are rationals (Q) where Python has binary floats: min, max
      and the resolver only copy and compare values, so rounding does
      not enter; NaN and infinities are not modelled.
    - [float(str)] accepts the decimal syntax (sign, digits, point,
      exponent, blanks); CPython also accepts "inf", "nan" and digit
      groups with "_", which are read as non-numeric here.
    - [fromisoformat] accepts YYYY-MM-DD?HH:MM:SS with a +HH:MM, -HH:MM
      or Z offset; CPython also accepts naive, fractional and basic-
      format timestamps, which the provider does not send.
    - The Helsinki zone follows the EU rule (last Sundays of March and
      October at 01:00 UTC), valid from 1996.

    ** Not modelled

    The network itself (its answer, or none within the 15 s timeout,
    is an input of Transport.v), logging (no effect on the program's
    state), Home Assistant's entity lifecycle and timers (steps
    chosen by the caller; the platform unload's result is an input).
    Outside Concurrency.v every call is one atomic step, which C24
    justifies for a call that runs alone.  CPython's [float]
    on "inf", "nan" and digit groups, and [fromisoformat] on forms the
    provider does not send, are read as errors (see above).
*)

From Stdlib Require Export ZArith QArith List String Ascii Lia Sorted Permutation.
From stdpp Require Export base list gmap strings.

(** ** Python exceptions and the result monad

    The Python code signals failure by raising.  Only the exception
    classes the modelled lines can raise or catch are distinguished. *)

Inductive py_exn : Type :=
| KeyError           (** [d[k]] on a dict without [k] *)
| TypeError          (** subscripting a non-dict, [float] of a container *)
| ValueError         (** [float] of a non-numeric string, bad ISO string *)
| AttributeError     (** [.sort] / [.get] on a value without that method *)
| RequestException.  (** [requests] transport, HTTP or JSON-decode error *)

#[export] Instance py_exn_eq_dec : EqDecision py_exn.
Proof. solve_decision. Qed.

(** A computation that returns a value or raises. *)
Inductive py_res (A : Type) : Type :=
| Ok (a : A)
| Raise (e : py_exn).
Arguments Ok {A} a.
Arguments Raise {A} e.

Definition py_bind {A B} (m : py_res A) (k : A -> py_res B) : py_res B :=
  match m with Ok a => k a | Raise e => Raise e end.

Declare Scope py_scope.
Delimit Scope py_scope with py.
Notation "x <- m ;; k" := (py_bind m (fun x => k))
  (at level 60, m at next level, right associativity) : py_scope.
Open Scope py_scope.

(** [for x in l: out.append(f(x))] where the first raise aborts. *)
Fixpoint py_mapM {A B} (f : A -> py_res B) (l : list A) : py_res (list B) :=
  match l with
  | [] => Ok []
  | x :: r => y <- f x ;; ys <- py_mapM f r ;; Ok (y :: ys)
  end.

(** Python's [<] on floats, read on rationals. *)
Definition q_lt (x y : Q) : bool := negb (Qle_bool y x).

Lemma q_lt_true x y : q_lt x y = true <-> (x < y)%Q.
Proof.
  unfold q_lt. rewrite negb_true_iff. split; intros H.
  - apply Qnot_le_lt. intros H'. apply Qle_bool_iff in H'. congruence.
  - destruct (Qle_bool y x) eqn:E; [|done].
    apply Qle_bool_iff in E. apply Qlt_not_le in H. contradiction.
Qed.

Lemma q_lt_false x y : q_lt x y = false <-> (y <= x)%Q.
Proof. unfold q_lt. rewrite negb_false_iff. apply Qle_bool_iff. Qed.

Create HintDb spothinta discriminated.

Ltac invc H := inversion H; subst; clear H.

(** ** Generic lemmas *)

Lemma py_bind_Ok {A B} (m : py_res A) (k : A -> py_res B) b :
  py_bind m k = Ok b <-> exists a, m = Ok a /\ k a = Ok b.
Proof.
  destruct m as [a|e]; simpl; split.
  - eauto.
  - by intros (a' & [= ->] & H).
  - discriminate.
  - by intros (a' & [=] & _).
Qed.

Lemma py_mapM_Ok {A B} (f : A -> py_res B) l ys :
  py_mapM f l = Ok ys <-> Forall2 (fun x y => f x = Ok y) l ys.
Proof.
  revert ys; induction l as [|x l IH]; intros ys; simpl.
  - split; [intros [= <-]; constructor | inversion 1; reflexivity].
  - rewrite py_bind_Ok. split.
    + intros (y & Hy & Hk). apply py_bind_Ok in Hk as (ys' & Hys & [= <-]).
      constructor; [done | by apply IH].
    + inversion 1 as [|? y ? ys' Hy Hr]; subst. exists y; split; [done|].
      apply py_bind_Ok. exists ys'. split; [by apply IH | done].
Qed.

Lemma py_mapM_total {A B} (f : A -> py_res B) l :
  Forall (fun x => exists y, f x = Ok y) l -> exists ys, py_mapM f l = Ok ys.
Proof.
  induction 1 as [|x l [y Hy] _ [ys IH]]; [by exists []|].
  exists (y :: ys). simpl. by rewrite Hy, IH.
Qed.

Lemma py_mapM_Raise {A B} (f : A -> py_res B) l e :
  py_mapM f l = Raise e <->
  exists pre x post ys, l = pre ++ x :: post /\
    Forall2 (fun x y => f x = Ok y) pre ys /\ f x = Raise e.
Proof.
  split.
  - revert e; induction l as [|a l IH]; simpl; intros e H; [discriminate|].
    destruct (f a) as [b|e'] eqn:Ha; simpl in H.
    + destruct (py_mapM f l) eqn:Hl; simpl in H; [discriminate|]. invc H.
      destruct (IH _ eq_refl) as (pre & x & post & ys & -> & HF & Hx).
      exists (a :: pre), x, post, (b :: ys). auto.
    + invc H. exists [], a, l, []. auto.
  - intros (pre & x & post & ys & -> & HF & Hx). induction HF as [|p y pre ys Hp _ IH]; simpl.
    + by rewrite Hx.
    + by rewrite Hp; simpl; rewrite IH.
Qed.

(** A boolean check of every element, for concrete lists. *)
Lemma forallb_Forall {A} (f : A -> bool) l : forallb f l = true -> Forall (fun x => f x = true) l.
Proof. intros H. apply List.Forall_forall. by apply forallb_forall. Qed.

Lemma Forall_forallb {A} (f : A -> bool) l : Forall (fun x => f x = true) l -> forallb f l = true.
Proof. intros H. apply forallb_forall. by apply List.Forall_forall. Qed.

Lemma Forall2_elem_of_l {A B} (P : A -> B -> Prop) l k x :
  Forall2 P l k -> x ∈ l -> exists y, P x y.
Proof.
  induction 1; intros Hx; [by apply elem_of_nil in Hx|].
  apply elem_of_cons in Hx as [->|Hx]; eauto.
Qed.

(** The first element of a list that fails a predicate is unique. *)
Lemma first_split_unique {A} (P : A -> Prop) pre1 x1 post1 pre2 x2 post2 :
  pre1 ++ x1 :: post1 = pre2 ++ x2 :: post2 ->
  Forall P pre1 -> Forall P pre2 -> ~ P x1 -> ~ P x2 ->
  pre1 = pre2 /\ x1 = x2 /\ post1 = post2.
Proof.
  revert pre2; induction pre1 as [|a pre1 IH]; intros [|b pre2] Heq H1 H2 N1 N2;
    simpl in Heq; invc Heq; try done.
  - by invc H2.
  - by invc H1.
  - invc H1. invc H2. destruct (IH pre2) as (-> & -> & ->); auto.
Qed.

(** The "keep the better one" fold that CPython's [min]/[max] run. *)
Definition fold_pick {A} (better : A -> A -> bool) (x : A) (xs : list A) : A :=
  fold_left (fun acc y => if better y acc then y else acc) xs x.

Lemma fold_pick_elem {A} (better : A -> A -> bool) x xs :
  fold_pick better x xs ∈ x :: xs.
Proof.
  unfold fold_pick. revert x; induction xs as [|y xs IH]; intros x; simpl.
  - left.
  - destruct (better y x).
    + right. apply IH.
    + destruct (proj1 (elem_of_cons _ _ _) (IH x)) as [->|Hx]; [left | right; right; exact Hx].
Qed.

Section FoldPick.
Context {A : Type} (better : A -> A -> bool) (R : A -> A -> Prop).
Hypothesis R_refl : forall x, R x x.
Hypothesis R_trans : forall x y z, R x y -> R y z -> R x z.
(** [R a b]: [a] is at least as good as [b] *)
Hypothesis better_R : forall x y, better x y = true -> R x y.
Hypothesis not_better_R : forall x y, better x y = false -> R y x.

Local Lemma fold_pick_best_acc xs : forall acc,
  R (fold_pick better acc xs) acc /\ forall w, w ∈ xs -> R (fold_pick better acc xs) w.
Proof.
  unfold fold_pick. induction xs as [|z xs IH]; intros acc; simpl.
  - split; [apply R_refl | intros w Hw; by apply elem_of_nil in Hw].
  - destruct (better z acc) eqn:Hb;
      [pose proof (better_R _ _ Hb) | pose proof (not_better_R _ _ Hb)];
      [destruct (IH z) as [H1 H2] | destruct (IH acc) as [H1 H2]];
      (split; [eauto | intros w [->|Hw]%elem_of_cons; eauto]).
Qed.

Lemma fold_pick_best x xs : forall y, y ∈ x :: xs -> R (fold_pick better x xs) y.
Proof.
  intros y [->|Hy]%elem_of_cons;
    [apply (proj1 (fold_pick_best_acc xs x)) | by apply (proj2 (fold_pick_best_acc xs x))].
Qed.
End FoldPick.


(** Case on the first [match] over a [py_res] in the goal. *)
Ltac py_case :=
  match goal with
  | |- context [match ?m with Ok _ => _ | Raise _ => _ end] =>
      let E := fresh "E" in destruct m eqn:E
  | |- context [py_bind ?m _] =>
      let E := fresh "E" in destruct m eqn:E; simpl
  end.
