(* ===== verification/Json.v ===== *)
(** * Json: the decoded API reply as the Python code sees it

    [response.json()] turns the reply body into Python values: [None],
    booleans, numbers, strings, lists and dicts.  The code then reads
    records with [item["DateTime"]] (spothinta_api.py:92, 181) and
    [item.get(key)] (lines 96, 113, 223), converts prices with
    [float(...)] (lines 99, 116, 226) and tests truthiness with
    [if last_item:] (line 112).  This file models those values and
    operations, each with the exception Python raises. *)

From S2P Require Import Prelude.

(** A decoded JSON value.  A JSON object is kept as the list of its
    members in text order: [json.loads] keeps the last of duplicated
    keys, which [assoc_last] reproduces. *)
#[warnings="-register-all"]
Inductive jvalue : Type :=
| JNull
| JBool (b : bool)
| JNum (q : Q)
| JStr (s : string)
| JArr (l : list jvalue)
| JObj (kvs : list (string * jvalue)).

(** The value bound to [k] by the last member named [k]. *)
Fixpoint assoc_last (k : string) (kvs : list (string * jvalue)) : option jvalue :=
  match kvs with
  | [] => None
  | (k', v) :: r =>
      match assoc_last k r with
      | Some w => Some w
      | None => if String.eqb k k' then Some v else None
      end
  end.

(** [d[k]]: [KeyError] on a dict without [k]; a list, a string or a
    number cannot be subscripted by a string ([TypeError]). *)
Definition py_getitem (d : jvalue) (k : string) : py_res jvalue :=
  match d with
  | JObj kvs => match assoc_last k kvs with Some v => Ok v | None => Raise KeyError end
  | _ => Raise TypeError
  end.

(** [d.get(k)]: [None] when [k] is missing; only dicts have [.get]. *)
Definition py_get (d : jvalue) (k : string) : py_res jvalue :=
  match d with
  | JObj kvs => match assoc_last k kvs with Some v => Ok v | None => Ok JNull end
  | _ => Raise AttributeError
  end.

(** Python truthiness ([if x:]). *)
Definition py_truthy (v : jvalue) : bool :=
  match v with
  | JNull => false
  | JBool b => b
  | JNum q => negb (Qeq_bool q 0)
  | JStr s => negb (String.eqb s "")
  | JArr l => negb (bool_decide (l = []))
  | JObj kvs => negb (bool_decide (kvs = []))
  end.

(** ** [float(s)] on strings

    The accepted syntax is the decimal one: optional blanks, an
    optional sign, digits with an optional point (at least one digit),
    an optional exponent, optional blanks.  The spellings [inf], [nan]
    and digit groups with [_], which CPython also accepts, are read as
    non-numeric here (see the header). *)

Definition is_blank (c : ascii) : bool :=
  match nat_of_ascii c with 32 | 9 | 10 | 11 | 12 | 13 => true | _ => false end.

Definition digit_of (c : ascii) : option Z :=
  let n := nat_of_ascii c in
  if (48 <=? n)%nat && (n <=? 57)%nat then Some (Z.of_nat n - 48)%Z else None.

Fixpoint strip_blanks (s : string) : string :=
  match s with
  | String c r => if is_blank c then strip_blanks r else s
  | EmptyString => EmptyString
  end.

Fixpoint rstrip_blanks (s : string) : string :=
  match s with
  | String c r =>
      let r' := rstrip_blanks r in
      if is_blank c && String.eqb r' "" then EmptyString else String c r'
  | EmptyString => EmptyString
  end.

(** Reads a run of digits: (value, number of digits, rest). *)
Fixpoint read_digits (s : string) (acc : Z) (n : nat) : Z * nat * string :=
  match s with
  | String c r =>
      match digit_of c with
      | Some d => read_digits r (10 * acc + d)%Z (S n)
      | None => (acc, n, s)
      end
  | EmptyString => (acc, n, s)
  end.

Definition read_sign (s : string) : Z * string :=
  match s with
  | String "-"%char r => (-1, r)%Z
  | String "+"%char r => (1, r)%Z
  | _ => (1%Z, s)
  end.

(** [m * 10^e] as a rational. *)
Definition scale10 (m e : Z) : Q :=
  if (0 <=? e)%Z then inject_Z (m * 10 ^ e) else m # Z.to_pos (10 ^ (- e)).

Definition parse_exponent (s : string) : option Z :=
  match s with
  | EmptyString => Some 0%Z
  | String c r =>
      if (Ascii.eqb c "e"%char || Ascii.eqb c "E"%char) then
        let '(sg, r1) := read_sign r in
        match read_digits r1 0 0 with
        | (e, S _, EmptyString) => Some (sg * e)%Z
        | _ => None
        end
      else None
  end.

Definition parse_float_str (s0 : string) : option Q :=
  let s := rstrip_blanks (strip_blanks s0) in
  let '(sg, s1) := read_sign s in
  let '(ip, ni, s2) := read_digits s1 0 0 in
  let '(fp, nf, s3) :=
    match s2 with
    | String "."%char r => read_digits r 0 0
    | _ => (0%Z, 0%nat, s2)
    end in
  let mant := (ip * 10 ^ Z.of_nat nf + fp)%Z in
  if (ni + nf =? 0)%nat then None
  else match parse_exponent s3 with
       | Some e => Some (scale10 (sg * mant) (e - Z.of_nat nf))
       | None => None
       end.

(** [float(v)]: numbers convert, booleans are 0 and 1, strings go
    through the parser ([ValueError] when it refuses), [None], lists
    and dicts raise [TypeError]. *)
Definition py_float (v : jvalue) : py_res Q :=
  match v with
  | JNum q => Ok q
  | JBool b => Ok (if b then 1 else 0)%Q
  | JStr s => match parse_float_str s with Some q => Ok q | None => Raise ValueError end
  | JNull | JArr _ | JObj _ => Raise TypeError
  end.

(** A value the code can store as a price without raising an error
    that escapes: [None], or something [float] accepts or refuses with
    [ValueError]. *)
Definition price_ok (v : jvalue) : bool :=
  match v with JArr _ | JObj _ => false | _ => true end.

(** ** Lemmas *)

Lemma py_float_raise v e : py_float v = Raise e ->
  e = TypeError /\ v = JNull \/ e = TypeError /\ price_ok v = false \/
  e = ValueError /\ exists s, v = JStr s /\ parse_float_str s = None.
Proof.
  destruct v; simpl; try (intros [= <-]; auto; fail); try discriminate.
  destruct (parse_float_str s) eqn:E; [discriminate|]. intros [= <-]. eauto 6.
Qed.

Lemma py_float_price_ok v e : price_ok v = true -> v <> JNull ->
  py_float v = Raise e -> e = ValueError.
Proof.
  intros Hok Hn Hf. apply py_float_raise in Hf as [[_ ->]|[[_ Hb]|[-> _]]]; congruence.
Qed.

Lemma py_get_obj kvs k : py_get (JObj kvs) k = Ok (default JNull (assoc_last k kvs)).
Proof. simpl. by destruct (assoc_last k kvs). Qed.

Lemma py_getitem_obj d k v : py_getitem d k = Ok v ->
  exists kvs, d = JObj kvs /\ assoc_last k kvs = Some v.
Proof.
  destruct d; simpl; try discriminate.
  destruct (assoc_last k kvs) eqn:E; [intros [= <-]; eauto | discriminate].
Qed.

Lemma py_getitem_get d k v : py_getitem d k = Ok v -> forall k', exists w, py_get d k' = Ok w.
Proof. intros (kvs & -> & _)%py_getitem_obj k'. rewrite py_get_obj. eauto. Qed.

Lemma py_getitem_truthy d k v : py_getitem d k = Ok v -> py_truthy d = true.
Proof.
  intros (kvs & -> & H)%py_getitem_obj. simpl.
  destruct kvs; [discriminate | reflexivity].
Qed.

#[export] Hint Resolve py_getitem_truthy py_float_price_ok : spothinta.

(** [float] of a string: blanks around a decimal are accepted,
    exponents scale, and a lone point or letters are refused. *)
Example parse_float_str_examples :
  parse_float_str " 0.125 " = Some (125 # 1000) /\
  parse_float_str "-3e2" = Some (inject_Z (-300)) /\
  parse_float_str "." = None /\ parse_float_str "abc" = None.
Proof. vm_compute. auto. Qed.
