(* ===== verification/Clock.v ===== *)
(** * Clock: instants, the civil calendar and the Europe/Helsinki zone

    An instant is an integer number of seconds since 1970-01-01T00:00Z
    (the code's [dt.datetime.now(dt.timezone.utc)] and the UTC value of
    every aware datetime).  The refresh rule of spothinta_api.py reads
    instants in [FINNISH_TIMEZONE = pytz.timezone('Europe/Helsinki')]
    (line 34).  The rule is proved against the interface [EetZone]: a
    UTC offset of two or three hours that changes only at 01:00 UTC,
    which is what the EU daylight-saving rule guarantees.  The
    instance [helsinki] implements the rule in force since 1996. *)

From S2P Require Import Prelude.

Open Scope Z_scope.

(** ** The zone interface *)

Class EetZone := {
  utcoffset : Z -> Z;
  (** EET (UTC+2) or EEST (UTC+3) *)
  utcoffset_bounds : forall t, 7200 <= utcoffset t <= 10800;
  (** the offset is constant from one 01:00 UTC to the next *)
  utcoffset_switch : forall t t', (t - 3600) / 86400 = (t' - 3600) / 86400 ->
                                  utcoffset t = utcoffset t'
}.

Section Local.
Context `{EetZone}.

(** Local wall-clock seconds ([t.astimezone(tz)] read as a naive time). *)
Definition local_secs (t : Z) : Z := t + utcoffset t.
(** [t.astimezone(tz).date()], as a day number. *)
Definition local_date (t : Z) : Z := local_secs t / 86400.
(** Seconds since local midnight. *)
Definition local_tod (t : Z) : Z := local_secs t mod 86400.
End Local.

(** ** The civil calendar (proleptic Gregorian) *)

(** Day number of [y-m-d] (1970-01-01 is day 0). *)
Definition days_from_civil (y m d : Z) : Z :=
  let y' := if m <=? 2 then y - 1 else y in
  let era := y' / 400 in
  let yoe := y' - era * 400 in
  let mp := if 2 <? m then m - 3 else m + 9 in
  let doy := (153 * mp + 2) / 5 + d - 1 in
  let doe := yoe * 365 + yoe / 4 - yoe / 100 + doy in
  era * 146097 + doe - 719468.

(** The year of day number [z]. *)
Definition year_of_day (z : Z) : Z :=
  let z' := z + 719468 in
  let era := z' / 146097 in
  let doe := z' - era * 146097 in
  let yoe := (doe - doe / 1460 + doe / 36524 - doe / 146096) / 365 in
  let doy := doe - (365 * yoe + yoe / 4 - yoe / 100) in
  let mp := (5 * doy + 2) / 153 in
  yoe + era * 400 + (if mp <? 10 then 0 else 1).

(** Day of the week, 0 = Sunday (1970-01-01 was a Thursday). *)
Definition weekday (z : Z) : Z := (z + 4) mod 7.

(** The last Sunday of a 31-day month. *)
Definition last_sunday (y m : Z) : Z :=
  let z := days_from_civil y m 31 in z - weekday z.

(** ** Europe/Helsinki

    EEST from the last Sunday of March, 01:00 UTC, to the last Sunday
    of October, 01:00 UTC.  [dst_day d] tells whether the UTC day [d],
    counted from 01:00 UTC, is in summer time. *)
Definition helsinki_dst_day (d : Z) : bool :=
  let y := year_of_day d in
  (last_sunday y 3 <=? d) && (d <? last_sunday y 10).

Definition helsinki_utcoffset (t : Z) : Z :=
  if helsinki_dst_day ((t - 3600) / 86400) then 10800 else 7200.

Lemma helsinki_utcoffset_bounds t : 7200 <= helsinki_utcoffset t <= 10800.
Proof. unfold helsinki_utcoffset. destruct (helsinki_dst_day _); lia. Qed.

Lemma helsinki_utcoffset_switch t t' :
  (t - 3600) / 86400 = (t' - 3600) / 86400 ->
  helsinki_utcoffset t = helsinki_utcoffset t'.
Proof. unfold helsinki_utcoffset. by intros ->. Qed.

#[export] Instance helsinki : EetZone := {|
  utcoffset := helsinki_utcoffset;
  utcoffset_bounds := helsinki_utcoffset_bounds;
  utcoffset_switch := helsinki_utcoffset_switch
|}.

(** ** Laws every [EetZone] satisfies *)

Section ZoneLaws.
Context `{EetZone}.

(** Between two instants whose offsets differ lies a 01:00 UTC. *)
Lemma utcoffset_change t t' : t <= t' -> utcoffset t <> utcoffset t' ->
  (t - 3600) / 86400 < (t' - 3600) / 86400.
Proof.
  intros Hle Hne.
  assert ((t - 3600) / 86400 <= (t' - 3600) / 86400) by (apply Z.div_le_mono; lia).
  destruct (Z.eq_dec ((t - 3600) / 86400) ((t' - 3600) / 86400)) as [E|E];
    [by apply utcoffset_switch in E | lia].
Qed.

(** The local calendar date never goes backwards. *)
Lemma local_date_mono t t' : t <= t' -> local_date t <= local_date t'.
Proof.
  intros Hle. unfold local_date, local_secs.
  pose proof (utcoffset_bounds t). pose proof (utcoffset_bounds t').
  destruct (Z.eq_dec (utcoffset t) (utcoffset t')) as [E|E].
  - rewrite E. apply Z.div_le_mono; lia.
  - pose proof (utcoffset_change t t' Hle E).
    Z.div_mod_to_equations. nia.
Qed.

(** From 04:00 local time on, the offset stays the same until the end
    of the local day. *)
Lemma utcoffset_same_day t t' : t <= t' -> local_date t = local_date t' ->
  14400 <= local_tod t -> utcoffset t = utcoffset t'.
Proof.
  intros Hle Hd Htod.
  destruct (Z.eq_dec (utcoffset t) (utcoffset t')) as [E|E]; [done|].
  pose proof (utcoffset_change t t' Hle E).
  pose proof (utcoffset_bounds t). pose proof (utcoffset_bounds t').
  revert Hd Htod. unfold local_date, local_tod, local_secs.
  Z.div_mod_to_equations. nia.
Qed.
End ZoneLaws.

#[export] Hint Resolve local_date_mono : spothinta.

(** In 2024 Helsinki switches to EEST at 2024-03-31 01:00 UTC and back
    to EET at 2024-10-27 01:00 UTC; winter and summer days read +2 and
    +3 hours. *)
Theorem helsinki_transitions_2024 :
  helsinki_utcoffset 1711846799 = 7200 /\ helsinki_utcoffset 1711846800 = 10800 /\
  helsinki_utcoffset 1729990799 = 10800 /\ helsinki_utcoffset 1729990800 = 7200 /\
  helsinki_utcoffset 1705320000 = 7200 /\ helsinki_utcoffset 1719835200 = 10800.
Proof. vm_compute. repeat split. Qed.
