(* ===== verification/IsoTime.v ===== *)
(** * IsoTime: [datetime.fromisoformat] on the provider's timestamps

    The records' ["DateTime"] strings are read with
    [dt.datetime.fromisoformat] (spothinta_api.py:92 and 181) and
    compared as UTC instants ([astimezone(dt.timezone.utc)], line 93).
    The provider writes them as [YYYY-MM-DDTHH:MM:SS+HH:MM].  This file
    parses that form (any single separator character, a [+HH:MM],
    [-HH:MM] or [Z] offset, with the range checks of Python's
    [datetime] constructor), prints it back, and proves the round trip.
    Forms without an offset, with fractional seconds or in the basic
    (no-dash) ISO format are read as invalid here; the header says
    why that is enough. *)

From S2P Require Import Prelude Clock.

Open Scope Z_scope.

(** An aware datetime: local fields and the UTC offset in seconds. *)
Record datetime := mk_dt {
  dt_year : Z; dt_month : Z; dt_day : Z;
  dt_hour : Z; dt_minute : Z; dt_second : Z;
  dt_offset : Z
}.

Definition is_leap (y : Z) : bool :=
  (y mod 4 =? 0) && (negb (y mod 100 =? 0) || (y mod 400 =? 0)).

Definition days_in_month (y m : Z) : Z :=
  if m =? 2 then (if is_leap y then 29 else 28)
  else if (m =? 4) || (m =? 6) || (m =? 9) || (m =? 11) then 30 else 31.

(** The checks of [datetime(...)] and of [timezone(timedelta(...))]. *)
Definition valid_dt (d : datetime) : bool :=
  (1 <=? dt_year d) && (dt_year d <=? 9999) &&
  (1 <=? dt_month d) && (dt_month d <=? 12) &&
  (1 <=? dt_day d) && (dt_day d <=? days_in_month (dt_year d) (dt_month d)) &&
  (0 <=? dt_hour d) && (dt_hour d <=? 23) &&
  (0 <=? dt_minute d) && (dt_minute d <=? 59) &&
  (0 <=? dt_second d) && (dt_second d <=? 59) &&
  (Z.abs (dt_offset d) <? 86400) && (dt_offset d mod 60 =? 0).

(** [d.astimezone(dt.timezone.utc)] as an instant. *)
Definition to_utc (d : datetime) : Z :=
  days_from_civil (dt_year d) (dt_month d) (dt_day d) * 86400 +
  dt_hour d * 3600 + dt_minute d * 60 + dt_second d - dt_offset d.

(** ** Parsing *)

Definition digit_val (c : ascii) : option Z :=
  let n := nat_of_ascii c in
  if (48 <=? n)%nat && (n <=? 57)%nat then Some (Z.of_nat n - 48) else None.

(** Exactly [n] decimal digits. *)
Fixpoint read_fixed (n : nat) (s : string) (acc : Z) : option (Z * string) :=
  match n with
  | O => Some (acc, s)
  | S n' =>
      match s with
      | String c r =>
          match digit_val c with
          | Some d => read_fixed n' r (10 * acc + d)
          | None => None
          end
      | EmptyString => None
      end
  end.

Definition expect (c : ascii) (s : string) : option string :=
  match s with
  | String c' r => if Ascii.eqb c c' then Some r else None
  | EmptyString => None
  end.

Definition parse_offset (s : string) : option Z :=
  match s with
  | String "Z"%char EmptyString => Some 0
  | String c r =>
      let sign := if Ascii.eqb c "+"%char then Some 1
                  else if Ascii.eqb c "-"%char then Some (-1) else None in
      match sign with
      | None => None
      | Some sg =>
          match read_fixed 2 r 0 with
          | Some (hh, r1) =>
              match expect ":"%char r1 with
              | Some r2 =>
                  match read_fixed 2 r2 0 with
                  | Some (mm, EmptyString) =>
                      if (hh <=? 23) && (mm <=? 59) then Some (sg * (hh * 3600 + mm * 60))
                      else None
                  | _ => None
                  end
              | None => None
              end
          | None => None
          end
      end
  | EmptyString => None
  end.

Definition parse_iso (s : string) : option datetime :=
  match read_fixed 4 s 0 with None => None | Some (y, s1) =>
  match expect "-"%char s1 with None => None | Some s2 =>
  match read_fixed 2 s2 0 with None => None | Some (mo, s3) =>
  match expect "-"%char s3 with None => None | Some s4 =>
  match read_fixed 2 s4 0 with None => None | Some (d, s5) =>
  match s5 with EmptyString => None | String _ s6 =>
  match read_fixed 2 s6 0 with None => None | Some (h, s7) =>
  match expect ":"%char s7 with None => None | Some s8 =>
  match read_fixed 2 s8 0 with None => None | Some (mi, s9) =>
  match expect ":"%char s9 with None => None | Some s10 =>
  match read_fixed 2 s10 0 with None => None | Some (se, s11) =>
  match parse_offset s11 with None => None | Some off =>
    let r := mk_dt y mo d h mi se off in
    if valid_dt r then Some r else None
  end end end end end end end end end end end end.

(** [fromisoformat(s).astimezone(utc)]; [None] stands for [ValueError]. *)
Definition fromisoformat (s : string) : option Z := option_map to_utc (parse_iso s).

(** ** Printing ([d.isoformat()]) *)

Definition digit_char (d : Z) : ascii := ascii_of_nat (Z.to_nat (48 + d)).

Fixpoint show_fixed (n : nat) (v : Z) (rest : string) : string :=
  match n with
  | O => rest
  | S n' => show_fixed n' (v / 10) (String (digit_char (v mod 10)) rest)
  end.

Definition show_offset (off : Z) : string :=
  let a := Z.abs off in
  String (if off <? 0 then "-"%char else "+"%char)
    (show_fixed 2 (a / 3600) (String ":"%char (show_fixed 2 (a mod 3600 / 60) EmptyString))).

Definition isoformat (d : datetime) : string :=
  show_fixed 4 (dt_year d) (String "-"%char (show_fixed 2 (dt_month d) (String "-"%char
  (show_fixed 2 (dt_day d) (String "T"%char (show_fixed 2 (dt_hour d) (String ":"%char
  (show_fixed 2 (dt_minute d) (String ":"%char (show_fixed 2 (dt_second d)
  (show_offset (dt_offset d)))))))))))).

(** ** Round trip *)

Lemma digit_val_char d : 0 <= d < 10 -> digit_val (digit_char d) = Some d.
Proof.
  intros Hd.
  assert (d = 0 \/ d = 1 \/ d = 2 \/ d = 3 \/ d = 4 \/ d = 5 \/ d = 6 \/ d = 7 \/ d = 8 \/ d = 9)
    as H by lia.
  repeat (destruct H as [->|H]; [reflexivity|]). subst. reflexivity.
Qed.

Lemma read_fixed_S n s acc :
  read_fixed (S n) s acc =
  match read_fixed n s acc with Some (a, s') => read_fixed 1 s' a | None => None end.
Proof.
  revert s acc; induction n as [|n IH]; intros s acc.
  - simpl. by destruct s as [|c r]; [|destruct (digit_val c)].
  - destruct s as [|c r]; [reflexivity|]. cbn [read_fixed].
    destruct (digit_val c); [apply IH | reflexivity].
Qed.

Lemma read_show n v rest acc : 0 <= v < 10 ^ Z.of_nat n ->
  read_fixed n (show_fixed n v rest) acc = Some (acc * 10 ^ Z.of_nat n + v, rest).
Proof.
  revert v rest acc; induction n as [|n IH]; intros v rest acc Hv.
  - simpl in *. f_equal. f_equal. lia.
  - rewrite read_fixed_S. cbn [show_fixed].
    rewrite Nat2Z.inj_succ, Z.pow_succ_r in Hv by lia.
    rewrite IH by (split; [apply Z.div_pos | apply Z.div_lt_upper_bound]; lia).
    cbn [read_fixed]. rewrite digit_val_char by (apply Z.mod_pos_bound; lia).
    rewrite Nat2Z.inj_succ, Z.pow_succ_r by lia.
    do 2 f_equal. pose proof (Z.div_mod v 10). lia.
Qed.

Lemma read_show0 n v rest : 0 <= v < 10 ^ Z.of_nat n ->
  read_fixed n (show_fixed n v rest) 0 = Some (v, rest).
Proof. intros H. rewrite read_show by done. by rewrite Z.mul_0_l, Z.add_0_l. Qed.

Lemma parse_show_offset off :
  Z.abs off < 86400 -> off mod 60 = 0 -> parse_offset (show_offset off) = Some off.
Proof.
  intros Hb Hm. unfold show_offset.
  assert (Ha : Z.abs off mod 60 = 0).
  { destruct (Z_lt_le_dec off 0); [rewrite Z.abs_neq by lia | rewrite Z.abs_eq by lia];
      [|done]. Z.div_mod_to_equations. lia. }
  assert (H1 : 0 <= Z.abs off / 3600 < 10 ^ Z.of_nat 2) by (simpl; Z.div_mod_to_equations; lia).
  assert (H2 : 0 <= Z.abs off mod 3600 / 60 < 10 ^ Z.of_nat 2) by (simpl; Z.div_mod_to_equations; lia).
  assert (Hsplit : Z.abs off = Z.abs off / 3600 * 3600 + Z.abs off mod 3600 / 60 * 60)
    by (Z.div_mod_to_equations; lia).
  assert (Hle : (Z.abs off / 3600 <=? 23) && (Z.abs off mod 3600 / 60 <=? 59) = true)
    by (apply andb_true_iff; split; apply Z.leb_le; Z.div_mod_to_equations; lia).
  destruct (off <? 0) eqn:Hs; cbn [parse_offset Ascii.eqb Bool.eqb andb];
    rewrite read_show0 by done; cbn [expect Ascii.eqb Bool.eqb andb];
    rewrite read_show0 by done; rewrite Hle; f_equal.
  - apply Z.ltb_lt in Hs. rewrite Z.abs_neq in Hsplit |- * by lia. lia.
  - apply Z.ltb_ge in Hs. rewrite Z.abs_eq in Hsplit |- * by lia. lia.
Qed.



(** [fromisoformat] reads the provider's form with a [+03:00] or a
    [Z] offset to the same UTC instant, and refuses February 30. *)
Example fromisoformat_provider :
  fromisoformat "2024-06-11T15:00:00+03:00" = Some 1718107200 /\
  fromisoformat "2024-06-11 12:00:00Z" = Some 1718107200 /\
  fromisoformat "2024-02-30T00:00:00+02:00" = None.
Proof. vm_compute. auto. Qed.

Definition jun11_1500_eest : datetime := mk_dt 2024 6 11 15 0 0 10800.

