(* ===== verification/Refresh.v ===== *)
(** * Refresh: the daily refresh rule of [fetch_data]

    spothinta_api.py:142-161 decides, for a region that already holds
    data and a last-fetch instant, whether the API must be called
    again: when the last fetch is before today's 14:30 Helsinki time
    and that time has passed, or when the Helsinki date has changed.
    [refresh_due] is that test, over any [EetZone].

    The abstract rule [due_spec] says the same thing in wall-clock
    terms (date and time of day of both instants); [refresh_due_spec]
    proves that the code's instant comparisons, with pytz's [replace]
    keeping the offset of [now], implement it. *)

From S2P Require Import Prelude Clock.

Open Scope Z_scope.

Definition NEW_DATA_HOUR : Z := 14.
Definition NEW_DATA_MINUTE : Z := 30.

(** 14:30 as seconds after local midnight. *)
Definition cutover : Z := NEW_DATA_HOUR * 3600 + NEW_DATA_MINUTE * 60.

Lemma cutover_eq : cutover = 52200.
Proof. reflexivity. Qed.

Section Policy.
Context `{EetZone}.

(** [now_fi.replace(hour=14, minute=30, second=0, microsecond=0)] as
    an instant: today's local date at 14:30, read with the offset of
    [now_fi] (pytz's [replace] keeps the tzinfo). *)
Definition fetch_time_today (now : Z) : Z :=
  local_date now * 86400 + NEW_DATA_HOUR * 3600 + NEW_DATA_MINUTE * 60 - utcoffset now.

(** Lines 145-159: [(is_stale and is_past_fetch_time) or
    (last_fetch_fi.date() < now_fi.date())]. *)
Definition refresh_due (last_fetch now : Z) : bool :=
  let is_stale := last_fetch <? fetch_time_today now in
  let is_past_fetch_time := fetch_time_today now <=? now in
  (is_stale && is_past_fetch_time) || (local_date last_fetch <? local_date now).

(** The rule in wall-clock terms: a later local date, or the same
    date with the cutover between the two times of day. *)
Definition due_spec (last_fetch now : Z) : Prop :=
  local_date last_fetch < local_date now \/
  (local_date last_fetch = local_date now /\
   local_tod last_fetch < cutover <= local_tod now).

#[export] Instance due_spec_dec last_fetch now : Decision (due_spec last_fetch now).
Proof. unfold due_spec. apply _. Defined.

(** ** Helper lemmas *)

Lemma local_decomp t :
  local_secs t = 86400 * local_date t + local_tod t /\ 0 <= local_tod t < 86400.
Proof.
  unfold local_date, local_tod. split; [apply Z.div_mod; lia | apply Z.mod_pos_bound; lia].
Qed.

(** Before 04:00 or with the offset of [now]: either way a same-day
    instant whose time of day is before 14:30 precedes the cutover. *)
Lemma same_day_offset t n : t <= n -> local_date t = local_date n ->
  utcoffset t = utcoffset n \/ local_tod t < 14400.
Proof.
  intros Hle Hd. destruct (Z_lt_le_dec (local_tod t) 14400); [by right|].
  left. by apply utcoffset_same_day.
Qed.

Lemma due_before t n : refresh_due t n = true -> t < n.
Proof.
  unfold refresh_due. intros [[Hs Hp]%andb_true_iff | Hd]%orb_true_iff.
  - apply Z.ltb_lt in Hs. apply Z.leb_le in Hp. lia.
  - apply Z.ltb_lt in Hd. destruct (Z_lt_le_dec t n); [done|].
    pose proof (local_date_mono n t). lia.
Qed.

Ltac zone_facts t n :=
  pose proof (local_decomp t); pose proof (local_decomp n);
  pose proof (utcoffset_bounds t); pose proof (utcoffset_bounds n);
  unfold local_secs in *.

(** ** Properties *)

(** The code's instant comparisons decide the wall-clock rule. *)
Lemma refresh_due_wallclock (last_fetch now : Z) :
  last_fetch <= now -> refresh_due last_fetch now = true <-> due_spec last_fetch now.
Proof.
  intros Hle. pose proof (local_date_mono _ _ Hle).
  unfold refresh_due, due_spec, fetch_time_today, cutover, NEW_DATA_HOUR, NEW_DATA_MINUTE.
  rewrite orb_true_iff, andb_true_iff, Z.ltb_lt, Z.leb_le, Z.ltb_lt.
  destruct (Z.eq_dec (local_date last_fetch) (local_date now)) as [Hd|Hd]; [|lia].
  destruct (same_day_offset _ _ Hle Hd) as [Ho|Ho];
    zone_facts last_fetch now; lia.
Qed.

(** C2: for a last fetch not after [now], [refresh_due] is the decision
    procedure of the wall-clock rule: a later Helsinki date, or the
    same date with 14:30 between the two times of day. *)
Theorem refresh_due_spec (last_fetch now : Z) :
  last_fetch <= now -> refresh_due last_fetch now = bool_decide (due_spec last_fetch now).
Proof.
  intros Hle. destruct (refresh_due last_fetch now) eqn:E; symmetry;
    [apply bool_decide_eq_true | apply bool_decide_eq_false].
  - by apply refresh_due_wallclock.
  - intros Hs. apply refresh_due_wallclock in Hs; congruence.
Qed.

(** C7: Once due, the region stays due until a fetch succeeds. *)
Theorem refresh_due_persists (last_fetch now now' : Z) :
  refresh_due last_fetch now = true -> now <= now' ->
  refresh_due last_fetch now' = true.
Proof.
  intros Hdue Hle. pose proof (due_before _ _ Hdue) as Hlt.
  apply refresh_due_wallclock in Hdue; [|lia]. apply refresh_due_wallclock; [lia|].
  pose proof (local_date_mono _ _ Hle) as Hmono.
  destruct Hdue as [Hd | (Hd & Htl & Htn)]; [left; lia|].
  destruct (Z.eq_dec (local_date now) (local_date now')) as [Hd'|Hd']; [|left; lia].
  right. split; [lia|]. split; [done|].
  assert (Ho : utcoffset now = utcoffset now').
  { apply utcoffset_same_day; [done | done | rewrite cutover_eq in *; lia]. }
  zone_facts now now'. rewrite cutover_eq in *. lia.
Qed.

(** Right after a fetch at [T] before 14:30, the region is not due
    for the rest of the morning and is due from 14:30 on. *)
Theorem refresh_due_same_day (last_fetch now : Z) :
  last_fetch <= now -> local_date last_fetch = local_date now ->
  local_tod last_fetch < cutover ->
  refresh_due last_fetch now = true <-> cutover <= local_tod now.
Proof.
  intros Hle Hd Ht. rewrite refresh_due_wallclock by done. unfold due_spec. lia.
Qed.

(** C8: A fetch made when due starts a new local date or crosses 14:30,
    so three successive fetches never share a local date: at most
    two calls per region and local day. *)
Theorem at_most_two_fetches_per_day (t1 t2 t3 : Z) :
  refresh_due t1 t2 = true -> refresh_due t2 t3 = true ->
  local_date t1 < local_date t3.
Proof.
  intros H12 H23.
  pose proof (due_before _ _ H12). pose proof (due_before _ _ H23).
  apply refresh_due_wallclock in H12, H23; try lia.
  pose proof (local_date_mono t1 t2). pose proof (local_date_mono t2 t3).
  unfold due_spec in *. lia.
Qed.
End Policy.

#[export] Hint Resolve due_before : spothinta.

(** ** Europe/Helsinki instances *)

(** 2024-06-10 15:00, 2024-06-11 01:00 and 2024-06-11 15:00 local
    (EEST), as instants. *)
Definition jun10_1500 : Z := 1718020800.
Definition jun11_0100 : Z := 1718056800.
Definition jun11_1500 : Z := 1718107200.

(** With the code's rule a region fetched in the afternoon is fetched
    again just after midnight (new date) and once more after 14:30:
    two API calls in the same Helsinki day, not one. *)
Theorem two_fetches_same_day :
  refresh_due jun10_1500 jun11_0100 = true /\
  refresh_due jun11_0100 jun11_1500 = true /\
  local_date jun11_0100 = local_date jun11_1500.
Proof. vm_compute. auto. Qed.

Lemma refresh_due_spec_witness :
  jun10_1500 <= jun11_0100 /\
  refresh_due jun10_1500 jun11_0100 = bool_decide (due_spec jun10_1500 jun11_0100).
Proof.
  assert (H : jun10_1500 <= jun11_0100) by (unfold jun10_1500, jun11_0100; lia).
  split; [exact H | exact (refresh_due_spec _ _ H)].
Defined.

Lemma refresh_due_persists_witness :
  refresh_due jun10_1500 jun11_0100 = true /\ jun11_0100 <= jun11_1500 /\
  refresh_due jun10_1500 jun11_1500 = true.
Proof.
  assert (H : refresh_due jun10_1500 jun11_0100 = true) by (vm_compute; reflexivity).
  split; [exact H | split; [unfold jun11_0100, jun11_1500; lia |]].
  apply (refresh_due_persists jun10_1500 jun11_0100 jun11_1500 H). unfold jun11_0100, jun11_1500; lia.
Defined.

Lemma refresh_due_same_day_witness :
  jun11_0100 <= jun11_1500 /\ local_date jun11_0100 = local_date jun11_1500 /\
  local_tod jun11_0100 < cutover /\
  (refresh_due jun11_0100 jun11_1500 = true <-> cutover <= local_tod jun11_1500).
Proof.
  assert (H1 : jun11_0100 <= jun11_1500) by (unfold jun11_0100, jun11_1500; lia).
  assert (H2 : local_date jun11_0100 = local_date jun11_1500) by (vm_compute; reflexivity).
  assert (H3 : local_tod jun11_0100 < cutover) by (vm_compute; reflexivity).
  split; [exact H1 | split; [exact H2 | split; [exact H3 | apply (refresh_due_same_day _ _ H1 H2 H3)]]].
Defined.

Lemma at_most_two_fetches_per_day_witness :
  refresh_due jun10_1500 jun11_0100 = true /\ refresh_due jun11_0100 (jun11_1500 + 86400) = true /\
  local_date jun10_1500 < local_date (jun11_1500 + 86400).
Proof.
  assert (H1 : refresh_due jun10_1500 jun11_0100 = true) by (vm_compute; reflexivity).
  assert (H2 : refresh_due jun11_0100 (jun11_1500 + 86400) = true) by (vm_compute; reflexivity).
  split; [exact H1 | split; [exact H2 | exact (at_most_two_fetches_per_day _ _ _ H1 H2)]].
Defined.
