(* ===== verification/Store.v ===== *)
(** * Store: the per-region cache entry, sorting and min/max

    [SpotHintaAPI._get_cache_data] (spothinta_api.py:48-60) creates for
    each region a dict with the raw API reply ['_data'], the UTC instant
    ['last_fetch'] and the aggregates ['min_price'] / ['max_price'].
    [region_cache] is that dict.  [fetch_data] sorts a new reply by
    ['DateTime'] (line 181) before storing it, and [_process_data]
    (lines 205-238) recomputes min and max of the ['PriceWithTax']
    values.  Timestamps are read with a [fromisoformat] given as a
    section parameter (the ISO parser of IsoTime.v in Api.v). *)

From S2P Require Import Prelude Json IsoTime.

Open Scope Z_scope.

(** The cache dict of one region. *)
Record region_cache := mk_cache {
  cache_data : option (list jvalue);   (** ['_data']: None or the sorted reply *)
  last_fetch : option Z;               (** ['last_fetch']: UTC instant *)
  min_price : option Q;                (** ['min_price'] *)
  max_price : option Q                 (** ['max_price'] *)
}.

(** The initial dict of [_get_cache_data]. *)
Definition empty_cache : region_cache := mk_cache None None None None.

(** [if not cache.get('_data')]: [None] and the empty list are falsy. *)
Definition data_truthy (c : region_cache) : bool :=
  match cache_data c with Some (_ :: _) => true | _ => false end.

(** ** Sorting by timestamp *)

(** A sorted list of integers, as a test. *)
Fixpoint zsorted (ks : list Z) : bool :=
  match ks with
  | a :: ((b :: _) as r) => (a <=? b) && zsorted r
  | _ => true
  end.

(** Stable insertion: after every element whose key is not larger. *)
Fixpoint insert_by_key {A} (kx : Z * A) (l : list (Z * A)) : list (Z * A) :=
  match l with
  | [] => [kx]
  | ky :: r => if fst kx <? fst ky then kx :: ky :: r else ky :: insert_by_key kx r
  end.

Definition isort_by_key {A} (l : list (Z * A)) : list (Z * A) :=
  fold_left (fun acc kx => insert_by_key kx acc) l [].

Section Sorting.
Context (fromisoformat : string -> option Z).

(** [dt.datetime.fromisoformat(item["DateTime"])] as a UTC instant. *)
Definition item_datetime (item : jvalue) : py_res Z :=
  s <- py_getitem item "DateTime" ;;
  match s with
  | JStr str => match fromisoformat str with Some t => Ok t | None => Raise ValueError end
  | _ => Raise TypeError
  end.

(** [new_data.sort(key=lambda item: fromisoformat(item["DateTime"]))]:
    all keys are computed first, the first failure propagates and
    leaves nothing sorted; list.sort is stable. *)
Definition sort_by_datetime (items : list jvalue) : py_res (list jvalue) :=
  keys <- py_mapM item_datetime items ;;
  Ok (map snd (isort_by_key (combine keys items))).

(** [response.json()] must be a list for [.sort] to exist. *)
Definition sort_reply (body : jvalue) : py_res (list jvalue) :=
  match body with
  | JArr items => sort_by_datetime items
  | _ => Raise AttributeError
  end.

(** The store invariant on ['_data']: every record has a readable
    timestamp and the timestamps are non-decreasing. *)
Definition sorted_items (l : list jvalue) : bool :=
  match py_mapM item_datetime l with Ok ks => zsorted ks | Raise _ => false end.

Definition key_is (k : Z) (item : jvalue) : bool :=
  match item_datetime item with Ok t => t =? k | Raise _ => false end.
End Sorting.

(** ** Lemmas on the insertion sort *)

Definition key_le {A} (x y : Z * A) : Prop := fst x <= fst y.

Lemma zsorted_Sorted ks : zsorted ks = true <-> Sorted Z.le ks.
Proof.
  induction ks as [|a [|b r] IH]; simpl; [split; auto | split; auto |].
  rewrite andb_true_iff, Z.leb_le, IH. split.
  - intros [Hab Hr]. constructor; [done | by constructor].
  - intros Hs. invc Hs. match goal with H : HdRel _ _ _ |- _ => invc H end. auto.
Qed.

Lemma Sorted_map_fst {A} (l : list (Z * A)) :
  Sorted key_le l -> Sorted Z.le (map fst l).
Proof.
  induction 1 as [|x l Hl IH Hd]; simpl; constructor; [done|].
  destruct Hd; simpl; constructor. done.
Qed.

Lemma insert_by_key_perm {A} (kx : Z * A) l : Permutation (insert_by_key kx l) (kx :: l).
Proof.
  induction l as [|ky l IH]; simpl; [done|].
  destruct (fst kx <? fst ky); [done|]. rewrite IH. apply perm_swap.
Qed.

Lemma HdRel_insert {A} (a kx : Z * A) l :
  HdRel key_le a l -> fst a <= fst kx -> HdRel key_le a (insert_by_key kx l).
Proof.
  destruct l as [|ky l]; simpl; intros Hd Hle.
  - by constructor.
  - destruct (fst kx <? fst ky); constructor; [done | by invc Hd].
Qed.

Lemma insert_by_key_sorted {A} (kx : Z * A) l :
  Sorted key_le l -> Sorted key_le (insert_by_key kx l).
Proof.
  induction 1 as [|ky l Hl IH Hd]; simpl; [by repeat constructor|].
  destruct (fst kx <? fst ky) eqn:E.
  - apply Z.ltb_lt in E. constructor; [by constructor | constructor; unfold key_le; lia].
  - apply Z.ltb_ge in E. constructor; [done | apply HdRel_insert; done].
Qed.

Lemma isort_perm {A} (l acc : list (Z * A)) :
  Permutation (fold_left (fun acc kx => insert_by_key kx acc) l acc) (acc ++ l).
Proof.
  revert acc; induction l as [|kx l IH]; intros acc; simpl; [by rewrite app_nil_r|].
  rewrite IH, insert_by_key_perm. apply Permutation_middle.
Qed.

Lemma isort_sorted {A} (l acc : list (Z * A)) :
  Sorted key_le acc -> Sorted key_le (fold_left (fun acc kx => insert_by_key kx acc) l acc).
Proof.
  revert acc; induction l as [|kx l IH]; intros acc Hs; simpl; [done|].
  apply IH, insert_by_key_sorted, Hs.
Qed.

Lemma filter_key_above {A} k (l : list (Z * A)) :
  Forall (fun p => k < fst p) l -> List.filter (fun p => fst p =? k) l = [].
Proof.
  induction 1 as [|p l Hp _ IH]; simpl; [done|].
  destruct (fst p =? k) eqn:E; [apply Z.eqb_eq in E; lia | done].
Qed.

#[export] Instance key_le_trans {A} : Transitive (@key_le A).
Proof. intros x y z. unfold key_le. lia. Qed.

Lemma Sorted_key_above {A} (ky : Z * A) l :
  Sorted key_le (ky :: l) -> Forall (fun p => fst ky <= fst p) (ky :: l).
Proof.
  intros Hs. apply Sorted_StronglySorted in Hs; [|exact key_le_trans].
  constructor; [lia|]. apply StronglySorted_inv in Hs as [_ HF]. exact HF.
Qed.

Lemma filter_cons_eq {A} (f : A -> bool) x l :
  List.filter f (x :: l) = if f x then x :: List.filter f l else List.filter f l.
Proof. reflexivity. Qed.

Lemma filter_insert_by_key {A} k (kx : Z * A) l : Sorted key_le l ->
  List.filter (fun p => fst p =? k) (insert_by_key kx l) =
  List.filter (fun p => fst p =? k) l ++ (if fst kx =? k then [kx] else []).
Proof.
  induction 1 as [|ky l Hl IH Hd]; [simpl; by destruct (fst kx =? k)|].
  cbn [insert_by_key]. destruct (fst kx <? fst ky) eqn:E.
  - apply Z.ltb_lt in E. rewrite filter_cons_eq.
    destruct (fst kx =? k) eqn:Ek; [|by rewrite app_nil_r].
    apply Z.eqb_eq in Ek. rewrite (filter_key_above k (ky :: l)); [done|].
    eapply Forall_impl; [apply (Sorted_key_above _ _ (Sorted_cons Hl Hd))|].
    simpl. intros p Hp. lia.
  - simpl. rewrite IH. by destruct (fst ky =? k).
Qed.

(** Stability: the elements of each key keep their input order. *)
Lemma filter_isort {A} k (l acc : list (Z * A)) : Sorted key_le acc ->
  List.filter (fun p => fst p =? k) (fold_left (fun acc kx => insert_by_key kx acc) l acc) =
  List.filter (fun p => fst p =? k) acc ++ List.filter (fun p => fst p =? k) l.
Proof.
  revert acc; induction l as [|kx l IH]; intros acc Hs; simpl; [by rewrite app_nil_r|].
  rewrite IH by (by apply insert_by_key_sorted).
  rewrite filter_insert_by_key by done. rewrite <- app_assoc. by destruct (fst kx =? k).
Qed.

(** ** Uniqueness of stable sorts

    Two lists sorted by a key, with the same elements of each key in the
    same order, are equal.  So every stable sort returns what
    [isort_by_key] returns, whatever algorithm it runs (CPython's
    [list.sort] is a stable merge sort). *)
Section StableUnique.
Context {A : Type} (kf : A -> Z).
Local Abbreviation kle := (fun x y => kf x <= kf y).
Local Abbreviation kfilter k := (List.filter (fun x => kf x =? k)).

Lemma kfilter_nonempty k z l : In z l -> kf z = k -> kfilter k l <> [].
Proof.
  intros Hin Hk Hnil. assert (In z (kfilter k l)) as Hz.
  { apply filter_In. split; [done | by apply Z.eqb_eq]. }
  rewrite Hnil in Hz. done.
Qed.

Lemma kfilter_in k z l : In z (kfilter k l) -> In z l /\ kf z = k.
Proof. intros [? ?%Z.eqb_eq]%filter_In. done. Qed.

Lemma sorted_head_min x r z : Sorted kle (x :: r) -> In z (x :: r) -> kf x <= kf z.
Proof.
  intros Hs Hz. apply Sorted_StronglySorted in Hs; [|intros ???; simpl; lia].
  apply StronglySorted_inv in Hs as [_ HF]. destruct Hz as [<-|Hz]; [lia|].
  exact (proj1 (List.Forall_forall _ _) HF z Hz).
Qed.

Lemma stable_sorted_unique l1 l2 : Sorted kle l1 -> Sorted kle l2 ->
  (forall k, kfilter k l1 = kfilter k l2) -> l1 = l2.
Proof.
  revert l2. induction l1 as [|x r1 IH]; intros [|y r2] H1 H2 Hf; [done| | |].
  - destruct (kfilter_nonempty (kf y) y (y :: r2)); [by left | done | by rewrite <- Hf].
  - destruct (kfilter_nonempty (kf x) x (x :: r1)); [by left | done | by rewrite Hf].
  - assert (Hxy : kf x = kf y).
    { pose proof (Hf (kf y)) as Fy. pose proof (Hf (kf x)) as Fx.
      assert (In y (kfilter (kf y) (x :: r1))) as Hy%kfilter_in
        by (rewrite Fy; apply filter_In; split; [by left | apply Z.eqb_refl]).
      assert (In x (kfilter (kf x) (y :: r2))) as Hx%kfilter_in
        by (rewrite <- Fx; apply filter_In; split; [by left | apply Z.eqb_refl]).
      pose proof (sorted_head_min _ _ _ H1 (proj1 Hy)).
      pose proof (sorted_head_min _ _ _ H2 (proj1 Hx)). lia. }
    pose proof (Hf (kf x)) as Fx. cbn [List.filter] in Fx.
    rewrite Z.eqb_refl, Hxy, Z.eqb_refl in Fx. injection Fx as <- _.
    f_equal. apply IH; [exact (proj1 (Sorted_inv H1)) | exact (proj1 (Sorted_inv H2)) |].
    intros k. pose proof (Hf k) as Fk. cbn [List.filter] in Fk.
    destruct (kf x =? k); [by injection Fk | done].
Qed.
End StableUnique.

Section SortProps.
Context (fromisoformat : string -> option Z).
Local Abbreviation item_dt := (item_datetime fromisoformat).
Local Abbreviation consistent := (fun p : Z * jvalue => item_dt (snd p) = Ok (fst p)).

Lemma combine_consistent items ks : Forall2 (fun it k => item_dt it = Ok k) items ks ->
  map snd (combine ks items) = items /\ Forall consistent (combine ks items).
Proof.
  induction 1 as [|it k items ks Hk _ [IH1 IH2]]; simpl; [done|].
  split; [by rewrite IH1 | by constructor].
Qed.

Lemma mapM_consistent (qs : list (Z * jvalue)) :
  Forall consistent qs -> py_mapM item_dt (map snd qs) = Ok (map fst qs).
Proof.
  intros H. apply py_mapM_Ok. induction H; simpl; by constructor.
Qed.

Lemma filter_key_is_consistent k (qs : list (Z * jvalue)) : Forall consistent qs ->
  List.filter (key_is fromisoformat k) (map snd qs) =
  map snd (List.filter (fun p => fst p =? k) qs).
Proof.
  induction 1 as [|p qs Hp _ IH]; [done|]. simpl. unfold key_is at 1. rewrite Hp.
  destruct (fst p =? k); simpl; by rewrite IH.
Qed.

Lemma sorted_items_Sorted l : sorted_items fromisoformat l = true ->
  exists ks, py_mapM item_dt l = Ok ks /\ Sorted Z.le ks.
Proof.
  unfold sorted_items. destruct (py_mapM item_dt l) as [ks|]; [|discriminate].
  intros H%zsorted_Sorted. eauto.
Qed.

Lemma sort_by_datetime_sorted items out :
  sort_by_datetime fromisoformat items = Ok out -> sorted_items fromisoformat out = true.
Proof.
  unfold sort_by_datetime. intros (ks & Hks & [= <-])%py_bind_Ok.
  apply py_mapM_Ok in Hks. destruct (combine_consistent _ _ Hks) as [_ Hcons].
  pose proof (isort_perm (combine ks items) []) as Hperm. simpl in Hperm.
  unfold sorted_items. rewrite mapM_consistent.
  - apply zsorted_Sorted, Sorted_map_fst, isort_sorted. constructor.
  - eapply Permutation_Forall; [symmetry; exact Hperm | exact Hcons].
Qed.

(** The per-key filters of the sort's output are the reply's. *)
Lemma sort_by_datetime_filter items out :
  sort_by_datetime fromisoformat items = Ok out ->
  Permutation items out /\
  forall k, List.filter (key_is fromisoformat k) out = List.filter (key_is fromisoformat k) items.
Proof.
  unfold sort_by_datetime. intros (ks & Hks & [= <-])%py_bind_Ok.
  apply py_mapM_Ok in Hks. destruct (combine_consistent _ _ Hks) as [Hsnd Hcons].
  pose proof (isort_perm (combine ks items) []) as Hperm. simpl in Hperm.
  assert (Hcons' : Forall consistent (isort_by_key (combine ks items))).
  { eapply Permutation_Forall; [symmetry; exact Hperm | exact Hcons]. }
  split.
  - rewrite <- Hsnd at 1. apply Permutation_map. by symmetry.
  - intros k. rewrite filter_key_is_consistent by done.
    rewrite <- Hsnd at 2. rewrite filter_key_is_consistent by done.
    unfold isort_by_key. by rewrite filter_isort by constructor.
Qed.

(** C5: The sort of line 181 returns the records ordered by timestamp, as a
    permutation of the reply, keeping the reply order among records
    with the same timestamp. *)
Theorem sort_by_datetime_spec items out :
  sort_by_datetime fromisoformat items = Ok out ->
  sorted_items fromisoformat out = true /\ Permutation items out /\
  forall k, List.filter (key_is fromisoformat k) out = List.filter (key_is fromisoformat k) items.
Proof.
  intros Hsort. split; [exact (sort_by_datetime_sorted _ _ Hsort) | exact (sort_by_datetime_filter _ _ Hsort)].
Qed.

(** The key a record's timestamp gives it (0 for unreadable ones). *)
Definition item_key (x : jvalue) : Z := match item_dt x with Ok t => t | Raise _ => 0 end.

Lemma sorted_items_keyed l : sorted_items fromisoformat l = true ->
  Sorted (fun x y => item_key x <= item_key y) l /\
  forall k, List.filter (key_is fromisoformat k) l = List.filter (fun x => item_key x =? k) l.
Proof.
  intros (ks & Hks & Hs)%sorted_items_Sorted. apply py_mapM_Ok in Hks.
  assert (Hmap : map item_key l = ks /\ Forall (fun x => item_dt x = Ok (item_key x)) l).
  { clear Hs. induction Hks as [|x k l ks Hx _ [IH1 IH2]]; [done|].
    assert (Ek : item_key x = k) by (unfold item_key; by rewrite Hx).
    simpl. rewrite Ek, IH1. split; [done | constructor; [by rewrite Ek | done]]. }
  destruct Hmap as [<- HF]. split.
  - clear -Hs. induction l as [|x l IH]; [constructor|]. simpl in Hs. invc Hs.
    constructor; [by apply IH|]. destruct l; constructor. by invc H2.
  - intros k. apply filter_ext_in. intros x Hx%(proj1 (List.Forall_forall _ _) HF).
    unfold key_is. by rewrite Hx.
Qed.


(** C20: The sort raises exactly the error of the first record whose
    timestamp cannot be read. *)
Theorem sort_by_datetime_raise items e :
  sort_by_datetime fromisoformat items = Raise e <->
  exists pre item post, items = pre ++ item :: post /\
    Forall (fun x => exists t, item_dt x = Ok t) pre /\ item_dt item = Raise e.
Proof.
  unfold sort_by_datetime.
  destruct (py_mapM item_dt items) as [ks|e'] eqn:E; simpl.
  - split; [discriminate|]. intros (pre & it & post & -> & _ & Hit).
    apply py_mapM_Ok in E. apply Forall2_app_inv_l in E as (l1 & l2 & _ & H2 & _).
    invc H2. congruence.
  - pose proof (proj1 (py_mapM_Raise _ _ _) E) as (pre & it & post & ys & -> & HF & Hit).
    split.
    + intros [= ->]. exists pre, it, post. split; [done|]. split; [|done].
      clear -HF. induction HF; constructor; eauto.
    + intros (pre' & it' & post' & Heq & HF' & Hit').
      assert (Hne : forall x e0, item_dt x = Raise e0 -> ~ exists t, item_dt x = Ok t).
      { intros x e0 Hx [t Ht]. congruence. }
      assert (HF0 : Forall (fun x => exists t, item_dt x = Ok t) pre).
      { clear -HF. induction HF; constructor; eauto. }
      assert (it = it') as <-.
      { by destruct (first_split_unique (fun x => exists t, item_dt x = Ok t)
                       pre it post pre' it' post' Heq HF0 HF' (Hne _ _ Hit) (Hne _ _ Hit'))
          as (_ & -> & _). }
      congruence.
Qed.
End SortProps.

(** ** Price keys and [_process_data] *)

(** [_get_price_keys()] (lines 62-67). *)
Definition get_price_keys : list (string * string) :=
  [("VAT", "PriceWithTax"); ("NO_VAT", "PriceNoTax")].

Fixpoint str_lookup (k : string) (l : list (string * string)) : option string :=
  match l with
  | [] => None
  | (k', v) :: r => if String.eqb k k' then Some v else str_lookup k r
  end.

(** [self._get_price_keys()["VAT"]] (line 218). *)
Definition VAT_KEY : string := default "" (str_lookup "VAT" get_price_keys).

(** Lines 221-228: the [float] of every non-[None] value under [key];
    [ValueError] skips the record, any other error escapes. *)
Fixpoint collect_prices (key : string) (data : list jvalue) : py_res (list Q) :=
  match data with
  | [] => Ok []
  | item :: r =>
      v <- py_get item key ;;
      match v with
      | JNull => collect_prices key r
      | _ =>
          match py_float v with
          | Ok q => qs <- collect_prices key r ;; Ok (q :: qs)
          | Raise ValueError => collect_prices key r
          | Raise e => Raise e
          end
      end
  end.

(** CPython's [min] and [max]: the first element, replaced by each
    later one that is strictly smaller (larger). *)
Definition py_min (x : Q) (xs : list Q) : Q := fold_pick q_lt x xs.
Definition py_max (x : Q) (xs : list Q) : Q := fold_pick (fun y acc => q_lt acc y) x xs.

Definition set_aggregates (c : region_cache) (mn mx : option Q) : region_cache :=
  mk_cache (cache_data c) (last_fetch c) mn mx.

(** [_process_data] (lines 205-238) on the region's dict. *)
Definition process_data (c : region_cache) : py_res region_cache :=
  match cache_data c with
  | None | Some [] => Ok (set_aggregates c None None)
  | Some data =>
      price_list <- collect_prices VAT_KEY data ;;
      match price_list with
      | [] => Ok (set_aggregates c None None)
      | p :: ps => Ok (set_aggregates c (Some (py_min p ps)) (Some (py_max p ps)))
      end
  end.

(** ** Specification of the aggregates *)

(** The price a record carries under [key], when [float] reads it. *)
Definition item_price (key : string) (item : jvalue) : option Q :=
  match py_get item key with
  | Ok JNull | Raise _ => None
  | Ok v => match py_float v with Ok q => Some q | Raise _ => None end
  end.

(** A record [_process_data] reads without an escaping error. *)
Definition record_ok (key : string) (item : jvalue) : bool :=
  match item with
  | JObj kvs => price_ok (default JNull (assoc_last key kvs))
  | _ => false
  end.

Definition data_list (c : region_cache) : list jvalue := default [] (cache_data c).

(** min/max are the least and greatest readable tax-inclusive prices,
    and both are absent exactly when there is none. *)
Definition aggregates_ok (c : region_cache) : Prop :=
  let ps := omap (item_price VAT_KEY) (data_list c) in
  match ps with
  | [] => min_price c = None /\ max_price c = None
  | _ => exists mn mx, min_price c = Some mn /\ max_price c = Some mx /\
         mn ∈ ps /\ mx ∈ ps /\ forall x, x ∈ ps -> (mn <= x <= mx)%Q
  end.

Lemma collect_prices_Ok key data qs :
  collect_prices key data = Ok qs -> qs = omap (item_price key) data.
Proof.
  revert qs; induction data as [|item data IH]; intros qs; simpl; [by intros [= <-]|].
  unfold item_price at 1. destruct (py_get item key) as [v|e]; simpl; [|discriminate].
  destruct v as [|b|q|s|l|kvs]; [intros H; by apply IH| | | | |].
  all: destruct (py_float _) as [q'|[]]; simpl; try discriminate; try (intros H; by apply IH).
  all: destruct (collect_prices key data) eqn:Hc; simpl; [|discriminate].
  all: intros [= <-]; by rewrite (IH _ eq_refl).
Qed.

Lemma collect_prices_total key data :
  forallb (record_ok key) data = true -> exists qs, collect_prices key data = Ok qs.
Proof.
  induction data as [|item data IH]; simpl; [eauto|].
  intros [Hi Hr]%andb_true_iff. destruct (IH Hr) as [qs Hqs].
  destruct item as [| | | | |kvs]; try discriminate. rewrite py_get_obj. simpl in Hi |- *.
  destruct (default JNull (assoc_last key kvs)) eqn:Hv; simpl in *; try discriminate; eauto;
    [rewrite Hqs; simpl; eauto | rewrite Hqs; simpl; eauto |].
  destruct (parse_float_str s); simpl; [rewrite Hqs; simpl|]; eauto.
Qed.

Lemma py_min_spec x xs :
  py_min x xs ∈ x :: xs /\ forall y, y ∈ x :: xs -> (py_min x xs <= y)%Q.
Proof.
  split; [apply fold_pick_elem|]. apply (fold_pick_best q_lt Qle).
  - apply Qle_refl.
  - apply Qle_trans.
  - intros a b H%q_lt_true. by apply Qlt_le_weak.
  - by intros a b H%q_lt_false.
Qed.

Lemma py_max_spec x xs :
  py_max x xs ∈ x :: xs /\ forall y, y ∈ x :: xs -> (y <= py_max x xs)%Q.
Proof.
  split; [apply fold_pick_elem|]. apply (fold_pick_best _ (fun a b => b <= a)%Q).
  - apply Qle_refl.
  - intros a b c H1 H2. eapply Qle_trans; eauto.
  - intros a b H%q_lt_true. by apply Qlt_le_weak.
  - by intros a b H%q_lt_false.
Qed.

Lemma collect_prices_records key data qs :
  collect_prices key data = Ok qs -> forallb (record_ok key) data = true.
Proof.
  revert qs; induction data as [|item data IH]; intros qs; simpl; [done|].
  destruct item as [| | | | |kvs]; simpl; try discriminate.
  destruct (default JNull (assoc_last key kvs)) eqn:Hv;
    destruct (assoc_last key kvs) eqn:Ha; simpl in Hv |- *; subst; try discriminate; simpl;
    eauto; try (destruct (parse_float_str _)); simpl; try discriminate; eauto;
    destruct (collect_prices key data) eqn:Hc; simpl; try discriminate; eauto.
Qed.

Lemma process_data_fields c c' :
  process_data c = Ok c' -> cache_data c' = cache_data c /\ last_fetch c' = last_fetch c.
Proof.
  unfold process_data. destruct (cache_data c) as [[|it data]|] eqn:Hd;
    [intros [= <-]; simpl; by rewrite Hd | | intros [= <-]; simpl; by rewrite Hd].
  intros (ps & _ & Hk)%py_bind_Ok. destruct ps; injection Hk as <-; simpl; by rewrite Hd.
Qed.

Lemma process_data_aggregates c c' : process_data c = Ok c' -> aggregates_ok c'.
Proof.
  unfold process_data, aggregates_ok, data_list.
  destruct (cache_data c) as [[|it data]|] eqn:Hd;
    try (intros [= <-]; simpl; rewrite Hd; simpl; auto; fail).
  intros (ps & Hps & Hk)%py_bind_Ok. apply collect_prices_Ok in Hps.
  destruct ps as [|p ps]; injection Hk as <-; unfold set_aggregates;
    cbn [cache_data last_fetch min_price max_price default]; rewrite Hd; cbn [default id];
    rewrite <- Hps; [auto|].
  destruct (py_min_spec p ps) as [Hmin1 Hmin2], (py_max_spec p ps) as [Hmax1 Hmax2].
  eexists _, _. do 4 (split; [done|]). intros x Hx. auto.
Qed.

(** C6: [_process_data] keeps the series and the last-fetch instant and
    leaves min/max equal to the least and greatest readable
    tax-inclusive price, both absent when there is none. *)
Theorem process_data_spec c c' :
  process_data c = Ok c' ->
  cache_data c' = cache_data c /\ last_fetch c' = last_fetch c /\ aggregates_ok c'.
Proof.
  intros Hp. destruct (process_data_fields _ _ Hp) as [Hd Hl].
  split; [exact Hd | split; [exact Hl | exact (process_data_aggregates _ _ Hp)]].
Qed.

Lemma process_data_total c :
  forallb (record_ok VAT_KEY) (data_list c) = true -> exists c', process_data c = Ok c'.
Proof.
  unfold process_data, data_list.
  destruct (cache_data c) as [[|it data]|]; cbn [default id]; try (intros; eexists; done).
  intros (ps & Hps)%collect_prices_total. rewrite Hps. simpl. destruct ps; eauto.
Qed.

(** C21: [_process_data] raises exactly when a record is not a dict or has
    a list or dict as its tax-inclusive price. *)
Theorem process_data_ok_iff c :
  (exists c', process_data c = Ok c') <-> forallb (record_ok VAT_KEY) (data_list c) = true.
Proof.
  split; [|apply process_data_total].
  intros (c' & Hp). revert Hp. unfold process_data, data_list.
  destruct (cache_data c) as [[|it data]|]; cbn [default id]; try (intros; done).
  intros (ps & Hps & _)%py_bind_Ok. exact (collect_prices_records _ _ _ Hps).
Qed.

(** ** Concrete instances *)

Definition price_record (ts : string) (p : jvalue) : jvalue :=
  JObj [("DateTime", JStr ts); ("PriceWithTax", p)].

Definition reply_unsorted : list jvalue :=
  [price_record "2024-06-11T12:00:00+03:00" (JNum 9); price_record "2024-06-11T10:00:00+03:00" (JNum 5);
   price_record "2024-06-11T11:00:00+03:00" (JStr "n/a")].

Definition reply_sorted : list jvalue :=
  [price_record "2024-06-11T10:00:00+03:00" (JNum 5); price_record "2024-06-11T11:00:00+03:00" (JStr "n/a");
   price_record "2024-06-11T12:00:00+03:00" (JNum 9)].

Lemma sort_by_datetime_spec_witness :
  sort_by_datetime fromisoformat reply_unsorted = Ok reply_sorted /\
  sorted_items fromisoformat reply_sorted = true /\ Permutation reply_unsorted reply_sorted /\
  forall k, List.filter (key_is fromisoformat k) reply_sorted =
            List.filter (key_is fromisoformat k) reply_unsorted.
Proof.
  assert (H : sort_by_datetime fromisoformat reply_unsorted = Ok reply_sorted) by (vm_compute; reflexivity).
  split; [exact H | exact (sort_by_datetime_spec _ _ _ H)].
Defined.


Definition cache_unsorted_aggr : region_cache :=
  mk_cache (Some reply_sorted) (Some 1718107200) None None.

Lemma process_data_spec_witness :
  process_data cache_unsorted_aggr = Ok (mk_cache (Some reply_sorted) (Some 1718107200) (Some 5%Q) (Some 9%Q)) /\
  cache_data (mk_cache (Some reply_sorted) (Some 1718107200) (Some 5%Q) (Some 9%Q)) = cache_data cache_unsorted_aggr /\
  last_fetch (mk_cache (Some reply_sorted) (Some 1718107200) (Some 5%Q) (Some 9%Q)) = last_fetch cache_unsorted_aggr /\
  aggregates_ok (mk_cache (Some reply_sorted) (Some 1718107200) (Some 5%Q) (Some 9%Q)).
Proof.
  assert (H : process_data cache_unsorted_aggr =
              Ok (mk_cache (Some reply_sorted) (Some 1718107200) (Some 5%Q) (Some 9%Q))) by (vm_compute; reflexivity).
  split; [exact H | exact (process_data_spec _ _ H)].
Defined.
