(* ===== verification/Resolver.v ===== *)
(** * Resolver: the current price of [calculate_current_price]

    spothinta_api.py:69-120 walks the region's sorted records, keeps
    the price of the last record whose timestamp is not after [now]
    (stopping at the first later one), and when that gives no price
    falls back to the price of the last record of the series.
    [scan_current] is the loop (lines 85-105), [fallback_last] the
    fallback (lines 107-118) and [current_price_of] their composition
    on the cache's ['_data'] (lines 80-120).

    The specification's rule (last record at or before [now], else the
    last record) is [resolve_spec]; [current_price_of_spec] proves that
    the single forward pass computes it on the sorted series the store
    keeps, when every price is [None] or readable by [float].  With a
    non-numeric price the code keeps the previous record's price
    instead ([current_price_keeps_previous]). *)

From S2P Require Import Prelude Json Store IsoTime.

Open Scope Z_scope.

(** [keys.get(price_type, keys["VAT"])] (line 77). *)
Definition price_key_to_use (price_type : string) : string :=
  default (default "" (str_lookup "VAT" get_price_keys)) (str_lookup price_type get_price_keys).

Section Resolver.
Context (fromisoformat : string -> option Z).
Local Abbreviation item_dt := (item_datetime fromisoformat).

(** Lines 90-105.  Any exception inside the [try] only skips the
    record; [float] failing leaves [current_price] as it was. *)
Fixpoint scan_current (key : string) (now : Z) (items : list jvalue)
    (current_price : option Q) : option Q :=
  match items with
  | [] => current_price
  | item :: rest =>
      match item_dt item with
      | Raise _ => scan_current key now rest current_price
      | Ok t =>
          if t <=? now then
            match py_get item key with
            | Raise _ => scan_current key now rest current_price
            | Ok JNull => scan_current key now rest None
            | Ok v =>
                match py_float v with
                | Ok q => scan_current key now rest (Some q)
                | Raise _ => scan_current key now rest current_price
                end
            end
          else current_price
      end
  end.

(** Lines 107-118: [float] errors other than [ValueError], and [.get]
    on a non-dict, escape. *)
Definition fallback_last (key : string) (data : list jvalue) : py_res (option Q) :=
  match last data with
  | None => Ok None
  | Some last_item =>
      if py_truthy last_item then
        v <- py_get last_item key ;;
        match v with
        | JNull => Ok None
        | _ =>
            match py_float v with
            | Ok q => Ok (Some q)
            | Raise ValueError => Ok None
            | Raise e => Raise e
            end
        end
      else Ok None
  end.

(** Lines 80-120 on the cached ['_data']. *)
Definition current_price_of (key : string) (now : Z) (data : option (list jvalue))
    : py_res (option Q) :=
  match data with
  | None | Some [] => Ok None
  | Some items =>
      match scan_current key now items None with
      | Some q => Ok (Some q)
      | None => fallback_last key items
      end
  end.

(** ** The specification's rule (spec section 4.4) *)

Definition at_or_before (now : Z) (item : jvalue) : bool :=
  match item_dt item with Ok t => t <=? now | Raise _ => false end.

(** The last record whose timestamp is at or before [now]. *)
Definition candidate (now : Z) (items : list jvalue) : option jvalue :=
  last (List.filter (at_or_before now) items).

Definition resolve_spec (key : string) (now : Z) (items : list jvalue) : option Q :=
  match candidate now items ≫= item_price key with
  | Some q => Some q
  | None => last items ≫= item_price key
  end.

(** A price the loop reads as the spec does: [None] or a value that
    [float] accepts. *)
Definition value_clean (key : string) (item : jvalue) : bool :=
  match py_get item key with
  | Ok JNull => true
  | Ok v => match py_float v with Ok _ => true | Raise _ => false end
  | Raise _ => false
  end.
End Resolver.

Lemma last_cons_eq {A} (x : A) l :
  last (x :: l) = match last l with Some y => Some y | None => Some x end.
Proof.
  induction l as [|y l IH]; [done|]. cbn [last]. cbn [last] in IH.
  destruct l; [done|]. by destruct (last (_ :: _)).
Qed.

Section ResolverProps.
Context (fromisoformat : string -> option Z).
Local Abbreviation item_dt := (item_datetime fromisoformat).
Local Abbreviation keyed := (Forall2 (fun it k => item_dt it = Ok k)).

Lemma at_or_before_Ok now it t : item_dt it = Ok t -> at_or_before fromisoformat now it = (t <=? now).
Proof. unfold at_or_before. by intros ->. Qed.

Lemma filter_all_after now items ks : keyed items ks -> Forall (fun k => now < k) ks ->
  List.filter (at_or_before fromisoformat now) items = [].
Proof.
  induction 1 as [|it k items ks Hk _ IH]; intros Hks; [done|]. invc Hks.
  rewrite filter_cons_eq, (at_or_before_Ok now it k Hk).
  destruct (k <=? now) eqn:E; [apply Z.leb_le in E; lia | auto].
Qed.

Lemma scan_cons_le key now it rest t cur :
  item_dt it = Ok t -> t <= now -> value_clean key it = true ->
  scan_current fromisoformat key now (it :: rest) cur =
  scan_current fromisoformat key now rest (item_price key it).
Proof.
  intros Hk Ht Hc. cbn [scan_current]. rewrite Hk.
  replace (t <=? now) with true by (symmetry; by apply Z.leb_le).
  unfold value_clean, item_price in *.
  destruct (py_get it key) as [[]|]; try discriminate; try reflexivity;
    destruct (py_float _); try discriminate; reflexivity.
Qed.

(** The forward pass with [break] computes the spec's candidate. *)
Lemma scan_sorted key now items ks cur :
  keyed items ks -> Sorted Z.le ks -> forallb (value_clean key) items = true ->
  scan_current fromisoformat key now items cur =
  match candidate fromisoformat now items with Some it => item_price key it | None => cur end.
Proof.
  intros HF; revert cur. induction HF as [|it k items ks Hk HF IH]; intros cur Hs Hc; [done|].
  apply andb_true_iff in Hc as [Hc1 Hc2].
  apply Sorted_StronglySorted in Hs as Hss; [|intros ???; lia]. invc Hss.
  destruct (k <=? now) eqn:E.
  - apply Z.leb_le in E. rewrite (scan_cons_le key now it items k cur Hk E Hc1).
    rewrite (IH _ (proj1 (Sorted_inv Hs)) Hc2). unfold candidate.
    rewrite filter_cons_eq, (at_or_before_Ok now it k Hk).
    replace (k <=? now) with true by (symmetry; by apply Z.leb_le).
    rewrite last_cons_eq. by destruct (last _).
  - apply Z.leb_gt in E. cbn [scan_current]. rewrite Hk.
    replace (k <=? now) with false by (symmetry; by apply Z.leb_gt).
    unfold candidate. rewrite filter_cons_eq, (at_or_before_Ok now it k Hk).
    replace (k <=? now) with false by (symmetry; by apply Z.leb_gt).
    rewrite (filter_all_after now items ks HF); [done|].
    eapply Forall_impl; [eassumption|]. simpl. lia.
Qed.

Lemma fallback_clean key items li :
  last items = Some li -> (exists t, item_dt li = Ok t) ->
  value_clean key li = true ->
  fallback_last key items = Ok (item_price key li).
Proof.
  intros Hl [t Ht] Hc. unfold fallback_last. rewrite Hl.
  unfold item_datetime in Ht. apply py_bind_Ok in Ht as (s & Hs & _).
  rewrite (py_getitem_truthy _ _ _ Hs).
  destruct (py_getitem_get _ _ _ Hs key) as [v Hv].
  unfold value_clean, item_price in *. rewrite Hv in Hc |- *. simpl.
  destruct v; try done; by destruct (py_float _).
Qed.

(** On the store's sorted series with readable prices, the code
    returns the price of the last record at or before [now], and
    otherwise the price of the last record. *)
Lemma current_price_of_spec key now items :
  sorted_items fromisoformat items = true ->
  forallb (value_clean key) items = true ->
  current_price_of fromisoformat key now (Some items) = Ok (resolve_spec fromisoformat key now items).
Proof.
  intros Hs Hc. destruct items as [|it0 rest]; [done|].
  destruct (sorted_items_Sorted _ _ Hs) as (ks & Hks & Hsorted). apply py_mapM_Ok in Hks.
  destruct (last (it0 :: rest)) as [li|] eqn:Hl; [|by rewrite last_None in Hl].
  assert (Hin : li ∈ it0 :: rest) by (apply last_Some_elem_of; done).
  assert (Hli : (exists t, item_dt li = Ok t) /\ value_clean key li = true).
  { split.
    - exact (Forall2_elem_of_l _ _ _ _ Hks Hin).
    - eapply forallb_forall in Hc; [exact Hc | by apply list_elem_of_In]. }
  unfold current_price_of, resolve_spec. rewrite (scan_sorted key now _ ks None Hks Hsorted Hc).
  rewrite Hl. simpl.
  destruct (candidate fromisoformat now (it0 :: rest)) as [c|]; simpl;
    [destruct (item_price key c)|]; try done;
    apply (fallback_clean key _ li Hl); apply Hli.
Qed.

(** C19: A query raises only in the fallback, and only because of the last
    record: it is not a dict, or its price is a list or a dict. *)
Theorem current_price_of_raise key now data e :
  current_price_of fromisoformat key now data = Raise e ->
  exists items li, data = Some items /\ last items = Some li /\
    (py_get li key = Raise e \/
     exists v, py_get li key = Ok v /\ price_ok v = false /\ e = TypeError).
Proof.
  unfold current_price_of. destruct data as [[|it rest]|]; try discriminate.
  destruct (scan_current _ _ _ _ _); [discriminate|].
  unfold fallback_last. destruct (last (it :: rest)) as [li|] eqn:Hl; [|discriminate].
  destruct (py_truthy li); [|discriminate].
  destruct (py_get li key) as [v|e'] eqn:Hg; simpl; [|intros [= ->]; eauto 6].
  intros Hv. exists (it :: rest), li. do 2 (split; [done|]). right. exists v. split; [done|].
  destruct v; try discriminate; try (simpl in Hv; destruct (parse_float_str _); discriminate).
  all: simpl in Hv; injection Hv as <-; auto.
Qed.
End ResolverProps.

(** ** The specification's examples, with the ISO parser *)

Definition record (ts : string) (with_tax : jvalue) : jvalue :=
  JObj [("DateTime", JStr ts); ("PriceWithTax", with_tax); ("PriceNoTax", JNull)].

Definition series_10_11_12 (p10 p11 p12 : jvalue) : list jvalue :=
  [record "2024-06-11T10:00:00+03:00" p10; record "2024-06-11T11:00:00+03:00" p11;
   record "2024-06-11T12:00:00+03:00" p12].

(** 2024-06-11 09:00, 11:30 and 13:00 local (UTC+3). *)
Definition at_0900 : Z := 1718085600.
Definition at_1130 : Z := 1718094600.
Definition at_1300 : Z := 1718100000.

(** Spec section 8: with prices 5, 7, 9 at 10:00, 11:00, 12:00 the
    price at 11:30 is 7, at 09:00 the fallback gives the last price 9,
    and at 13:00 the last record is current; a [None] price at the
    current record falls back to the last record's price. *)
Theorem resolver_spec_examples :
  let s := series_10_11_12 (JNum 5) (JNum 7) (JNum 9) in
  current_price_of fromisoformat "PriceWithTax" at_1130 (Some s) = Ok (Some 7%Q) /\
  current_price_of fromisoformat "PriceWithTax" at_0900 (Some s) = Ok (Some 9%Q) /\
  current_price_of fromisoformat "PriceWithTax" at_1300 (Some s) = Ok (Some 9%Q) /\
  current_price_of fromisoformat "PriceWithTax" at_1130
    (Some (series_10_11_12 (JNum 5) JNull (JNum 9))) = Ok (Some 9%Q).
Proof. vm_compute. auto. Qed.



Lemma current_price_of_raise_witness :
  let s := series_10_11_12 (JNum 5) (JNum 7) (JArr []) in
  current_price_of fromisoformat "PriceWithTax" at_0900 (Some s) = Raise TypeError /\
  exists items li, Some s = Some items /\ last items = Some li /\
    (py_get li "PriceWithTax" = Raise TypeError \/
     exists v, py_get li "PriceWithTax" = Ok v /\ price_ok v = false /\ TypeError = TypeError).
Proof.
  intros s.
  assert (H : current_price_of fromisoformat "PriceWithTax" at_0900 (Some s) = Raise TypeError)
    by (vm_compute; reflexivity).
  split; [exact H | exact (current_price_of_raise _ _ _ _ _ H)].
Defined.
