(* ===== verification/Api.v ===== *)
(** * Api: the [SpotHintaAPI] object

    [SpotHintaAPI] (spothinta_api.py:39-238) owns [_data_cache], a dict
    from region code to the region's cache dict.  Its state is here a
    [gmap string region_cache].  [fetch_data] decides whether to call
    the provider (force flag, missing data, or the daily rule of
    Refresh.v), calls it, sorts and stores the reply, and recomputes
    the aggregates; [calculate_current_price] answers a price query.

    The outside world enters as arguments: the clock reading [now] of
    line 132, the reply of [requests.get] (line 175) and the second
    clock reading stored at line 186.  [fetch_data] returns the new
    state, its Python outcome (a boolean or a raised exception) and
    the request it sent, if any. *)

From S2P Require Import Prelude Json Clock Refresh Store IsoTime Resolver.

Open Scope Z_scope.

(** [_get_cache_data] (lines 48-60): the region's dict, created empty
    on first use. *)
Definition get_cache_data (region : string) (api : gmap string region_cache)
    : gmap string region_cache * region_cache :=
  match api !! region with
  | Some c => (api, c)
  | None => (<[region := empty_cache]> api, empty_cache)
  end.

(** The GET of lines 165-175: [params = {"region", "priceResolution"}]. *)
Record request := mk_request { req_region : string; req_resolution : Z }.

(** What [requests.get(...)], [raise_for_status()] and [response.json()]
    produce: a transport or HTTP error, a body that is not JSON
    ([requests.JSONDecodeError], a [RequestException]), or a value. *)
Inductive http_reply : Type :=
| HttpError
| HttpOk (body : option jvalue).

(** Lines 185-186: the sorted reply and the UTC store time. *)
Definition store_reply (c : region_cache) (new_data : list jvalue) (stored_at : Z) : region_cache :=
  mk_cache (Some new_data) (Some stored_at) (min_price c) (max_price c).

(** Lines 201-202: [_process_data(region)], then [bool(cache['_data'])]. *)
Definition process_region (region : string) (c : region_cache) (api : gmap string region_cache)
    : gmap string region_cache * py_res bool :=
  match process_data c with
  | Ok c' => (<[region := c']> api, Ok (data_truthy c'))
  | Raise e => (api, Raise e)
  end.

Section Api.
Context `{EetZone}.

(** Lines 134-161. *)
Definition fetch_needed (force_update : bool) (c : region_cache) (now : Z) : bool :=
  if force_update then true
  else if negb (data_truthy c) then true
  else match last_fetch c with
       | Some last_fetch_utc => refresh_due last_fetch_utc now
       | None => false
       end.

(** [fetch_data] (lines 123-202). *)
Definition fetch_data (region : string) (price_resolution : Z) (force_update : bool)
    (now : Z) (reply : http_reply) (stored_at : Z) (api : gmap string region_cache)
    : gmap string region_cache * py_res bool * option request :=
  let '(api1, cache) := get_cache_data region api in
  if fetch_needed force_update cache now then
    let req := Some (mk_request region price_resolution) in
    match reply with
    | HttpError | HttpOk None => (api1, Ok false, req)
    | HttpOk (Some body) =>
        match sort_reply fromisoformat body with
        | Raise e => (api1, Raise e, req)
        | Ok new_data =>
            let c1 := store_reply cache new_data stored_at in
            let '(api2, r) := process_region region c1 (<[region := c1]> api1) in
            (api2, r, req)
        end
    end
  else
    let '(api2, r) := process_region region cache api1 in (api2, r, None).
End Api.

(** [calculate_current_price] (lines 69-120); [price_resolution] is
    not used by the code. *)
Definition calculate_current_price (region : string) (price_resolution : Z)
    (price_type : string) (now_dt : Z) (api : gmap string region_cache)
    : gmap string region_cache * py_res (option Q) :=
  let key := price_key_to_use price_type in
  let '(api1, cache) := get_cache_data region api in
  (api1, current_price_of fromisoformat key now_dt (cache_data cache)).

(** ** Invariants of the cache *)

(** ['_data'] is sorted by timestamp, and it is present exactly when a
    fetch instant is. *)
Definition cache_inv (c : region_cache) : Prop :=
  match cache_data c with
  | Some d => sorted_items fromisoformat d = true /\ is_Some (last_fetch c)
  | None => last_fetch c = None
  end.

Definition api_inv (api : gmap string region_cache) : Prop :=
  map_Forall (fun _ c => cache_inv c) api.

(** The invariant together with consistent aggregates. *)
Definition api_good (api : gmap string region_cache) : Prop :=
  map_Forall (fun _ c => cache_inv c /\ aggregates_ok c) api.

Lemma empty_cache_good : cache_inv empty_cache /\ aggregates_ok empty_cache.
Proof. split; [done | unfold aggregates_ok, data_list; simpl; auto]. Qed.

Lemma get_cache_data_lookup region api r :
  (get_cache_data region api).1 !! r =
  if decide (r = region) then Some (get_cache_data region api).2 else api !! r.
Proof.
  unfold get_cache_data. destruct (api !! region) eqn:E; simpl;
    case_decide; subst; simplify_map_eq; done.
Qed.

Lemma get_cache_data_forall (P : region_cache -> Prop) region api :
  P empty_cache -> map_Forall (fun _ c => P c) api ->
  map_Forall (fun _ c => P c) (get_cache_data region api).1 /\ P (get_cache_data region api).2.
Proof.
  intros He Hf. unfold get_cache_data. destruct (api !! region) eqn:E; simpl.
  - split; [done | exact (Hf _ _ E)].
  - split; [by apply map_Forall_insert_2 | done].
Qed.

Lemma process_data_inv c c' : process_data c = Ok c' -> cache_inv c -> cache_inv c'.
Proof.
  intros (Hd & Hl)%process_data_fields. unfold cache_inv. by rewrite Hd, Hl.
Qed.

Lemma sort_reply_sorted body new_data :
  sort_reply fromisoformat body = Ok new_data -> sorted_items fromisoformat new_data = true.
Proof.
  destruct body; try discriminate. apply sort_by_datetime_sorted.
Qed.

Lemma store_reply_inv c new_data t :
  sorted_items fromisoformat new_data = true -> cache_inv (store_reply c new_data t).
Proof. intros Hs. unfold cache_inv, store_reply. simpl. split; [done | eexists; done]. Qed.

Lemma process_region_forall (P : region_cache -> Prop) region c api api' r :
  process_region region c api = (api', r) ->
  (forall c', process_data c = Ok c' -> P c') ->
  map_Forall (fun _ c => P c) api -> map_Forall (fun _ c => P c) api'.
Proof.
  unfold process_region. destruct (process_data c) as [c'|e] eqn:E; intros [= <- <-] HP Hf;
    [by apply map_Forall_insert_2; auto | done].
Qed.

Section ApiProps.
Context `{EetZone}.

(** [fetch_data] keeps every region's series sorted, whatever the
    reply and whether it returns or raises. *)
Theorem fetch_data_inv region res force now reply t api api' r q :
  fetch_data region res force now reply t api = (api', r, q) ->
  api_inv api -> api_inv api'.
Proof.
  unfold fetch_data. intros Hf Hinv.
  destruct (get_cache_data_forall cache_inv region api ltac:(done) Hinv) as [Hinv1 Hc].
  destruct (get_cache_data region api) as [api1 c]. simpl in *.
  destruct (fetch_needed force c now);
    [destruct reply as [|[body|]]; [by invc Hf | | by invc Hf]|].
  - destruct (sort_reply fromisoformat body) as [new_data|e] eqn:Hs; [|by invc Hf].
    destruct (process_region _ _ _) as [api2 r2] eqn:Hp. invc Hf.
    eapply process_region_forall; [exact Hp | |].
    + intros c' Hc'. apply (process_data_inv _ _ Hc'), store_reply_inv.
      exact (sort_reply_sorted _ _ Hs).
    + apply map_Forall_insert_2; [|done]. apply store_reply_inv, (sort_reply_sorted _ _ Hs).
  - destruct (process_region _ _ _) as [api2 r2] eqn:Hp. invc Hf.
    eapply process_region_forall; [exact Hp | | exact Hinv1].
    intros c' Hc'. exact (process_data_inv _ _ Hc' Hc).
Qed.
End ApiProps.

Lemma process_region_Ok region c api api' b :
  process_region region c api = (api', Ok b) ->
  exists c', process_data c = Ok c' /\ api' = <[region := c']> api /\ b = data_truthy c'.
Proof.
  unfold process_region. destruct (process_data c) as [c'|e]; intros [= <- <-]; eauto.
Qed.

Lemma process_good c c' : process_data c = Ok c' -> cache_inv c -> cache_inv c' /\ aggregates_ok c'.
Proof.
  intros Hp Hc. split; [exact (process_data_inv _ _ Hp Hc) | exact (process_data_aggregates _ _ Hp)].
Qed.

Section ApiProps2.
Context `{EetZone}.

(** The request is sent exactly when [fetch_needed] holds. *)
Lemma fetch_data_request region res force now reply t api api' r q :
  fetch_data region res force now reply t api = (api', r, q) ->
  q = if fetch_needed force (get_cache_data region api).2 now
      then Some (mk_request region res) else None.
Proof.
  unfold fetch_data. destruct (get_cache_data region api) as [api1 c]. simpl.
  destruct (fetch_needed force c now);
    [destruct reply as [|[body|]]; [by intros [= _ _ <-] | | by intros [= _ _ <-]]|].
  - destruct (sort_reply _ _); [|by intros [= _ _ <-]].
    destruct (process_region _ _ _). by intros [= _ _ <-].
  - destruct (process_region _ _ _). by intros [= _ _ <-].
Qed.

(** When [fetch_data] returns normally, every region's aggregates
    match its series. *)
Theorem fetch_data_good region res force now reply t api api' b q :
  fetch_data region res force now reply t api = (api', Ok b, q) ->
  api_good api -> api_good api'.
Proof.
  unfold fetch_data, api_good. intros Hf Hg.
  destruct (get_cache_data_forall (fun c => cache_inv c /\ aggregates_ok c) region api
              empty_cache_good Hg) as [Hg1 [Hc _]].
  destruct (get_cache_data region api) as [api1 c]. simpl in *.
  destruct (fetch_needed force c now);
    [destruct reply as [|[body|]]; [by invc Hf | | by invc Hf]|].
  - destruct (sort_reply fromisoformat body) as [new_data|e] eqn:Hs; [|by invc Hf].
    destruct (process_region _ _ _) as [api2 r2] eqn:Hp. invc Hf.
    destruct (process_region_Ok _ _ _ _ _ Hp) as (c' & Hpd & -> & _).
    rewrite insert_insert_eq. apply map_Forall_insert_2; [|done].
    apply (process_good _ _ Hpd), store_reply_inv, (sort_reply_sorted _ _ Hs).
  - destruct (process_region _ _ _) as [api2 r2] eqn:Hp. invc Hf.
    destruct (process_region_Ok _ _ _ _ _ Hp) as (c' & Hpd & -> & _).
    apply map_Forall_insert_2; [exact (process_good _ _ Hpd Hc) | done].
Qed.

(** C3: A failed call (transport or HTTP error, a body that is not JSON,
    or a record whose timestamp cannot be read) changes nothing but
    the creation of the region's empty entry. *)
Theorem fetch_data_failure_isolation region res force now reply t api api' r req :
  fetch_data region res force now reply t api = (api', r, Some req) ->
  (reply = HttpError \/ reply = HttpOk None \/
   exists body e, reply = HttpOk (Some body) /\ sort_reply fromisoformat body = Raise e) ->
  api' = (get_cache_data region api).1.
Proof.
  intros Hf Hrep. pose proof (fetch_data_request _ _ _ _ _ _ _ _ _ _ Hf) as Hq.
  revert Hf. unfold fetch_data. destruct (get_cache_data region api) as [api1 c]. simpl in *.
  destruct (fetch_needed force c now); [|discriminate].
  destruct Hrep as [->|[->|(body & e & -> & Hs)]]; [by intros [= <- _ _] | by intros [= <- _ _] |].
  rewrite Hs. by intros [= <- _ _].
Qed.

Lemma fetch_data_frame region res force now reply t api api' r q r' :
  fetch_data region res force now reply t api = (api', r, q) -> r' <> region ->
  api' !! r' = api !! r'.
Proof.
  intros Hf Hne. assert (Hl1 := get_cache_data_lookup region api r').
  rewrite decide_False in Hl1 by done. revert Hf Hl1. unfold fetch_data.
  destruct (get_cache_data region api) as [api1 c]. simpl. intros Hf Hl1.
  assert (Hpr : forall c0 a a' r0, process_region region c0 a = (a', r0) -> a' !! r' = a !! r').
  { intros c0 a a' r0. unfold process_region. destruct (process_data c0);
      intros [= <- _]; [by rewrite lookup_insert_ne | done]. }
  destruct (fetch_needed force c now);
    [destruct reply as [|[body|]]; [by invc Hf | | by invc Hf]|].
  - destruct (sort_reply fromisoformat body) as [new_data|e]; [|by invc Hf].
    destruct (process_region _ _ _) as [api2 r2] eqn:Hp. invc Hf.
    rewrite (Hpr _ _ _ _ Hp). by rewrite lookup_insert_ne.
  - destruct (process_region _ _ _) as [api2 r2] eqn:Hp. invc Hf. by rewrite (Hpr _ _ _ _ Hp).
Qed.

(** A due call whose reply sorts to records with storable prices
    installs the sorted reply, the store instant and its aggregates. *)
Lemma fetch_data_install region res force now body new_data t api api' r q :
  fetch_data region res force now (HttpOk (Some body)) t api = (api', r, q) ->
  fetch_needed force (get_cache_data region api).2 now = true ->
  sort_reply fromisoformat body = Ok new_data ->
  forallb (record_ok VAT_KEY) new_data = true ->
  exists c, api' !! region = Some c /\ cache_data c = Some new_data /\
    last_fetch c = Some t /\ aggregates_ok c /\ r = Ok (data_truthy c).
Proof.
  intros Hf Hn Hs Hrec. revert Hf. unfold fetch_data.
  destruct (get_cache_data region api) as [api1 c]. simpl in *. rewrite Hn. simpl. rewrite Hs.
  set (c1 := store_reply c new_data t).
  destruct (process_data_total c1 Hrec) as [c' Hpd].
  unfold process_region. rewrite Hpd. intros [= <- <- _].
  destruct (process_data_fields _ _ Hpd) as (Hd & Hl).
  exists c'. rewrite lookup_insert_eq. do 3 (split; [done|]).
  split; [exact (process_data_aggregates _ _ Hpd) | done].
Qed.

(** C4: A successful call stores the sorted reply and the store instant,
    with matching aggregates, and reports whether the reply is
    non-empty. *)
Theorem fetch_data_success region res force now items t api api' r q :
  fetch_data region res force now (HttpOk (Some (JArr items))) t api = (api', r, q) ->
  fetch_needed force (get_cache_data region api).2 now = true ->
  forall new_data, sort_by_datetime fromisoformat items = Ok new_data ->
  forallb (record_ok VAT_KEY) new_data = true ->
  exists c, api' !! region = Some c /\ cache_data c = Some new_data /\
    last_fetch c = Some t /\ aggregates_ok c /\ r = Ok (bool_decide (new_data <> [])).
Proof.
  intros Hf Hn new_data Hs Hrec.
  destruct (fetch_data_install _ _ _ _ _ _ _ _ _ _ _ Hf Hn Hs Hrec) as (c & Hc & Hd & Hl & Ha & ->).
  exists c. do 4 (split; [done|]). unfold data_truthy. rewrite Hd. by destruct new_data.
Qed.

(** Regions are independent: apart from the called region's entry,
    [fetch_data] leaves the cache as it was. *)
Theorem fetch_data_other_region region res force now reply t api api' r q :
  fetch_data region res force now reply t api = (api', r, q) ->
  delete region api' = delete region api.
Proof.
  intros Hf. apply map_eq. intros r'. destruct (decide (r' = region)) as [->|Hne].
  - by rewrite !lookup_delete_eq.
  - rewrite !lookup_delete_ne by done. exact (fetch_data_frame _ _ _ _ _ _ _ _ _ _ _ Hf Hne).
Qed.

(** C18: An empty reply is stored and reported as a failure ([False]); the
    region then asks for a fetch at every later call. *)
Theorem fetch_data_empty_reply region res force now t api api' r q :
  fetch_data region res force now (HttpOk (Some (JArr []))) t api = (api', r, q) ->
  fetch_needed force (get_cache_data region api).2 now = true ->
  r = Ok false /\ exists c, api' !! region = Some c /\ cache_data c = Some [] /\
    forall force' now', fetch_needed force' c now' = true.
Proof.
  unfold fetch_data. destruct (get_cache_data region api) as [api1 c]. simpl.
  intros Hf Hn. rewrite Hn in Hf. invc Hf. split; [done|].
  eexists. split; [apply lookup_insert_eq|]. split; [done|].
  intros force' now'. by destruct force'.
Qed.

(** C1: On a sorted series with readable prices, [calculate_current_price]
    returns the specification's price and does not change the cache. *)
Theorem calculate_current_price_spec region res price_type now api c items :
  api !! region = Some c -> cache_data c = Some items -> cache_inv c ->
  forallb (value_clean (price_key_to_use price_type)) items = true ->
  calculate_current_price region res price_type now api =
    (api, Ok (resolve_spec fromisoformat (price_key_to_use price_type) now items)).
Proof.
  intros Hc Hd Hinv Hclean. unfold calculate_current_price, get_cache_data. rewrite Hc, Hd.
  unfold cache_inv in Hinv. rewrite Hd in Hinv. destruct Hinv as [Hs _].
  by rewrite current_price_of_spec.
Qed.
End ApiProps2.

(** ** The cache as a state machine *)

Section Machine.
Context `{EetZone}.

(** One call of the API object, with any clock readings and reply. *)
Inductive api_step : gmap string region_cache -> gmap string region_cache -> Prop :=
| step_fetch region res force now reply t api api' r q :
    fetch_data region res force now reply t api = (api', r, q) -> api_step api api'
| step_price region res price_type now api api' r :
    calculate_current_price region res price_type now api = (api', r) -> api_step api api'.

Lemma api_step_inv api api' : api_step api api' -> api_inv api -> api_inv api'.
Proof.
  destruct 1 as [???????? r q Hf|?????? r Hc];
    [intros Hinv; exact (fetch_data_inv _ _ _ _ _ _ _ _ _ _ Hf Hinv)|].
  intros Hinv. unfold calculate_current_price in Hc.
  destruct (get_cache_data_forall cache_inv region api ltac:(done) Hinv) as [Hi _].
  destruct (get_cache_data region api). by invc Hc.
Qed.

(** C15: Every state reachable from the empty cache keeps each region's
    series sorted and its data and fetch instant together. *)
Theorem reachable_api_inv api : rtc api_step ∅ api -> api_inv api.
Proof.
  intros Hr. assert (H0 : api_inv ∅) by apply map_Forall_empty.
  induction Hr as [|x y z Hxy _ IH]; [done|]. apply IH. exact (api_step_inv _ _ Hxy H0).
Qed.

Lemma process_region_data region c a a' r :
  process_region region c a = (a', r) -> a !! region = Some c ->
  exists c', a' !! region = Some c' /\ cache_data c' = cache_data c.
Proof.
  unfold process_region. destruct (process_data c) as [c'|e] eqn:Hp; intros [= <- <-] Hc.
  - exists c'. rewrite lookup_insert_eq. split; [done | exact (proj1 (process_data_fields _ _ Hp))].
  - eauto.
Qed.

(** After [fetch_data] the region holds its former series or a new
    reply. *)
Lemma fetch_data_region_data region res force now reply t api api' r q :
  fetch_data region res force now reply t api = (api', r, q) ->
  exists c', api' !! region = Some c' /\
    (cache_data c' = cache_data (get_cache_data region api).2 \/ exists nd, cache_data c' = Some nd).
Proof.
  assert (Hl := get_cache_data_lookup region api region). rewrite decide_True in Hl by done.
  unfold fetch_data. destruct (get_cache_data region api) as [api1 c]. simpl in *.
  intros Hf. destruct (fetch_needed force c now);
    [destruct reply as [|[body|]]; [invc Hf; eauto | | invc Hf; eauto]|].
  - destruct (sort_reply fromisoformat body) as [new_data|e]; [|invc Hf; eauto].
    destruct (process_region _ _ _) as [api2 r2] eqn:Hp. invc Hf.
    destruct (process_region_data _ _ _ _ _ Hp) as (c' & Hc' & Hd); [apply lookup_insert_eq|].
    exists c'. split; [done|]. right. rewrite Hd. simpl. eauto.
  - destruct (process_region _ _ _) as [api2 r2] eqn:Hp. invc Hf.
    destruct (process_region_data _ _ _ _ _ Hp Hl) as (c' & Hc' & Hd). eauto.
Qed.

Lemma api_step_populated api api' region c :
  api_step api api' -> api !! region = Some c -> is_Some (cache_data c) ->
  exists c', api' !! region = Some c' /\ is_Some (cache_data c').
Proof.
  intros Hs Hc Hd. destruct Hs as [r0 ????? a a' ?? Hf|r0 ????? ? Hq].
  - destruct (decide (region = r0)) as [->|Hne].
    + destruct (fetch_data_region_data _ _ _ _ _ _ _ _ _ _ Hf) as (c' & Hc' & [Hd'|[nd Hd']]).
      * exists c'. split; [done|]. rewrite Hd'. unfold get_cache_data. by rewrite Hc.
      * exists c'. by rewrite Hd'.
    + rewrite (fetch_data_frame _ _ _ _ _ _ _ _ _ _ _ Hf Hne). eauto.
  - unfold calculate_current_price in Hq.
    assert (Hl := get_cache_data_lookup r0 api region).
    destruct (get_cache_data r0 api) as [a1 c1] eqn:Hg. invc Hq. simpl in Hl.
    exists c. split; [|done]. rewrite Hl. case_decide; [subst|done].
    unfold get_cache_data in Hg. rewrite Hc in Hg. by invc Hg.
Qed.

(** C14: A region that holds a series never loses it: failures do not move
    it back to the uninitialised state. *)
Theorem populated_persists api api' region c :
  rtc api_step api api' -> api !! region = Some c -> is_Some (cache_data c) ->
  exists c', api' !! region = Some c' /\ is_Some (cache_data c').
Proof.
  intros Hr. revert c. induction Hr as [|x y z Hxy _ IH]; intros c Hc Hd; [eauto|].
  destruct (api_step_populated _ _ _ _ Hxy Hc Hd) as (c' & Hc' & Hd'). eauto.
Qed.
End Machine.

(** ** Concrete runs (Europe/Helsinki) *)

Definition fi_series : list jvalue := series_10_11_12 (JNum 5) (JNum 7) (JNum 9).

(** The provider's reply, out of order. *)
Definition fi_reply : http_reply := HttpOk (Some (JArr (rev fi_series))).

(** A reply whose last record has a list as its price. *)
Definition bad_price_reply : http_reply :=
  HttpOk (Some (JArr [record "2024-06-11T10:00:00+03:00" (JNum 5);
                      record "2024-06-11T11:00:00+03:00" (JArr [])])).

Definition fi_cache_8 : region_cache :=
  mk_cache (Some [record "2024-06-10T10:00:00+03:00" (JNum 8)]) (Some jun10_1500) (Some 8%Q) (Some 8%Q).

Definition bad_price_sorted : list jvalue :=
  [record "2024-06-11T10:00:00+03:00" (JNum 5); record "2024-06-11T11:00:00+03:00" (JArr [])].

Lemma fetch_data_bad_price_run :
  fetch_data "FI" 15 false jun11_1500 bad_price_reply jun11_1500 {[ "FI" := fi_cache_8 ]} =
  (<[ "FI" := store_reply fi_cache_8 bad_price_sorted jun11_1500 ]> {[ "FI" := fi_cache_8 ]},
   Raise TypeError, Some (mk_request "FI" 15)).
Proof. reflexivity. Qed.


Definition fi_cache : region_cache :=
  mk_cache (Some fi_series) (Some jun11_1500) (Some 5%Q) (Some 9%Q).

Definition fi_state : gmap string region_cache :=
  <[ "FI" := fi_cache ]> (<[ "FI" := store_reply empty_cache fi_series jun11_1500 ]>
                         (<[ "FI" := empty_cache ]> ∅)).

(** The first call for a region fetches, sorts the reply and computes
    min 5 and max 9. *)
Lemma fetch_data_first_run :
  fetch_data "FI" 15 false jun11_1500 fi_reply jun11_1500 ∅ =
  (fi_state, Ok true, Some (mk_request "FI" 15)).
Proof. reflexivity. Qed.

Lemma fi_state_lookup : fi_state !! "FI" = Some fi_cache.
Proof. apply lookup_insert_eq. Qed.

Lemma fi_cache_inv : cache_inv fi_cache.
Proof. split; [vm_compute; reflexivity | eexists; reflexivity]. Qed.

Lemma fetch_data_inv_witness :
  fetch_data "FI" 15 false jun11_1500 fi_reply jun11_1500 ∅ = (fi_state, Ok true, Some (mk_request "FI" 15)) /\
  api_inv ∅ /\ api_inv fi_state.
Proof.
  split; [exact fetch_data_first_run|]. split; [apply map_Forall_empty|].
  exact (fetch_data_inv _ _ _ _ _ _ _ _ _ _ fetch_data_first_run (map_Forall_empty _)).
Defined.

Lemma fetch_data_good_witness :
  fetch_data "FI" 15 false jun11_1500 fi_reply jun11_1500 ∅ = (fi_state, Ok true, Some (mk_request "FI" 15)) /\
  api_good ∅ /\ api_good fi_state.
Proof.
  split; [exact fetch_data_first_run|]. split; [apply map_Forall_empty|].
  exact (fetch_data_good _ _ _ _ _ _ _ _ _ _ fetch_data_first_run (map_Forall_empty _)).
Defined.

Lemma fetch_data_failure_isolation_witness :
  fetch_data "FI" 15 true jun11_1500 HttpError jun11_1500 fi_state =
    (fi_state, Ok false, Some (mk_request "FI" 15)) /\
  (HttpError = HttpError \/ HttpError = HttpOk None \/
   exists body e, HttpError = HttpOk (Some body) /\ sort_reply fromisoformat body = Raise e) /\
  fi_state = (get_cache_data "FI" fi_state).1.
Proof.
  assert (Hf : fetch_data "FI" 15 true jun11_1500 HttpError jun11_1500 fi_state =
                 (fi_state, Ok false, Some (mk_request "FI" 15)))
    by (unfold fetch_data, get_cache_data; rewrite fi_state_lookup; reflexivity).
  assert (Hr : HttpError = HttpError \/ HttpError = HttpOk None \/
     exists body e, HttpError = HttpOk (Some body) /\ sort_reply fromisoformat body = Raise e)
    by (left; reflexivity).
  split; [exact Hf | split; [exact Hr | exact (fetch_data_failure_isolation _ _ _ _ _ _ _ _ _ _ Hf Hr)]].
Defined.

Lemma fetch_data_other_region_witness :
  fetch_data "FI" 15 false jun11_1500 fi_reply jun11_1500 ∅ = (fi_state, Ok true, Some (mk_request "FI" 15)) /\
  delete "FI" fi_state = delete "FI" (∅ : gmap string region_cache).
Proof.
  split; [exact fetch_data_first_run|].
  exact (fetch_data_other_region _ _ _ _ _ _ _ _ _ _ fetch_data_first_run).
Defined.

Lemma fetch_data_success_witness :
  fetch_data "FI" 15 false jun11_1500 (HttpOk (Some (JArr (rev fi_series)))) jun11_1500 ∅ =
    (fi_state, Ok true, Some (mk_request "FI" 15)) /\
  fetch_needed false (get_cache_data "FI" ∅).2 jun11_1500 = true /\
  sort_by_datetime fromisoformat (rev fi_series) = Ok fi_series /\
  forallb (record_ok VAT_KEY) fi_series = true /\
  exists c, fi_state !! "FI" = Some c /\ cache_data c = Some fi_series /\
    last_fetch c = Some jun11_1500 /\ aggregates_ok c /\ Ok true = Ok (bool_decide (fi_series <> [])).
Proof.
  assert (H2 : fetch_needed false (get_cache_data "FI" ∅).2 jun11_1500 = true) by reflexivity.
  assert (H3 : sort_by_datetime fromisoformat (rev fi_series) = Ok fi_series) by (vm_compute; reflexivity).
  assert (H4 : forallb (record_ok VAT_KEY) fi_series = true) by (vm_compute; reflexivity).
  split; [exact fetch_data_first_run | split; [exact H2 | split; [exact H3 | split; [exact H4|]]]].
  exact (fetch_data_success _ _ _ _ _ _ _ _ _ _ fetch_data_first_run H2 _ H3 H4).
Defined.

Definition empty_reply_state : gmap string region_cache :=
  <[ "FI" := mk_cache (Some []) (Some jun11_1500) None None ]>
    (<[ "FI" := store_reply empty_cache [] jun11_1500 ]> (<[ "FI" := empty_cache ]> ∅)).

Lemma fetch_data_empty_reply_witness :
  fetch_data "FI" 15 false jun11_1500 (HttpOk (Some (JArr []))) jun11_1500 ∅ =
    (empty_reply_state, Ok false, Some (mk_request "FI" 15)) /\
  fetch_needed false (get_cache_data "FI" ∅).2 jun11_1500 = true /\
  Ok false = Ok false /\ exists c, empty_reply_state !! "FI" = Some c /\ cache_data c = Some [] /\
    forall force' now', fetch_needed force' c now' = true.
Proof.
  assert (Hf : fetch_data "FI" 15 false jun11_1500 (HttpOk (Some (JArr []))) jun11_1500 ∅ =
    (empty_reply_state, Ok false, Some (mk_request "FI" 15))) by reflexivity.
  assert (H2 : fetch_needed false (get_cache_data "FI" ∅).2 jun11_1500 = true) by reflexivity.
  split; [exact Hf | split; [exact H2 | exact (fetch_data_empty_reply _ _ _ _ _ _ _ _ _ Hf H2)]].
Defined.

Lemma calculate_current_price_spec_witness :
  fi_state !! "FI" = Some fi_cache /\ cache_data fi_cache = Some fi_series /\ cache_inv fi_cache /\
  forallb (value_clean (price_key_to_use "VAT")) fi_series = true /\
  calculate_current_price "FI" 15 "VAT" at_1130 fi_state =
    (fi_state, Ok (resolve_spec fromisoformat (price_key_to_use "VAT") at_1130 fi_series)).
Proof.
  assert (H4 : forallb (value_clean (price_key_to_use "VAT")) fi_series = true) by (vm_compute; reflexivity).
  split; [exact fi_state_lookup | split; [reflexivity | split; [exact fi_cache_inv | split; [exact H4|]]]].
  exact (calculate_current_price_spec _ _ _ _ _ _ _ fi_state_lookup eq_refl fi_cache_inv H4).
Defined.

Lemma fi_reachable : rtc api_step ∅ fi_state.
Proof. eapply rtc_l; [eapply step_fetch, fetch_data_first_run | apply rtc_refl]. Qed.

Lemma reachable_api_inv_witness : rtc api_step ∅ fi_state /\ api_inv fi_state.
Proof. split; [exact fi_reachable | exact (reachable_api_inv _ fi_reachable)]. Defined.

Lemma populated_persists_witness :
  rtc api_step fi_state fi_state /\ fi_state !! "FI" = Some fi_cache /\ is_Some (cache_data fi_cache) /\
  exists c', fi_state !! "FI" = Some c' /\ is_Some (cache_data c').
Proof.
  assert (H3 : is_Some (cache_data fi_cache)) by (eexists; reflexivity).
  split; [apply rtc_refl | split; [exact fi_state_lookup | split; [exact H3|]]].
  exact (populated_persists _ _ _ _ (rtc_refl _ _) fi_state_lookup H3).
Defined.
