(* ===== verification/Transport.v ===== *)
(** * Transport: what [requests] gives [fetch_data]

    Lines 175-178 of spothinta_api.py call
    [requests.get(url, params=params, timeout=15)],
    [response.raise_for_status()] and [response.json()] inside a
    [try] whose [except requests.exceptions.RequestException] returns
    [False].  The network's answer is a [transport]: no answer (a
    connection error or the 15 s timeout), or a response with a status
    code and a body that is JSON or not.  [requests_reply] is what the
    three calls make of it, the [http_reply] of Api.v: [raise_for_status]
    raises [HTTPError] for a 4xx or 5xx status, [json()] raises
    [JSONDecodeError] (a [RequestException]) on a body that is not JSON.

    [requests_reply_onto]: every [http_reply] is the outcome of some
    answer, so the theorems of Api.v, stated over [http_reply], cover
    every answer of the network; [fetch_data_http_error]: a 4xx or 5xx
    answer to a due fetch leaves the cache as it was and returns
    [False]. *)

From S2P Require Import Prelude Json Clock Refresh Store IsoTime Resolver Api.

Open Scope Z_scope.

(** Line 29 and lines 168-170. *)
Definition API_BASE_URL : string := "https://api.spot-hinta.fi".
Definition request_url : string := API_BASE_URL ++ "/TodayAndDayForward".

Record http_response := mk_response {
  status_code : Z;
  json_body : option jvalue      (** [None]: the body is not JSON *)
}.

Inductive transport : Type :=
| NoAnswer                        (** ConnectionError, Timeout after 15 s *)
| Answer (r : http_response).

(** [response.raise_for_status()] (line 176). *)
Definition raise_for_status (r : http_response) : py_res unit :=
  if (400 <=? status_code r) && (status_code r <? 600) then Raise RequestException else Ok tt.

(** Lines 175-178, up to the [except] of lines 191-193. *)
Definition requests_reply (t : transport) : http_reply :=
  match t with
  | NoAnswer => HttpError
  | Answer r =>
      match raise_for_status r with
      | Raise _ => HttpError
      | Ok _ => HttpOk (json_body r)
      end
  end.

Lemma requests_reply_onto (reply : http_reply) : exists t, requests_reply t = reply.
Proof.
  destruct reply as [|body].
  - by exists NoAnswer.
  - exists (Answer (mk_response 200 body)). reflexivity.
Qed.

Lemma requests_reply_status r :
  400 <= status_code r < 600 -> requests_reply (Answer r) = HttpError.
Proof.
  intros Hs. unfold requests_reply, raise_for_status.
  by rewrite (proj2 (Z.leb_le _ _) (proj1 Hs)), (proj2 (Z.ltb_lt _ _) (proj2 Hs)).
Qed.

Section Transport.
Context `{EetZone}.

(** A due fetch whose request fails changes nothing but the lazily
    created entry, returns [False], and has sent its request. *)
Lemma fetch_data_failed_request region res now reply t api :
  fetch_needed false (get_cache_data region api).2 now = true ->
  reply = HttpError \/ reply = HttpOk None ->
  fetch_data region res false now reply t api =
    ((get_cache_data region api).1, Ok false, Some (mk_request region res)).
Proof.
  unfold fetch_data. destruct (get_cache_data region api) as [api1 c]. simpl.
  intros -> [-> | ->]; reflexivity.
Qed.

(** A 4xx or 5xx answer (429 among them) to a due fetch. *)
Lemma fetch_data_http_error region res now r t api :
  fetch_needed false (get_cache_data region api).2 now = true -> 400 <= status_code r < 600 ->
  fetch_data region res false now (requests_reply (Answer r)) t api =
    ((get_cache_data region api).1, Ok false, Some (mk_request region res)).
Proof. intros Hn Hs. apply fetch_data_failed_request; [done|]. left. by apply requests_reply_status. Qed.
End Transport.
