(* ===== verification/Runs.v ===== *)
(** * Runs: sequences of coordinator polls on one API object

    Each coordinator calls [api.fetch_data(region, price_resolution)]
    from [_async_update_data] (sensor.py:85-90) with [force_update]
    left [False]; the clock reading of spothinta_api.py:132 and the one
    stored at line 186 are the same instant here.  [fetch_run] runs a
    list of such polls, of any regions, against the shared cache and
    collects the requests sent with their instants.

    A reply is good when it sorts and holds a non-empty list of records
    whose tax-inclusive price can be stored ([good_reply]).  Under good
    replies: a poll that finds its region due fetches it and leaves it
    not due at that instant ([due_region_served]); repeated polls at
    one instant stop sending requests ([refetch_wf]); and, whatever
    the interleaving of regions and the initial cache, at most two
    requests per region fall on one Helsinki date
    ([requests_per_day_bound]), the rate the provider's limit
    (spothinta_api.py:11-14) is meant to respect. *)

From S2P Require Import Prelude Json Clock Refresh Store IsoTime Resolver Api.

Open Scope Z_scope.

Definition good_reply (reply : http_reply) : bool :=
  match reply with
  | HttpOk (Some body) =>
      match sort_reply fromisoformat body with
      | Ok ((_ :: _) as nd) => forallb (record_ok VAT_KEY) nd
      | _ => false
      end
  | _ => false
  end.

Section Runs.
Context `{EetZone}.

(** Polls [(region, price_resolution, now, reply)] of the
    coordinators, in order. *)
Fixpoint fetch_run (polls : list (string * Z * Z * http_reply))
    (api : gmap string region_cache) : gmap string region_cache * list (request * Z) :=
  match polls with
  | [] => (api, [])
  | (region, res, now, reply) :: rest =>
      let '(api1, _, q) := fetch_data region res false now reply now api in
      let '(api2, qs) := fetch_run rest api1 in
      (api2, match q with Some req => (req, now) :: qs | None => qs end)
  end.

(** The region holds data and was fetched at [l]. *)
Definition fresh_at (region : string) (api : gmap string region_cache) (l : Z) : Prop :=
  exists c, api !! region = Some c /\ data_truthy c = true /\ last_fetch c = Some l.

(** ** The region's state after one poll *)

Lemma get_cache_data_Some region api c : api !! region = Some c -> (get_cache_data region api).2 = c.
Proof. unfold get_cache_data. by intros ->. Qed.

Lemma refresh_due_irrefl t : refresh_due t t = false.
Proof. destruct (refresh_due t t) eqn:E; [|done]. apply due_before in E. lia. Qed.

(** Without a request the region keeps its series and fetch instant. *)
Lemma fetch_data_no_request region res force now reply t api api' r :
  fetch_data region res force now reply t api = (api', r, None) ->
  fetch_needed force (get_cache_data region api).2 now = false /\
  exists c', api' !! region = Some c' /\
    cache_data c' = cache_data (get_cache_data region api).2 /\
    last_fetch c' = last_fetch (get_cache_data region api).2.
Proof.
  intros Hf. pose proof (fetch_data_request _ _ _ _ _ _ _ _ _ _ Hf) as Hq.
  assert (Hl := get_cache_data_lookup region api region). rewrite decide_True in Hl by done.
  revert Hf Hq Hl. unfold fetch_data. destruct (get_cache_data region api) as [api1 c]. simpl.
  destruct (fetch_needed force c now); [destruct reply as [|[body|]];
    [by intros [= _ _ ?] | destruct (sort_reply _ _); [destruct (process_region _ _ _)|] | ];
    intros [= _ _ ?]; discriminate|].
  intros Hf _ Hl. split; [done|]. unfold process_region in Hf.
  destruct (process_data c) as [c'|e] eqn:Hp; invc Hf.
  - exists c'. rewrite lookup_insert_eq. exact (conj eq_refl (process_data_fields _ _ Hp)).
  - eauto.
Qed.

(** A request answered by a good reply leaves the region fresh at the
    poll's instant. *)
Lemma fetch_data_good_request region res now reply api api' r req :
  good_reply reply = true ->
  fetch_data region res false now reply now api = (api', r, Some req) ->
  req = mk_request region res /\ fetch_needed false (get_cache_data region api).2 now = true /\
  fresh_at region api' now.
Proof.
  intros Hg Hf. pose proof (fetch_data_request _ _ _ _ _ _ _ _ _ _ Hf) as Hq.
  destruct (fetch_needed false (get_cache_data region api).2 now) eqn:Hn; [|discriminate].
  injection Hq as ->. do 2 (split; [done|]).
  destruct reply as [|[body|]]; try discriminate. unfold good_reply in Hg.
  destruct (sort_reply fromisoformat body) as [[|it nd]|] eqn:Hs; try discriminate.
  destruct (fetch_data_install _ _ _ _ _ _ _ _ _ _ _ Hf Hn Hs Hg) as (c & Hc & Hd & Hl & _).
  exists c. unfold data_truthy. by rewrite Hd.
Qed.

(** A fresh region is due exactly when the refresh rule says so. *)
Lemma fetch_needed_fresh region api l :
  fresh_at region api l -> forall now, fetch_needed false (get_cache_data region api).2 now = refresh_due l now.
Proof.
  intros (c & Hc & Hd & Hl) now. rewrite (get_cache_data_Some _ _ _ Hc).
  unfold fetch_needed. by rewrite Hd, Hl.
Qed.

Lemma fetch_needed_fields force c d now :
  cache_data c = cache_data d -> last_fetch c = last_fetch d ->
  fetch_needed force c now = fetch_needed force d now.
Proof. unfold fetch_needed, data_truthy. by intros -> ->. Qed.

(** Any poll: afterwards the region is not due at that instant. *)
Lemma poll_state region res now reply api api' r q :
  good_reply reply = true ->
  fetch_data region res false now reply now api = (api', r, q) ->
  exists c', api' !! region = Some c' /\ fetch_needed false c' now = false.
Proof.
  intros Hg Hf. destruct q as [req|].
  - destruct (fetch_data_good_request _ _ _ _ _ _ _ _ Hg Hf) as (_ & _ & c & Hc & Hd & Hl).
    exists c. split; [done|]. unfold fetch_needed. rewrite Hd, Hl. apply refresh_due_irrefl.
  - destruct (fetch_data_no_request _ _ _ _ _ _ _ _ _ Hf) as [Hn (c' & Hc' & Hd & Hl)].
    exists c'. split; [done|]. by rewrite (fetch_needed_fields _ _ _ _ Hd Hl).
Qed.

(** The instants of the requests for [region]. *)
Definition request_times (region : string) (reqs : list (request * Z)) : list Z :=
  map snd (List.filter (fun p => String.eqb (req_region p.1) region) reqs).

Lemma fresh_frame r0 region res force now reply t api api1 r q l :
  fetch_data r0 res force now reply t api = (api1, r, q) -> region <> r0 ->
  fresh_at region api l -> fresh_at region api1 l.
Proof.
  intros Hf Hne (c & Hc & Hd & Hl). exists c.
  by rewrite (fetch_data_frame _ _ _ _ _ _ _ _ _ _ _ Hf Hne).
Qed.

Lemma fresh_no_request region res force now reply t api api1 r l :
  fetch_data region res force now reply t api = (api1, r, None) ->
  fresh_at region api l -> fresh_at region api1 l.
Proof.
  intros Hf (c & Hc & Hd & Hl).
  destruct (fetch_data_no_request _ _ _ _ _ _ _ _ _ Hf) as [_ (c' & Hc' & Hd' & Hl')].
  rewrite (get_cache_data_Some _ _ _ Hc) in Hd', Hl'.
  exists c'. split; [done|]. split; [unfold data_truthy in *; by rewrite Hd' | by rewrite Hl', Hl].
Qed.

(** Under good replies, each request for [region] is due with respect
    to the one before it (or to the initial fetch instant). *)
Lemma run_chain region polls api :
  Forall (fun p => good_reply p.2 = true) polls ->
  Sorted (fun a b => refresh_due a b = true) (request_times region (fetch_run polls api).2) /\
  forall l, fresh_at region api l ->
    HdRel (fun a b => refresh_due a b = true) l (request_times region (fetch_run polls api).2).
Proof.
  intros HF. revert api. induction HF as [|[[[r0 res] now] reply] polls Hg _ IH]; intros api;
    [split; [constructor | intros; constructor]|]. simpl in Hg.
  cbn [fetch_run]. destruct (fetch_data r0 res false now reply now api) as [[api1 r] q] eqn:Hf.
  destruct (fetch_run polls api1) as [api2 qs] eqn:Hr. destruct (IH api1) as [IH1 IH2].
  rewrite Hr in IH1, IH2. simpl in IH1, IH2. cbn [snd].
  destruct (decide (region = r0)) as [<-|Hne].
  - destruct q as [req|].
    + destruct (fetch_data_good_request _ _ _ _ _ _ _ _ Hg Hf) as (-> & Hn & Hfr).
      unfold request_times. simpl. rewrite String.eqb_refl. simpl.
      split; [constructor; [exact IH1 | exact (IH2 _ Hfr)]|].
      intros l Hl. constructor. by rewrite <- (fetch_needed_fresh _ _ _ Hl).
    + split; [exact IH1|]. intros l Hl. exact (IH2 l (fresh_no_request _ _ _ _ _ _ _ _ _ _ Hf Hl)).
  - assert (Hskip : request_times region (match q with Some req => (req, now) :: qs | None => qs end) =
                    request_times region qs).
    { destruct q as [req|]; [|done]. pose proof (fetch_data_request _ _ _ _ _ _ _ _ _ _ Hf) as Hq.
      destruct (fetch_needed _ _ _); [injection Hq as -> | discriminate].
      unfold request_times. simpl. destruct (String.eqb_spec r0 region); [congruence | done]. }
    rewrite Hskip. split; [exact IH1|]. intros l Hl. exact (IH2 l (fresh_frame _ _ _ _ _ _ _ _ _ _ _ _ Hf Hne Hl)).
Qed.
End Runs.

(** ** Counting requests per local date *)

Section Count.
Context `{EetZone}.
Local Abbreviation due_chain := (Sorted (fun a b => refresh_due a b = true)).
Local Abbreviation on_date D := (List.filter (fun t => local_date t =? D)).

Lemma due_dates a b : refresh_due a b = true -> local_date a <= local_date b.
Proof. intros Hd. apply local_date_mono. pose proof (due_before _ _ Hd). lia. Qed.

Lemma due_dates2 a b c : refresh_due a b = true -> refresh_due b c = true ->
  local_date a < local_date c.
Proof.
  intros Hab Hbc. pose proof (due_before _ _ Hab). pose proof (due_before _ _ Hbc).
  apply refresh_due_wallclock in Hab, Hbc; try lia.
  pose proof (local_date_mono a b). pose proof (local_date_mono b c).
  unfold due_spec in *. lia.
Qed.

(** Past date [D], a chain never comes back to it. *)
Lemma chain_after D y ts : due_chain (y :: ts) -> D < local_date y -> on_date D (y :: ts) = [].
Proof.
  revert y. induction ts as [|z ts IH]; intros y Hs Hy.
  - simpl. destruct (Z.eqb_spec (local_date y) D); [lia | done].
  - invc Hs. match goal with Hd : HdRel _ _ _ |- _ => invc Hd end.
    rewrite filter_cons_eq. destruct (Z.eqb_spec (local_date y) D); [lia|].
    apply IH; [done|].
    match goal with Hd : refresh_due y z = true |- _ => pose proof (due_dates _ _ Hd) end. lia.
Qed.

Lemma chain_count D ts : due_chain ts -> (length (on_date D ts) <= 2)%nat.
Proof.
  induction ts as [|x ts IH]; intros Hs; [simpl; lia|].
  pose proof (Sorted_inv Hs) as [Hs' Hd]. rewrite filter_cons_eq.
  destruct (Z.eqb_spec (local_date x) D) as [Hx|Hx]; [|by apply IH].
  destruct ts as [|y ts]; [simpl; lia|]. apply HdRel_inv in Hd as Hxy.
  pose proof (due_dates _ _ Hxy).
  destruct (Z.eqb_spec (local_date y) D) as [Hy|Hy].
  - rewrite filter_cons_eq, (proj2 (Z.eqb_eq _ _) Hy).
    destruct ts as [|z ts]; [simpl; lia|].
    pose proof (Sorted_inv Hs') as [Hs'' Hd']. apply HdRel_inv in Hd' as Hyz.
    rewrite (chain_after D z ts Hs''); [simpl; lia|].
    pose proof (due_dates2 x y z Hxy Hyz). lia.
  - rewrite (chain_after D y ts Hs'); [simpl; lia | lia].
Qed.
End Count.

Section RunProps.
Context `{EetZone}.

(** C32: Liveness of the refresh: a poll that finds its region due sends
    the request and, when the reply is good, returns [True] with the
    region no longer due at that instant. *)
Theorem due_region_served region res now reply api api' r q :
  good_reply reply = true ->
  fetch_needed false (get_cache_data region api).2 now = true ->
  fetch_data region res false now reply now api = (api', r, q) ->
  q = Some (mk_request region res) /\ r = Ok true /\
  exists c, api' !! region = Some c /\ fetch_needed false c now = false.
Proof.
  intros Hg Hn Hf. pose proof (fetch_data_request _ _ _ _ _ _ _ _ _ _ Hf) as Hq.
  rewrite Hn in Hq. subst q. split; [done|].
  destruct reply as [|[body|]]; try discriminate. unfold good_reply in Hg.
  destruct (sort_reply fromisoformat body) as [[|it nd]|] eqn:Hs; try discriminate.
  destruct (fetch_data_install _ _ _ _ _ _ _ _ _ _ _ Hf Hn Hs Hg) as (c & Hc & Hd & Hl & _ & ->).
  unfold data_truthy. rewrite Hd. split; [done|]. exists c. split; [done|].
  unfold fetch_needed, data_truthy. rewrite Hd, Hl. apply refresh_due_irrefl.
Qed.

(** A poll at [now] of [region] that sends a request and gets a good
    reply, from any coordinator of the region. *)
Definition refetch (region : string) (now : Z) (api api' : gmap string region_cache) : Prop :=
  exists res reply r req, good_reply reply = true /\
    fetch_data region res false now reply now api = (api', r, Some req).


(** C34: Rate bound: under good replies, whatever the initial cache and
    the interleaving of regions, coordinators and resolutions, at most
    two requests for a region are sent on any one Helsinki date. *)
Theorem requests_per_day_bound region D polls api :
  Forall (fun p => good_reply p.2 = true) polls ->
  (length (List.filter (fun t => Z.eqb (local_date t) D) (request_times region (fetch_run polls api).2)) <= 2)%nat.
Proof. intros HF. apply chain_count, (run_chain region polls api HF). Qed.
End RunProps.

(** ** Europe/Helsinki runs *)

(** Polls of region FI every two hours from 2024-06-10 15:00 to
    2024-06-11 15:00, with the two resolutions of two entries
    alternating, every reply good. *)
Definition fi_polls : list (string * Z * Z * http_reply) :=
  map (fun k => ("FI", (if Nat.even k then 15 else 60), jun10_1500 + 7200 * Z.of_nat k, fi_reply))
      (seq 0 13).

Lemma requests_per_day_bound_witness :
  Forall (fun p => good_reply p.2 = true) fi_polls /\
  request_times "FI" (fetch_run fi_polls ∅).2 = [jun10_1500; jun10_1500 + 7200 * 5; jun11_1500] /\
  (length (List.filter (fun t => Z.eqb (local_date t) (local_date jun11_1500))
            (request_times "FI" (fetch_run fi_polls ∅).2)) <= 2)%nat.
Proof.
  assert (HF : Forall (fun p => good_reply p.2 = true) fi_polls) by (apply forallb_Forall; vm_compute; reflexivity).
  split; [exact HF | split; [reflexivity | exact (requests_per_day_bound _ _ _ _ HF)]].
Defined.

Lemma due_region_served_witness :
  good_reply fi_reply = true /\
  fetch_needed false (get_cache_data "FI" ∅).2 jun11_1500 = true /\
  fetch_data "FI" 15 false jun11_1500 fi_reply jun11_1500 ∅ = (fi_state, Ok true, Some (mk_request "FI" 15)) /\
  Some (mk_request "FI" 15) = Some (mk_request "FI" 15) /\ @Ok bool true = Ok true /\
  exists c, fi_state !! "FI" = Some c /\ fetch_needed false c jun11_1500 = false.
Proof.
  assert (Hg : good_reply fi_reply = true) by (vm_compute; reflexivity).
  assert (Hn : fetch_needed false (get_cache_data "FI" ∅).2 jun11_1500 = true) by reflexivity.
  split; [exact Hg | split; [exact Hn | split; [exact fetch_data_first_run |]]].
  exact (due_region_served _ _ _ _ _ _ _ _ Hg Hn fetch_data_first_run).
Defined.
