(* ===== verification/Schema.v ===== *)
(** * Schema: the provider's records and type safety

    Spec section 6 describes the reply as a JSON array of records, each
    with an ISO-8601 ["DateTime"] with offset and the tax-inclusive and
    tax-exclusive prices under fixed keys.  [record_wt] is that schema
    as the code reads it: a dict whose ["DateTime"] is a string
    [fromisoformat] accepts and whose ["PriceWithTax"] and
    ["PriceNoTax"] are numbers, [null] or absent.  A cache is well typed
    when every record it stores is.

    Type safety of [SpotHintaAPI]: on a well-typed cache, a call of
    [fetch_data] whose reply (if any) is well typed never raises and
    leaves the cache well typed ([fetch_data_wt]), and
    [calculate_current_price] never raises ([calculate_current_price_wt]).
    The exceptions of Api.v and Resolver.v all come from records
    outside the schema. *)

From S2P Require Import Prelude Json Clock Refresh Store IsoTime Resolver Api.

Open Scope Z_scope.

(** A price field: absent, [null] or a number. *)
Definition price_field_wt (v : option jvalue) : bool :=
  match v with None | Some JNull | Some (JNum _) => true | _ => false end.

Definition record_wt (it : jvalue) : bool :=
  match it with
  | JObj kvs =>
      match assoc_last "DateTime" kvs with
      | Some (JStr s) => bool_decide (is_Some (fromisoformat s))
      | _ => false
      end &&
      price_field_wt (assoc_last "PriceWithTax" kvs) && price_field_wt (assoc_last "PriceNoTax" kvs)
  | _ => false
  end.

(** A reply the code may get: an error or a non-JSON body, or a list of
    well-typed records. *)
Definition reply_wt (reply : http_reply) : bool :=
  match reply with
  | HttpOk (Some (JArr items)) => forallb record_wt items
  | HttpOk (Some _) => false
  | _ => true
  end.

Definition cache_wt (c : region_cache) : Prop := Forall (fun it => record_wt it = true) (data_list c).

Definition api_wt (api : gmap string region_cache) : Prop := map_Forall (fun _ c => cache_wt c) api.

(** ** A well-typed record *)

Lemma record_wt_obj it : record_wt it = true ->
  exists kvs s t, it = JObj kvs /\ assoc_last "DateTime" kvs = Some (JStr s) /\ fromisoformat s = Some t /\
    price_field_wt (assoc_last "PriceWithTax" kvs) = true /\ price_field_wt (assoc_last "PriceNoTax" kvs) = true.
Proof.
  intros H. destruct it as [| | | | |kvs]; try discriminate. simpl in H.
  destruct (assoc_last "DateTime" kvs) as [[| | |s| |]|] eqn:Ed; try discriminate.
  apply andb_true_iff in H as [[Hs%bool_decide_eq_true Hw]%andb_true_iff Hn].
  destruct Hs as [t Ht]. by exists kvs, s, t.
Qed.

Lemma record_wt_datetime it : record_wt it = true -> exists t, item_datetime fromisoformat it = Ok t.
Proof.
  intros (kvs & s & t & -> & Hd & Ht & _)%record_wt_obj. exists t. unfold item_datetime, py_bind, py_getitem. by rewrite Hd, Ht.
Qed.

Lemma record_wt_ok it : record_wt it = true -> record_ok VAT_KEY it = true.
Proof.
  intros (kvs & s & t & -> & _ & _ & Hw & _)%record_wt_obj. unfold record_ok, VAT_KEY. simpl.
  by destruct (assoc_last "PriceWithTax" kvs) as [[]|].
Qed.

(** The keys [calculate_current_price] reads. *)
Lemma price_key_cases price_type :
  price_key_to_use price_type = "PriceWithTax" \/ price_key_to_use price_type = "PriceNoTax".
Proof.
  unfold price_key_to_use. simpl.
  destruct (String.eqb price_type "VAT"); [by left|]. destruct (String.eqb price_type "NO_VAT"); auto.
Qed.

Lemma record_wt_price it key : record_wt it = true -> key = "PriceWithTax" \/ key = "PriceNoTax" ->
  exists kvs, it = JObj kvs /\ price_field_wt (assoc_last key kvs) = true.
Proof. intros (kvs & s & t & -> & _ & _ & Hw & Hn)%record_wt_obj [->| ->]; eauto. Qed.

(** ** Type safety *)

Lemma sort_wt items : forallb record_wt items = true ->
  exists nd, sort_by_datetime fromisoformat items = Ok nd /\ Forall (fun it => record_wt it = true) nd.
Proof.
  intros HF%forallb_Forall.
  destruct (py_mapM_total (item_datetime fromisoformat) items) as [ks Hks].
  { eapply Forall_impl; [exact HF | exact record_wt_datetime]. }
  assert (Hs : sort_by_datetime fromisoformat items = Ok (map snd (isort_by_key (combine ks items))))
    by (unfold sort_by_datetime; by rewrite Hks).
  eexists. split; [exact Hs|].
  eapply Permutation_Forall; [exact (proj1 (sort_by_datetime_filter _ _ _ Hs)) | exact HF].
Qed.

Lemma process_wt c : cache_wt c -> exists c', process_data c = Ok c' /\ cache_wt c'.
Proof.
  intros Hc. destruct (process_data_total c) as [c' Hp].
  { apply Forall_forallb. eapply Forall_impl; [exact Hc | exact record_wt_ok]. }
  exists c'. split; [done|]. unfold cache_wt, data_list. by rewrite (proj1 (process_data_fields _ _ Hp)).
Qed.

Lemma process_region_wt region c a : cache_wt c -> api_wt a ->
  exists a' b, process_region region c a = (a', Ok b) /\ api_wt a'.
Proof.
  intros Hc Ha. destruct (process_wt c Hc) as (c' & Hp & Hc'). unfold process_region. rewrite Hp.
  eexists _, _. split; [reflexivity|]. by apply map_Forall_insert_2.
Qed.

Lemma fallback_last_wt key items : key = "PriceWithTax" \/ key = "PriceNoTax" ->
  Forall (fun it => record_wt it = true) items -> exists p, fallback_last key items = Ok p.
Proof.
  intros Hk HF. unfold fallback_last. destruct (last items) as [li|] eqn:Hl; [|eauto].
  assert (Hli : record_wt li = true).
  { apply (proj1 (List.Forall_forall _ _) HF), list_elem_of_In, last_Some_elem_of, Hl. }
  destruct (record_wt_price _ _ Hli Hk) as (kvs & -> & Hw).
  destruct (py_truthy (JObj kvs)); [|eauto]. simpl.
  destruct (assoc_last key kvs) as [[]|]; try discriminate; simpl; eauto.
Qed.

(** C38: Type safety of [fetch_data]: on a well-typed cache, with an
    error, a non-JSON body or a list of records that follow the
    provider's schema, the call never raises and the cache stays well
    typed. *)
Theorem fetch_data_wt `{EetZone} region res force now reply t api api' r q :
  api_wt api -> reply_wt reply = true ->
  fetch_data region res force now reply t api = (api', r, q) ->
  api_wt api' /\ exists b, r = Ok b.
Proof.
  intros Ha Hr. unfold fetch_data.
  destruct (get_cache_data_forall cache_wt region api ltac:(constructor) Ha) as [Ha1 Hc].
  destruct (get_cache_data region api) as [api1 c]. simpl in *.
  destruct (fetch_needed force c now);
    [destruct reply as [|[body|]]; [intros [= <- <- _]; eauto | | intros [= <- <- _]; eauto]|].
  - destruct body as [| | | |items|]; try discriminate. simpl in Hr |- *.
    destruct (sort_wt items Hr) as (nd & -> & Hnd).
    destruct (process_region_wt region (store_reply c nd t) (<[region := store_reply c nd t]> api1))
      as (a' & b & Hp & Hwt); [exact Hnd | by apply map_Forall_insert_2 |].
    rewrite Hp. intros [= <- <- _]. eauto.
  - destruct (process_region_wt region c api1 Hc Ha1) as (a' & b & Hp & Hwt).
    rewrite Hp. intros [= <- <- _]. eauto.
Qed.

(** C39: Type safety of [calculate_current_price]: on a well-typed cache
    a price query never raises, whatever the price type and instant. *)
Theorem calculate_current_price_wt region res price_type now api api' r :
  api_wt api -> calculate_current_price region res price_type now api = (api', r) ->
  exists p, r = Ok p.
Proof.
  intros Ha. unfold calculate_current_price.
  destruct (get_cache_data_forall cache_wt region api ltac:(constructor) Ha) as [_ Hc].
  destruct (get_cache_data region api) as [api1 c]. intros [= _ <-]. simpl in Hc.
  unfold current_price_of, cache_wt, data_list in *.
  destruct (cache_data c) as [[|it items]|]; simpl in Hc; [eauto | | eauto].
  destruct (scan_current _ _ _ _ _); [eauto|].
  exact (fallback_last_wt _ _ (price_key_cases price_type) Hc).
Qed.

(** ** Instances *)

Lemma fetch_data_wt_witness :
  api_wt ∅ /\ reply_wt fi_reply = true /\
  exists api' r q, fetch_data "FI" 15 false jun11_1500 fi_reply jun11_1500 ∅ = (api', r, q) /\
    api_wt api' /\ exists b, r = Ok b.
Proof.
  assert (Ha : api_wt ∅) by apply map_Forall_empty.
  assert (Hr : reply_wt fi_reply = true) by (vm_compute; reflexivity).
  split; [exact Ha | split; [exact Hr|]].
  destruct (fetch_data "FI" 15 false jun11_1500 fi_reply jun11_1500 ∅) as [[api' r] q] eqn:E.
  exists api', r, q. split; [reflexivity | exact (fetch_data_wt _ _ _ _ _ _ _ _ _ _ Ha Hr E)].
Defined.

Lemma calculate_current_price_wt_witness :
  api_wt fi_state /\
  exists api' r, calculate_current_price "FI" 15 "NO_VAT" at_1130 fi_state = (api', r) /\ exists p, r = Ok p.
Proof.
  assert (Ha : api_wt fi_state).
  { unfold fi_state. repeat apply map_Forall_insert_2; try apply map_Forall_empty;
      apply forallb_Forall; vm_compute; reflexivity. }
  split; [exact Ha|].
  destruct (calculate_current_price "FI" 15 "NO_VAT" at_1130 fi_state) as [api' r] eqn:E.
  exists api', r. split; [reflexivity | exact (calculate_current_price_wt _ _ _ _ _ _ _ Ha E)].
Defined.
