(* ===== verification/Contract.v ===== *)
(** * Contract: the specification's RegionCache and its refinement

    Spec section 4.5 describes the orchestrator by its state, one
    RegionState per region (the sorted series and the last-fetch
    instant; the aggregates are functions of the series, section 3),
    and by [ensureFresh(region, now)]: evaluate [isRefreshDue]
    (section 4.2: due when there is no last fetch, else the daily rule)
    and, when due, fetch and install, leaving the state untouched on a
    failure.  [ensure_fresh] is that operation on [spec_state].

    [refines api S] relates the code's cache to a specification state:
    a region the code holds data for is a region of [S] with the same
    series and instant and aggregates that match the series; a region
    the code created lazily but never filled is absent from [S].
    [fetch_data_refines]: for a good reply (Runs.v) or a transport or
    decode failure, [fetch_data] keeps the relation with
    [ensure_fresh], and it sends a request exactly when the
    specification says the region is due. *)

From S2P Require Import Prelude Json Clock Refresh Store IsoTime Resolver Api Runs.

Open Scope Z_scope.

(** RegionState of the specification: series and last-fetch instant. *)
Abbreviation spec_state := (gmap string (list jvalue * Z)).

Section Contract.
Context `{EetZone}.

(** [isRefreshDue] (spec section 4.2). *)
Definition is_refresh_due (st : option (list jvalue * Z)) (now : Z) : bool :=
  match st with None => true | Some (_, l) => refresh_due l now end.

(** [ensureFresh(region, now)] (spec section 4.5) with the fetch's
    outcome [reply]; the flag says whether a fetch was made. *)
Definition ensure_fresh (region : string) (now : Z) (reply : http_reply) (S : spec_state)
    : spec_state * bool :=
  if is_refresh_due (S !! region) now then
    match reply with
    | HttpOk (Some body) =>
        match sort_reply fromisoformat body with
        | Ok nd => (<[region := (nd, now)]> S, true)
        | Raise _ => (S, true)
        end
    | _ => (S, true)
    end
  else (S, false).

Definition region_refines (c : option region_cache) (st : option (list jvalue * Z)) : Prop :=
  match c, st with
  | None, None => True
  | Some c, None => cache_data c = None /\ last_fetch c = None
  | Some c, Some (ser, l) => cache_data c = Some ser /\ ser <> [] /\ last_fetch c = Some l /\ aggregates_ok c
  | None, Some _ => False
  end.

Definition refines (api : gmap string region_cache) (S : spec_state) : Prop :=
  forall r, region_refines (api !! r) (S !! r).

(** ** The code's test is the specification's *)

Lemma region_refines_due c st now :
  region_refines (Some c) st -> fetch_needed false c now = is_refresh_due st now.
Proof.
  unfold fetch_needed, data_truthy. destruct st as [[ser l]|]; simpl.
  - intros (-> & Hne & -> & _). by destruct ser.
  - by intros [-> _].
Qed.

Lemma get_cache_data_refines region api st :
  region_refines (api !! region) st -> region_refines (Some (get_cache_data region api).2) st.
Proof.
  unfold get_cache_data. destruct (api !! region); [done|]. simpl. by destruct st.
Qed.

Lemma get_cache_data_refines_all region api S :
  refines api S -> refines (get_cache_data region api).1 S.
Proof.
  intros HR r. rewrite get_cache_data_lookup. case_decide; [subst; apply get_cache_data_refines, HR | apply HR].
Qed.

(** Without a fetch the region keeps its series and instant and gets
    matching aggregates, or the call raises before changing it. *)
Lemma fetch_data_not_needed region res now reply t api api' r q :
  fetch_needed false (get_cache_data region api).2 now = false ->
  fetch_data region res false now reply t api = (api', r, q) ->
  q = None /\ (api' = (get_cache_data region api).1 \/
    exists c', process_data (get_cache_data region api).2 = Ok c' /\
               api' = <[region := c']> (get_cache_data region api).1).
Proof.
  unfold fetch_data. destruct (get_cache_data region api) as [api1 c]. simpl. intros ->.
  unfold process_region. destruct (process_data c) as [c'|e]; intros [= <- _ <-]; eauto.
Qed.

Lemma region_refines_process c c' st :
  region_refines (Some c) st -> process_data c = Ok c' -> region_refines (Some c') st.
Proof.
  intros Hc Hp. destruct (process_data_fields _ _ Hp) as [Hd Hl].
  pose proof (process_data_aggregates _ _ Hp) as Ha.
  destruct st as [[ser l]|]; simpl in *; rewrite Hd, Hl; [|done].
  destruct Hc as (? & ? & ? & _). done.
Qed.

Lemma fetch_data_transport_error region res force now reply t api api' r q :
  fetch_needed force (get_cache_data region api).2 now = true ->
  reply = HttpError \/ reply = HttpOk None ->
  fetch_data region res force now reply t api = (api', r, q) -> api' = (get_cache_data region api).1.
Proof.
  unfold fetch_data. destruct (get_cache_data region api) as [api1 c]. simpl.
  intros -> [-> | ->]; by intros [= <- _ _].
Qed.

Lemma ensure_fresh_due region now reply S :
  is_refresh_due (S !! region) now = true ->
  ensure_fresh region now reply S =
    (match reply with
     | HttpOk (Some body) =>
         match sort_reply fromisoformat body with Ok nd => <[region := (nd, now)]> S | Raise _ => S end
     | _ => S
     end, true).
Proof.
  unfold ensure_fresh. intros ->. destruct reply as [|[body|]]; [done | | done].
  by destruct (sort_reply _ _).
Qed.

Lemma ensure_fresh_not_due region now reply S :
  is_refresh_due (S !! region) now = false -> ensure_fresh region now reply S = (S, false).
Proof. unfold ensure_fresh. by intros ->. Qed.

(** C40: Refinement of the specification's [ensureFresh]: for a good
    reply or a transport or decode failure, [fetch_data] keeps its cache
    related to the specification's state after [ensureFresh], and it
    sends a request exactly when [isRefreshDue] holds. *)
Theorem fetch_data_refines region res now reply api S api' r q :
  refines api S ->
  good_reply reply = true \/ reply = HttpError \/ reply = HttpOk None ->
  fetch_data region res false now reply now api = (api', r, q) ->
  refines api' (ensure_fresh region now reply S).1 /\ (is_Some q <-> (ensure_fresh region now reply S).2 = true).
Proof.
  intros HR Hrep Hf.
  pose proof (get_cache_data_refines _ _ _ (HR region)) as Hc.
  pose proof (region_refines_due _ _ now Hc) as Hdue.
  pose proof (fetch_data_request _ _ _ _ _ _ _ _ _ _ Hf) as Hq. rewrite Hdue in Hq.
  destruct (is_refresh_due (S !! region) now) eqn:Ed; subst q.
  - rewrite (ensure_fresh_due _ _ _ _ Ed). simpl. split; [|split; [done | eauto]].
    destruct Hrep as [Hg | Herr]; [|rewrite (fetch_data_transport_error _ _ _ _ _ _ _ _ _ _ ltac:(by rewrite Hdue) Herr Hf);
      destruct Herr as [-> | ->]; by apply get_cache_data_refines_all].
    destruct reply as [|[body|]]; try discriminate. unfold good_reply in Hg.
    destruct (sort_reply fromisoformat body) as [[|it nd]|] eqn:Hs; try discriminate.
    destruct (fetch_data_install _ _ _ _ _ _ _ _ _ _ _ Hf ltac:(by rewrite Hdue) Hs Hg)
      as (c' & Hc' & Hd & Hl & Ha & _).
    intros r'. destruct (decide (r' = region)) as [->|Hne].
    + rewrite lookup_insert_eq, Hc'. simpl. done.
    + rewrite lookup_insert_ne by done. rewrite (fetch_data_frame _ _ _ _ _ _ _ _ _ _ _ Hf Hne). apply HR.
  - rewrite (ensure_fresh_not_due _ _ _ _ Ed). simpl. split; [|split; [by intros [? ?] | done]].
    destruct (fetch_data_not_needed _ _ _ _ _ _ _ _ _ ltac:(by rewrite Hdue) Hf) as [_ [-> | (c' & Hp & ->)]];
      [by apply get_cache_data_refines_all|].
    intros r'. destruct (decide (r' = region)) as [->|Hne].
    + rewrite lookup_insert_eq. exact (region_refines_process _ _ _ Hc Hp).
    + rewrite lookup_insert_ne by done. apply get_cache_data_refines_all, HR.
Qed.
End Contract.

Lemma fetch_data_refines_witness :
  refines ∅ ∅ /\ (good_reply fi_reply = true \/ fi_reply = HttpError \/ fi_reply = HttpOk None) /\
  fetch_data "FI" 15 false jun11_1500 fi_reply jun11_1500 ∅ = (fi_state, Ok true, Some (mk_request "FI" 15)) /\
  refines fi_state (ensure_fresh "FI" jun11_1500 fi_reply ∅).1 /\
  (is_Some (Some (mk_request "FI" 15)) <-> (ensure_fresh "FI" jun11_1500 fi_reply ∅).2 = true).
Proof.
  assert (HR : refines ∅ ∅) by (intros r; by rewrite !lookup_empty).
  assert (Hg : good_reply fi_reply = true \/ fi_reply = HttpError \/ fi_reply = HttpOk None)
    by (left; vm_compute; reflexivity).
  split; [exact HR | split; [exact Hg | split; [exact fetch_data_first_run |]]].
  exact (fetch_data_refines _ _ _ _ _ _ _ _ _ HR Hg fetch_data_first_run).
Defined.
