(* ===== verification/Concurrency.v ===== *)
(** * Concurrency: [fetch_data] in executor threads

    Every coordinator runs [api.fetch_data] through
    [hass.async_add_executor_job] (sensor.py:88-90), that is in a thread
    of Home Assistant's pool; two entries of one region, or the setup of
    two entries, can run it at the same time on the shared object.  The
    code takes no lock.  Python runs one statement of one thread at a
    time, so the model interleaves the statements of [fetch_data] that
    read or write shared state:

    - [_get_cache_data] (lines 53, 54-59, 60): the membership test, the
      creation of the region's dict and the lookup that returns it are
      three steps;
    - line 135 reads ['last_fetch']; line 139 reads ['_data'] and the
      decision of lines 139-161 follows; when a fetch is due the request
      goes out (line 175); the reply arrives in a later step, which also
      sorts it (lines 178-181);
    - the stores of lines 185 and 186 are two steps;
    - [_process_data] (lines 205-238) gets the dict again (three steps),
      reads ['_data'] and computes min and max (lines 209-234), then
      writes ['min_price'] and ['max_price'] in two steps;
    - the return of line 202 reads the dict the call started with.

    The sensor's price query [calculate_current_price] also runs in the
    pool (sensor.py:178-184): its [_get_cache_data] call (three steps)
    and its read of ['_data'] (line 80) touch shared state, and the rest
    works on the list it read ([qstep]).  A coordinator refresh
    ([cjob], [coord_step], sensor.py:85-100) runs the fetch job; once it
    has returned, the event loop raises [UpdateFailed] on [False] or
    calls [_get_cache_data] (line 97, three steps), whose dict becomes
    [coordinator.data].

    Dicts live in a heap by identity ([c_heap]); [_data_cache] maps a
    region to the identity of its dict ([c_table]).  A thread carries its
    inputs (region, resolution, the clock readings and the reply its
    request will get) and its program point.  [conc_step] lets any
    unfinished fetch thread take its next step, [mixed_step] any
    coordinator or query.

    The theorems: a call with no other thread in between is the
    sequential [fetch_data] ([fetch_data_solo]); under every
    interleaving the dicts keep sorted data, finished coordinators hold
    sorted data and queries read one whole series
    ([interleaving_sorted]); and concrete interleavings with
    duplicate requests ([concurrent_fetches_duplicate]), aggregates of
    another reply ([concurrent_stale_aggregates]) and a reply stored in
    an orphaned dict while the coordinator holds the empty bound one
    ([concurrent_lost_update]). *)

From S2P Require Import Prelude Json Clock Refresh Store IsoTime Resolver Api.

Open Scope Z_scope.

Record cstate := mk_cstate {
  c_heap : gmap nat region_cache;   (** the region dicts, by identity *)
  c_table : gmap string nat;        (** [self._data_cache] *)
  c_next : nat;                     (** identity of the next dict created *)
  c_sent : list request             (** requests sent so far, in order *)
}.

(** Which call of [_get_cache_data] a thread is in. *)
Inductive get_cont : Type :=
| KFetch                  (** line 131 *)
| KProcess (cache : nat). (** line 208, inside [_process_data] *)

Inductive get_pc : Type := GCheck | GAssign | GReturn.

(** Program points; [cache] is the dict [fetch_data] holds, [pcache]
    the one [_process_data] holds. *)
Inductive fpc : Type :=
| PGet (k : get_cont) (g : get_pc)
| PReadLast (cache : nat)                   (** line 135 *)
| PDecide (cache : nat) (last : option Z)  (** lines 139-161 *)
| PAwait (cache : nat)
| PStoreData (cache : nat) (new_data : list jvalue)
| PStoreFetch (cache : nat)
| PProcRead (cache pcache : nat)
| PProcMin (cache pcache : nat) (mn mx : option Q)
| PProcMax (cache pcache : nat) (mx : option Q)
| PReturn (cache : nat)
| PDone (r : py_res bool).

Record thread := mk_thread {
  t_region : string;
  t_res : Z;
  t_now : Z;              (** line 132 *)
  t_reply : http_reply;   (** what [requests.get] returns *)
  t_stored_at : Z;        (** line 186 *)
  t_pc : fpc
}.

(** A call [fetch_data(region, price_resolution)] about to start. *)
Definition start (region : string) (res now : Z) (reply : http_reply) (stored_at : Z) : thread :=
  mk_thread region res now reply stored_at (PGet KFetch GCheck).

(** The sensor's executor job [calculate_current_price(region,
    price_resolution, price_type, now)] (sensor.py:178-184): its call
    of [_get_cache_data] (line 79) and its read of ['_data'] (line 80);
    the loop and the fallback work on the local [data]. *)
Inductive qpc : Type :=
| QGet (g : get_pc)
| QRead (cache : nat)
| QDone (r : py_res (option Q)).

Record qthread := mk_qthread {
  q_region : string;
  q_price_type : string;
  q_now : Z;            (** [now_dt] *)
  q_pc : qpc
}.

Definition qstart (region price_type : string) (now : Z) : qthread :=
  mk_qthread region price_type now (QGet GCheck).

Definition q_at (q : qthread) (pc : qpc) : qthread :=
  mk_qthread (q_region q) (q_price_type q) (q_now q) pc.

(** A coordinator refresh [_async_update_data] (sensor.py:85-100): its
    executor job (lines 88-90), then, on the event loop, the test of
    lines 92-93 and [self.api._get_cache_data(self.region)] (line 97),
    whose dict becomes [coordinator.data].  [CDone None] is the
    [UpdateFailed] of lines 93 and 99-100. *)
Inductive cjob : Type :=
| CFetch (t : thread)
| CGet (region : string) (g : get_pc)
| CDone (data : option nat).

Definition at_pc (t : thread) (pc : fpc) : thread :=
  mk_thread (t_region t) (t_res t) (t_now t) (t_reply t) (t_stored_at t) pc.

Definition dict (s : cstate) (id : nat) : region_cache := default empty_cache (c_heap s !! id).

Definition write (s : cstate) (id : nat) (c : region_cache) : cstate :=
  mk_cstate (<[id := c]> (c_heap s)) (c_table s) (c_next s) (c_sent s).

(** Lines 54-59: a fresh empty dict, bound to [region]. *)
Definition alloc (s : cstate) (region : string) : cstate :=
  mk_cstate (<[c_next s := empty_cache]> (c_heap s)) (<[region := c_next s]> (c_table s))
            (S (c_next s)) (c_sent s).

(** Where the dict [_get_cache_data] returns goes: line 131 continues
    with the decision, line 208 with the read of ['_data']. *)
Definition next_pc (k : get_cont) (id : nat) : fpc :=
  match k with KFetch => PReadLast id | KProcess cache => PProcRead cache id end.

(** Line 175: the GET goes out. *)
Definition send (s : cstate) (q : request) : cstate :=
  mk_cstate (c_heap s) (c_table s) (c_next s) (c_sent s ++ [q]).

Definition with_data (c : region_cache) (d : list jvalue) : region_cache :=
  mk_cache (Some d) (last_fetch c) (min_price c) (max_price c).
Definition with_last_fetch (c : region_cache) (l : option Z) : region_cache :=
  mk_cache (cache_data c) l (min_price c) (max_price c).
Definition with_min (c : region_cache) (mn : option Q) : region_cache :=
  mk_cache (cache_data c) (last_fetch c) mn (max_price c).
Definition with_max (c : region_cache) (mx : option Q) : region_cache :=
  mk_cache (cache_data c) (last_fetch c) (min_price c) mx.

(** The min and max [_process_data] computes from the data it reads
    (lines 209-234), or the exception that escapes. *)
Definition aggregates_of (data : option (list jvalue)) : py_res (option Q * option Q) :=
  match data with
  | None | Some [] => Ok (None, None)
  | Some d =>
      price_list <- collect_prices VAT_KEY d ;;
      match price_list with
      | [] => Ok (None, None)
      | p :: ps => Ok (Some (py_min p ps), Some (py_max p ps))
      end
  end.

(** One statement of [_get_cache_data(region)] (lines 53-60): the
    next statement, or what the call returns (the dict's identity, or
    [KeyError] if the region's entry vanished). *)
Definition get_cache_step (region : string) (g : get_pc) (s : cstate) : (get_pc + py_res nat) * cstate :=
  match g with
  | GCheck => (inl (match c_table s !! region with Some _ => GReturn | None => GAssign end), s)
  | GAssign => (inl GReturn, alloc s region)
  | GReturn => (inr (match c_table s !! region with Some id => Ok id | None => Raise KeyError end), s)
  end.

(** One statement of a price query. *)
Definition qstep (q : qthread) (s : cstate) : option (qthread * cstate) :=
  match q_pc q with
  | QGet g =>
      let '(o, s') := get_cache_step (q_region q) g s in
      Some (q_at q (match o with
                    | inl g' => QGet g'
                    | inr (Ok id) => QRead id
                    | inr (Raise e) => QDone (Raise e)
                    end), s')
  | QRead id =>
      Some (q_at q (QDone (current_price_of fromisoformat (price_key_to_use (q_price_type q)) (q_now q)
                             (cache_data (dict s id)))), s)
  | QDone _ => None
  end.

Section Thread.
Context `{EetZone}.

(** One statement of thread [t]; [None] once it has returned. *)
Definition tstep (t : thread) (s : cstate) : option (thread * cstate) :=
  let region := t_region t in
  match t_pc t with
  | PGet k g =>
      let '(o, s') := get_cache_step region g s in
      Some (at_pc t (match o with
                     | inl g' => PGet k g'
                     | inr (Ok id) => next_pc k id
                     | inr (Raise e) => PDone (Raise e)
                     end), s')
  | PReadLast cache => Some (at_pc t (PDecide cache (last_fetch (dict s cache))), s)
  | PDecide cache last =>
      if fetch_needed false (with_last_fetch (dict s cache) last) (t_now t) then
        Some (at_pc t (PAwait cache),
              send s (mk_request region (t_res t)))
      else Some (at_pc t (PGet (KProcess cache) GCheck), s)
  | PAwait cache =>
      match t_reply t with
      | HttpError | HttpOk None => Some (at_pc t (PDone (Ok false)), s)
      | HttpOk (Some body) =>
          match sort_reply fromisoformat body with
          | Raise e => Some (at_pc t (PDone (Raise e)), s)
          | Ok nd => Some (at_pc t (PStoreData cache nd), s)
          end
      end
  | PStoreData cache nd =>
      Some (at_pc t (PStoreFetch cache), write s cache (with_data (dict s cache) nd))
  | PStoreFetch cache =>
      Some (at_pc t (PGet (KProcess cache) GCheck), write s cache (with_last_fetch (dict s cache) (Some (t_stored_at t))))
  | PProcRead cache p =>
      match aggregates_of (cache_data (dict s p)) with
      | Raise e => Some (at_pc t (PDone (Raise e)), s)
      | Ok (mn, mx) => Some (at_pc t (PProcMin cache p mn mx), s)
      end
  | PProcMin cache p mn mx => Some (at_pc t (PProcMax cache p mx), write s p (with_min (dict s p) mn))
  | PProcMax cache p mx => Some (at_pc t (PReturn cache), write s p (with_max (dict s p) mx))
  | PReturn cache => Some (at_pc t (PDone (Ok (data_truthy (dict s cache)))), s)
  | PDone _ => None
  end.

(** Thread [i] of the pool takes one step. *)
Inductive conc_step : list thread * cstate -> list thread * cstate -> Prop :=
| cstep i ts s t t' s' :
    ts !! i = Some t -> tstep t s = Some (t', s') -> conc_step (ts, s) (<[i := t']> ts, s').

(** A schedule: the threads chosen, in order (a finished thread's turn
    is skipped). *)
Fixpoint run_schedule (sched : list nat) (ts : list thread) (s : cstate) : list thread * cstate :=
  match sched with
  | [] => (ts, s)
  | i :: rest =>
      match ts !! i ≫= fun t => tstep t s with
      | Some (t', s') => run_schedule rest (<[i := t']> ts) s'
      | None => run_schedule rest ts s
      end
  end.

(** A thread run alone for at most [fuel] statements. *)
Fixpoint run_solo (fuel : nat) (t : thread) (s : cstate) : thread * cstate :=
  match fuel with
  | O => (t, s)
  | S f => match tstep t s with Some (t', s') => run_solo f t' s' | None => (t, s) end
  end.

(** One step of a coordinator refresh: a statement of its executor
    job, or, once the job has returned, of the event loop. *)
Definition coord_step (c : cjob) (s : cstate) : option (cjob * cstate) :=
  match c with
  | CFetch t =>
      match tstep t s with
      | Some (t', s') => Some (CFetch t', s')
      | None => Some (match t_pc t with PDone (Ok true) => CGet (t_region t) GCheck | _ => CDone None end, s)
      end
  | CGet region g =>
      let '(o, s') := get_cache_step region g s in
      Some (match o with
            | inl g' => CGet region g'
            | inr (Ok id) => CDone (Some id)
            | inr (Raise _) => CDone None
            end, s')
  | CDone _ => None
  end.

(** Coordinator refreshes and price queries, interleaved. *)
Inductive mixed_step : list cjob * list qthread * cstate -> list cjob * list qthread * cstate -> Prop :=
| mfetch i cs qs s c c' s' :
    cs !! i = Some c -> coord_step c s = Some (c', s') -> mixed_step (cs, qs, s) (<[i := c']> cs, qs, s')
| mquery j cs qs s q q' s' :
    qs !! j = Some q -> qstep q s = Some (q', s') -> mixed_step (cs, qs, s) (cs, <[j := q']> qs, s').

(** A schedule of coordinators ([inl]) and queries ([inr]). *)
Fixpoint run_mixed (sched : list (nat + nat)) (cs : list cjob) (qs : list qthread) (s : cstate)
    : list cjob * list qthread * cstate :=
  match sched with
  | [] => (cs, qs, s)
  | inl i :: rest =>
      match cs !! i ≫= fun c => coord_step c s with
      | Some (c', s') => run_mixed rest (<[i := c']> cs) qs s'
      | None => run_mixed rest cs qs s
      end
  | inr j :: rest =>
      match qs !! j ≫= fun q => qstep q s with
      | Some (q', s') => run_mixed rest cs (<[j := q']> qs) s'
      | None => run_mixed rest cs qs s
      end
  end.
End Thread.

(** The [_data_cache] the threads see: each region's dict. *)
Definition view (s : cstate) : gmap string region_cache := omap (fun id => c_heap s !! id) (c_table s).

(** Every region has its own dict, allocated below [c_next]. *)
Definition cwf (s : cstate) : Prop :=
  (forall r id, c_table s !! r = Some id -> is_Some (c_heap s !! id) /\ (id < c_next s)%nat) /\
  (forall r1 r2 id, c_table s !! r1 = Some id -> c_table s !! r2 = Some id -> r1 = r2).

(** Thread [t0] at [pc] ends within [n] statements, with an outcome
    and a state satisfying [P], and stays there. *)
Definition ends_with `{EetZone} (n : nat) (t0 : thread) (pc : fpc) (s : cstate)
    (P : py_res bool -> cstate -> Prop) : Prop :=
  exists r s', (forall m, (n <= m)%nat -> run_solo m (at_pc t0 pc) s = (at_pc t0 (PDone r), s')) /\ P r s'.

(** ['_data'] sorted by timestamp, in every dict of the heap, and in
    the reply a thread is about to store. *)
Definition series_sorted (d : option (list jvalue)) : bool :=
  match d with Some l => sorted_items fromisoformat l | None => true end.

Definition data_sorted (c : region_cache) : bool := series_sorted (cache_data c).

Definition heap_sorted (s : cstate) : Prop := map_Forall (fun _ c => data_sorted c = true) (c_heap s).

Definition thread_ok (t : thread) : Prop :=
  match t_pc t with PStoreData _ nd => sorted_items fromisoformat nd = true | _ => True end.

(** A query about to return from [_get_cache_data] finds its region;
    a finished one answered with the resolver on a sorted series. *)
Definition qthread_ok (s : cstate) (q : qthread) : Prop :=
  (q_pc q = QGet GReturn -> is_Some (c_table s !! q_region q)) /\
  (forall r, q_pc q = QDone r -> exists d, series_sorted d = true /\
     r = current_price_of fromisoformat (price_key_to_use (q_price_type q)) (q_now q) d).

(** No step removes a region from [_data_cache]. *)
Definition table_grows (s s' : cstate) : Prop :=
  forall r, is_Some (c_table s !! r) -> is_Some (c_table s' !! r).

(** A coordinator about to return from [_get_cache_data] finds its
    region. *)
Definition cjob_ok (s : cstate) (c : cjob) : Prop :=
  match c with
  | CFetch t => thread_ok t
  | CGet region g => g = GReturn -> is_Some (c_table s !! region)
  | CDone _ => True
  end.

Definition mixed_inv (cs : list cjob) (qs : list qthread) (s : cstate) : Prop :=
  cwf s /\ heap_sorted s /\ Forall (cjob_ok s) cs /\ Forall (qthread_ok s) qs.

(** ** The view of the heap *)

Lemma view_lookup s r : view s !! r = c_table s !! r ≫= fun id => c_heap s !! id.
Proof. unfold view. by rewrite lookup_omap. Qed.

Lemma view_alloc s r :
  cwf s -> c_table s !! r = None -> view (alloc s r) = <[r := empty_cache]> (view s).
Proof.
  intros [Hin _] Hr. apply map_eq. intros r'. rewrite view_lookup. simpl.
  destruct (decide (r = r')) as [<-|Hne].
  - rewrite !lookup_insert_eq. simpl. by rewrite lookup_insert_eq.
  - rewrite !lookup_insert_ne, view_lookup by done.
    destruct (c_table s !! r') as [id|] eqn:E; [|done]. simpl.
    rewrite lookup_insert_ne; [done|]. pose proof (proj2 (Hin _ _ E)). lia.
Qed.

(** Also when another thread bound [r] in between (the race of lines
    53-54): the old dict is orphaned, not shared. *)
Lemma cwf_alloc s r : cwf s -> cwf (alloc s r).
Proof.
  intros [Hin Hinj]. split; simpl.
  - intros r' id. destruct (decide (r' = r)) as [->|Hne].
    + rewrite lookup_insert_eq. intros [= <-]. rewrite lookup_insert_eq. split; [done | lia].
    + rewrite lookup_insert_ne by done. intros E. destruct (Hin _ _ E) as [Hs Hlt].
      rewrite lookup_insert_ne by lia. split; [done | lia].
  - intros r1 r2 id. destruct (decide (r1 = r)) as [->|H1], (decide (r2 = r)) as [->|H2]; try done;
      rewrite ?lookup_insert_eq, ?lookup_insert_ne by done.
    + intros [= <-] E. pose proof (proj2 (Hin _ _ E)). lia.
    + intros E [= <-]. pose proof (proj2 (Hin _ _ E)). lia.
    + apply Hinj.
Qed.

Lemma view_write s r id c :
  cwf s -> c_table s !! r = Some id -> view (write s id c) = <[r := c]> (view s).
Proof.
  intros [_ Hinj] Hr. apply map_eq. intros r'. rewrite !view_lookup. simpl.
  destruct (decide (r = r')) as [<-|Hne].
  - by rewrite Hr, lookup_insert_eq; simpl; rewrite lookup_insert_eq.
  - rewrite lookup_insert_ne, view_lookup by done.
    destruct (c_table s !! r') as [id'|] eqn:E; [|done]. simpl.
    rewrite lookup_insert_ne; [done|]. intros ->. by apply Hne, (Hinj _ _ id').
Qed.

Lemma cwf_write s id c : cwf s -> cwf (write s id c).
Proof.
  intros [Hin Hinj]. split; [|exact Hinj]. intros r id' E. destruct (Hin _ _ E) as [_ Hlt]. simpl.
  split; [|done]. destruct (decide (id' = id)) as [->|Hne]; [by rewrite lookup_insert_eq|].
  by rewrite lookup_insert_ne; [apply (Hin _ _ E)|].
Qed.

Lemma dict_write s id c : dict (write s id c) id = c.
Proof. unfold dict. simpl. by rewrite lookup_insert_eq. Qed.

Lemma dict_send s q id : dict (send s q) id = dict s id.
Proof. reflexivity. Qed.

Lemma dict_lookup s id c : c_heap s !! id = Some c -> dict s id = c.
Proof. unfold dict. by intros ->. Qed.

(** The Python dict [_get_cache_data] returns is the model's. *)
Lemma get_cache_data_view s r :
  cwf s ->
  match c_table s !! r with
  | Some id => exists c, c_heap s !! id = Some c /\ get_cache_data r (view s) = (view s, c)
  | None => get_cache_data r (view s) = (view (alloc s r), empty_cache)
  end.
Proof.
  intros Hw. unfold get_cache_data. rewrite view_lookup.
  destruct (c_table s !! r) as [id|] eqn:E; simpl.
  - destruct (proj1 (proj1 Hw _ _ E)) as [c Hc]. rewrite Hc. eauto.
  - by rewrite view_alloc.
Qed.

(** ** Runs of one thread *)

Section Solo.
Context `{EetZone}.

Lemma ends_done n t0 r s (P : py_res bool -> cstate -> Prop) : P r s -> ends_with n t0 (PDone r) s P.
Proof. intros HP. exists r, s. split; [|done]. intros [|m] _; reflexivity. Qed.

Lemma ends_step n t0 pc pc' s s' P :
  tstep (at_pc t0 pc) s = Some (at_pc t0 pc', s') ->
  ends_with n t0 pc' s' P -> ends_with (S n) t0 pc s P.
Proof.
  intros Hs (r & s'' & Hrun & HP). exists r, s''. split; [|done].
  intros [|m] Hm; [lia|]. simpl. rewrite Hs. apply Hrun. lia.
Qed.

Lemma ends_mono n n' t0 pc s P : (n <= n')%nat -> ends_with n t0 pc s P -> ends_with n' t0 pc s P.
Proof. intros Hn (r & s' & Hrun & HP). exists r, s'. split; [|done]. intros m Hm. apply Hrun. lia. Qed.

Lemma ends_impl n t0 pc s (P Q : py_res bool -> cstate -> Prop) :
  (forall r s', P r s' -> Q r s') -> ends_with n t0 pc s P -> ends_with n t0 pc s Q.
Proof. intros HPQ (r & s' & Hrun & HP). exists r, s'. eauto. Qed.

(** [_get_cache_data] when the region already has its dict: two steps. *)
Lemma ends_get_found n t0 k s id P :
  c_table s !! t_region t0 = Some id ->
  ends_with n t0 (next_pc k id) s P -> ends_with (2 + n) t0 (PGet k GCheck) s P.
Proof.
  intros Hr Hk. apply (ends_step _ _ _ (PGet k GReturn) _ s); [unfold tstep; simpl; by rewrite Hr|].
  apply (ends_step _ _ _ (next_pc k id) _ s); [unfold tstep; simpl; by rewrite Hr | done].
Qed.

(** [_get_cache_data] from any well-formed state, in three steps at
    most: the dict it ends with is the one [get_cache_data] returns on
    the view, and the view is [get_cache_data]'s. *)
Lemma ends_get n t0 k s P :
  cwf s ->
  (forall id s1, cwf s1 -> c_table s1 !! t_region t0 = Some id -> c_sent s1 = c_sent s ->
     c_heap s1 !! id = Some (get_cache_data (t_region t0) (view s)).2 ->
     view s1 = (get_cache_data (t_region t0) (view s)).1 ->
     ends_with n t0 (next_pc k id) s1 P) ->
  ends_with (3 + n) t0 (PGet k GCheck) s P.
Proof.
  intros Hw Hk. pose proof (get_cache_data_view s (t_region t0) Hw) as Hg.
  destruct (c_table s !! t_region t0) as [id|] eqn:Hr.
  - destruct Hg as (c & Hc & Hgc). rewrite Hgc in Hk. apply (ends_mono (2 + n)); [lia|].
    apply (ends_get_found _ _ _ _ id); [done|]. by apply Hk.
  - rewrite Hg in Hk. apply (ends_step _ _ _ (PGet k GAssign) _ s); [unfold tstep; simpl; by rewrite Hr|].
    apply (ends_step _ _ _ (PGet k GReturn) _ (alloc s (t_region t0))); [done|].
    apply (ends_step _ _ _ (next_pc k (c_next s)) _ (alloc s (t_region t0)));
      [unfold tstep; simpl; by rewrite lookup_insert_eq|].
    apply Hk; [by apply cwf_alloc | simpl; by rewrite lookup_insert_eq | done
              | simpl; by rewrite lookup_insert_eq | done].
Qed.
End Solo.

Lemma process_data_aggregates_of c :
  process_data c =
    match aggregates_of (cache_data c) with Ok (mn, mx) => Ok (set_aggregates c mn mx) | Raise e => Raise e end.
Proof.
  unfold process_data, aggregates_of. destruct (cache_data c) as [[|it d]|]; [done| |done].
  by destruct (collect_prices _ _) as [[|p ps]|e].
Qed.

Lemma with_min_max c mn mx : with_max (with_min c mn) mx = set_aggregates c mn mx.
Proof. by destruct c. Qed.

Lemma with_data_last_fetch c nd t : with_last_fetch (with_data c nd) (Some t) = store_reply c nd t.
Proof. by destruct c. Qed.

Lemma with_last_fetch_same c : with_last_fetch c (last_fetch c) = c.
Proof. by destruct c. Qed.

Section Solo2.
Context `{EetZone}.

(** [_process_data] with the region's dict [c]: six steps, ending as
    [process_region] does. *)
Lemma ends_process n t0 s id c :
  cwf s -> c_table s !! t_region t0 = Some id -> c_heap s !! id = Some c ->
  ends_with (6 + n) t0 (PGet (KProcess id) GCheck) s
    (fun r s' => (view s', r) = process_region (t_region t0) c (view s) /\ c_sent s' = c_sent s /\ cwf s').
Proof.
  intros Hw Hr Hc. apply (ends_get_found _ _ _ _ id); [done|]. simpl next_pc.
  unfold process_region. rewrite process_data_aggregates_of.
  destruct (aggregates_of (cache_data c)) as [[mn mx]|e] eqn:Ha.
  - apply (ends_step _ _ _ (PProcMin id id mn mx) _ s);
      [unfold tstep; simpl; by rewrite (dict_lookup _ _ _ Hc), Ha|].
    apply (ends_step _ _ _ (PProcMax id id mx) _ (write s id (with_min c mn)));
      [unfold tstep; simpl; by rewrite (dict_lookup _ _ _ Hc)|].
    set (s2 := write (write s id (with_min c mn)) id (set_aggregates c mn mx)).
    apply (ends_step _ _ _ (PReturn id) _ s2); [unfold tstep; simpl; by rewrite dict_write, with_min_max|].
    apply (ends_step _ _ _ (PDone (Ok (data_truthy (set_aggregates c mn mx)))) _ s2);
      [unfold tstep, s2; simpl; by rewrite dict_write|].
    apply ends_done. subst s2. split_and!; [|done|by apply cwf_write, cwf_write].
    by rewrite (view_write _ _ _ _ (cwf_write _ _ _ Hw) Hr), (view_write _ _ _ _ Hw Hr), insert_insert_eq.
  - apply (ends_step _ _ _ (PDone (Raise e)) _ s); [unfold tstep; simpl; by rewrite (dict_lookup _ _ _ Hc), Ha|].
    by apply ends_done.
Qed.
End Solo2.

Section SoloFetch.
Context `{EetZone}.

(** A thread alone from a well-formed state: the fetching path. *)
Lemma ends_fetch t0 s1 id c q :
  cwf s1 -> c_table s1 !! t_region t0 = Some id -> c_heap s1 !! id = Some c ->
  ends_with 9 t0 (PAwait id) (send s1 q)
    (fun r s' => exists api' : gmap string region_cache,
       (api', r) = match t_reply t0 with
                   | HttpError | HttpOk None => (view s1, Ok false)
                   | HttpOk (Some body) =>
                       match sort_reply fromisoformat body with
                       | Raise e => (view s1, Raise e)
                       | Ok nd => process_region (t_region t0) (store_reply c nd (t_stored_at t0))
                                    (<[t_region t0 := store_reply c nd (t_stored_at t0)]> (view s1))
                       end
                   end /\ view s' = api' /\ c_sent s' = c_sent s1 ++ [q] /\ cwf s').
Proof.
  intros Hw Hr Hc.
  destruct (t_reply t0) as [|[body|]] eqn:Hrep.
  2: destruct (sort_reply fromisoformat body) as [nd|e] eqn:Hs.
  all: try (apply (ends_step _ _ _ (PDone (Ok false)) _ (send s1 q)); [unfold tstep; simpl; by rewrite Hrep|];
            apply ends_done; by eexists).
  - apply (ends_step _ _ _ (PStoreData id nd) _ (send s1 q)); [unfold tstep; simpl; by rewrite Hrep, Hs|].
    set (s2 := write (send s1 q) id (with_data c nd)).
    apply (ends_step _ _ _ (PStoreFetch id) _ s2); [unfold tstep; simpl; by rewrite (dict_lookup (send s1 q) _ _ Hc)|].
    set (s3 := write s2 id (store_reply c nd (t_stored_at t0))).
    apply (ends_step _ _ _ (PGet (KProcess id) GCheck) _ s3);
      [unfold tstep, s2, s3; simpl; by rewrite dict_write, with_data_last_fetch|].
    assert (Hw2 : cwf s2) by by apply cwf_write.
    eapply ends_impl; [|exact (ends_process 0 t0 s3 id _ (cwf_write _ _ _ Hw2) Hr
                                 ltac:(simpl; by rewrite lookup_insert_eq))].
    intros r s' (Hv & Hq & Hw'). exists (view s'). split_and!; [|done|by rewrite Hq|done].
    rewrite Hv. f_equal. unfold s3. rewrite (view_write _ _ _ _ Hw2 Hr).
    unfold s2. rewrite (view_write (send s1 q) _ _ _ Hw Hr). by rewrite insert_insert_eq.
  - apply (ends_step _ _ _ (PDone (Raise e)) _ (send s1 q)); [unfold tstep; simpl; by rewrite Hrep, Hs|].
    apply ends_done. by eexists.
Qed.

End SoloFetch.

(** ** Every interleaving *)

Lemma heap_sorted_write s id c : heap_sorted s -> data_sorted c = true -> heap_sorted (write s id c).
Proof. intros Hh Hc. by apply map_Forall_insert_2. Qed.

Lemma heap_sorted_dict s id : heap_sorted s -> data_sorted (dict s id) = true.
Proof. unfold dict. intros Hh. destruct (c_heap s !! id) eqn:E; [exact (Hh _ _ E) | done]. Qed.

Lemma get_cache_step_inv region g s o s' :
  get_cache_step region g s = (o, s') -> cwf s -> heap_sorted s -> cwf s' /\ heap_sorted s'.
Proof.
  destruct g; simpl; intros [= _ <-] Hw Hh; [done | | done].
  split; [by apply cwf_alloc | by apply map_Forall_insert_2].
Qed.

Section Interleaving.
Context `{EetZone}.

Lemma tstep_inv t s t' s' :
  tstep t s = Some (t', s') -> cwf s -> heap_sorted s -> thread_ok t ->
  cwf s' /\ heap_sorted s' /\ thread_ok t'.
Proof.
  unfold tstep, thread_ok. intros Hs Hw Hh Ht. pose proof (heap_sorted_dict s) as Hd.
  destruct (t_pc t) as [k g | cache | cache last | cache | cache nd | cache | cache p | cache p mn mx | cache p mx
                       | cache | r];
    simplify_eq/=.
  - destruct (get_cache_step _ g s) as [o s0] eqn:Eg. simplify_eq/=.
    destruct (get_cache_step_inv _ _ _ _ _ Eg Hw Hh) as [Hw' Hh'].
    split_and!; [done | done | destruct o as [?|[id|e]]; [done | by destruct k | done]].
  - done.
  - repeat case_match; by simplify_eq/=.
  - destruct (t_reply t) as [|[body|]]; simplify_eq/=; [done| |done].
    destruct (sort_reply fromisoformat body) eqn:Hsort; simplify_eq/=; [|done].
    split_and!; [done | done | exact (sort_reply_sorted _ _ Hsort)].
  - split_and!; [by apply cwf_write | by apply heap_sorted_write | done].
  - split_and!; [by apply cwf_write | apply heap_sorted_write, (Hd cache) | done]; done.
  - destruct (aggregates_of _) as [[mn mx]|e]; by simplify_eq/=.
  - split_and!; [by apply cwf_write | apply heap_sorted_write, (Hd p) | done]; done.
  - split_and!; [by apply cwf_write | apply heap_sorted_write, (Hd p) | done]; done.
  - done.
Qed.

Lemma get_cache_step_grows region g s o s' : get_cache_step region g s = (o, s') -> table_grows s s'.
Proof.
  destruct g; simpl; intros [= _ <-] r Hr; [done | | done]. simpl.
  destruct (decide (region = r)) as [<-|Hne]; [rewrite lookup_insert_eq; eauto | by rewrite lookup_insert_ne].
Qed.

Lemma tstep_grows t s t' s' : tstep t s = Some (t', s') -> table_grows s s'.
Proof.
  unfold tstep. intros Hs. destruct (t_pc t) as [k g | | | | | | | | | |]; simplify_eq/=;
    try (repeat case_match; simplify_eq/=; by intros r Hr).
  destruct (get_cache_step _ g s) as [o s0] eqn:Eg. simplify_eq/=. exact (get_cache_step_grows _ _ _ _ _ Eg).
Qed.

Lemma qstep_grows q s q' s' : qstep q s = Some (q', s') -> table_grows s s'.
Proof.
  unfold qstep. intros Hs. destruct (q_pc q) as [g| |]; simplify_eq/=; [|by intros r Hr].
  destruct (get_cache_step _ g s) as [o s0] eqn:Eg. simplify_eq/=. exact (get_cache_step_grows _ _ _ _ _ Eg).
Qed.

Lemma qthread_ok_grows s s' q : table_grows s s' -> qthread_ok s q -> qthread_ok s' q.
Proof. intros Hg [H1 H2]. split; [intros Hpc; apply Hg, H1, Hpc | exact H2]. Qed.

(** What [_get_cache_data] returns when it was not about to look up a
    missing region: never [KeyError]; and a call about to look up finds
    its region. *)
Lemma get_cache_step_return region g s o s' :
  get_cache_step region g s = (o, s') -> (g = GReturn -> is_Some (c_table s !! region)) ->
  (o = inl GReturn -> is_Some (c_table s' !! region)) /\ (forall e, o <> inr (Raise e)).
Proof.
  intros Eg Hret. destruct g; simpl in Eg; injection Eg as <- <-.
  - destruct (c_table s !! region) eqn:E; split; try done; intros _; by rewrite E.
  - split; [intros _; simpl; rewrite lookup_insert_eq; eauto | done].
  - destruct (Hret eq_refl) as [id ->]. done.
Qed.

Lemma qstep_inv q s q' s' :
  qstep q s = Some (q', s') -> cwf s -> heap_sorted s -> qthread_ok s q ->
  cwf s' /\ heap_sorted s' /\ qthread_ok s' q'.
Proof.
  unfold qstep. intros Hs Hw Hh [Hret _].
  destruct (q_pc q) as [g|id|r] eqn:Hpc; simplify_eq/=.
  - destruct (get_cache_step (q_region q) g s) as [o s0] eqn:Eg. injection Hs as <- <-.
    destruct (get_cache_step_inv _ _ _ _ _ Eg Hw Hh) as [Hw' Hh'].
    destruct (get_cache_step_return _ _ _ _ _ Eg (fun Hg => Hret (f_equal QGet Hg))) as [Hr1 Hr2].
    split_and!; [done | done | split]; destruct o as [g'|[id|e]]; simpl; try (intros ? ?; discriminate);
      try (intros ?; discriminate).
    + intros [= ->]. by apply Hr1.
    + intros r [= <-]. by destruct (Hr2 e).
  - split_and!; [done | done | split; [done|]]. simpl. intros r [= <-].
    eexists. split; [apply heap_sorted_dict, Hh | reflexivity].
Qed.

Lemma coord_step_grows c s c' s' : coord_step c s = Some (c', s') -> table_grows s s'.
Proof.
  unfold coord_step. intros Hs. destruct c as [t|region g|d]; [| |done].
  - destruct (tstep t s) as [[t1 s1]|] eqn:Ht; injection Hs as _ <-; [exact (tstep_grows _ _ _ _ Ht) | by intros r].
  - destruct (get_cache_step region g s) as [o s0] eqn:Eg. injection Hs as _ <-.
    exact (get_cache_step_grows _ _ _ _ _ Eg).
Qed.

Lemma cjob_ok_grows s s' c : table_grows s s' -> cjob_ok s c -> cjob_ok s' c.
Proof. intros Hg. destruct c as [t|region g|d]; simpl; [done | | done]. intros Hc Hr. apply Hg, Hc, Hr. Qed.

Lemma coord_step_inv c s c' s' :
  coord_step c s = Some (c', s') -> cwf s -> heap_sorted s -> cjob_ok s c ->
  cwf s' /\ heap_sorted s' /\ cjob_ok s' c'.
Proof.
  unfold coord_step. intros Hs Hw Hh Hc. destruct c as [t|region g|d]; [| |done].
  - destruct (tstep t s) as [[t1 s1]|] eqn:Ht.
    + injection Hs as <- <-. exact (tstep_inv _ _ _ _ Ht Hw Hh Hc).
    + injection Hs as <- <-. split_and!; [done | done |]. by repeat case_match.
  - destruct (get_cache_step region g s) as [o s0] eqn:Eg. injection Hs as <- <-.
    destruct (get_cache_step_inv _ _ _ _ _ Eg Hw Hh) as [Hw' Hh'].
    destruct (get_cache_step_return _ _ _ _ _ Eg Hc) as [Hr1 _].
    split_and!; [done | done |]. destruct o as [g'|[id|e]]; simpl; [|done|done].
    intros ->. by apply Hr1.
Qed.

Lemma mixed_step_inv c c' : mixed_step c c' -> mixed_inv c.1.1 c.1.2 c.2 -> mixed_inv c'.1.1 c'.1.2 c'.2.
Proof.
  intros [i cs qs s c0 c0' s' Hi Hs | j cs qs s q q' s' Hj Hs] (Hw & Hh & Hcs & Hqs); simpl in *.
  - destruct (coord_step_inv _ _ _ _ Hs Hw Hh (Forall_lookup_1 _ _ _ _ Hcs Hi)) as (Hw' & Hh' & Hc').
    pose proof (coord_step_grows _ _ _ _ Hs) as Hg.
    split_and!; [done | done | |].
    + apply Forall_insert; [|done]. eapply Forall_impl; [exact Hcs|]. intros c1. by apply cjob_ok_grows.
    + eapply Forall_impl; [exact Hqs|]. intros q. by apply qthread_ok_grows.
  - destruct (qstep_inv _ _ _ _ Hs Hw Hh (Forall_lookup_1 _ _ _ _ Hqs Hj)) as (Hw' & Hh' & Hq').
    pose proof (qstep_grows _ _ _ _ Hs) as Hg.
    split_and!; [done | done | |].
    + eapply Forall_impl; [exact Hcs|]. intros c1. by apply cjob_ok_grows.
    + apply Forall_insert; [|done]. eapply Forall_impl; [exact Hqs|]. intros q0. by apply qthread_ok_grows.
Qed.

Lemma rtc_mixed_inv c c' : rtc mixed_step c c' -> mixed_inv c.1.1 c.1.2 c.2 -> mixed_inv c'.1.1 c'.1.2 c'.2.
Proof. induction 1 as [|c1 c2 c3 Hs _ IH]; [done|]. intros Hi. by apply IH, (mixed_step_inv c1). Qed.

Lemma run_mixed_rtc sched cs qs s : rtc mixed_step (cs, qs, s) (run_mixed sched cs qs s).
Proof.
  revert cs qs s. induction sched as [|[i|j] rest IH]; intros cs qs s; simpl; [done| |].
  - destruct (cs !! i) as [c|] eqn:Hi; simpl; [|apply IH].
    destruct (coord_step c s) as [[c' s']|] eqn:Hs; [|apply IH].
    eapply rtc_l; [by econstructor | apply IH].
  - destruct (qs !! j) as [q|] eqn:Hj; simpl; [|apply IH].
    destruct (qstep q s) as [[q' s']|] eqn:Hs; [|apply IH].
    eapply rtc_l; [by eapply mquery | apply IH].
Qed.

Lemma run_schedule_rtc sched ts s : rtc conc_step (ts, s) (run_schedule sched ts s).
Proof.
  revert ts s. induction sched as [|i rest IH]; intros ts s; simpl; [done|].
  destruct (ts !! i) as [t|] eqn:Hi; simpl; [|apply IH].
  destruct (tstep t s) as [[t' s']|] eqn:Hs; [|apply IH].
  eapply rtc_l; [by econstructor | apply IH].
Qed.
End Interleaving.

Lemma run_schedule_step `{EetZone} i rest ts s t t' s' :
  ts !! i = Some t -> tstep t s = Some (t', s') ->
  run_schedule (i :: rest) ts s = run_schedule rest (<[i := t']> ts) s'.
Proof. intros Hi Hs. simpl. rewrite Hi. simpl. by rewrite Hs. Qed.

Lemma aggregates_ok_min c mn :
  aggregates_ok c -> min_price c = Some mn -> mn ∈ omap (item_price VAT_KEY) (data_list c).
Proof.
  unfold aggregates_ok. destruct (omap _ _); [intros [-> _]; discriminate|].
  intros (mn' & mx & -> & _ & Hin & _) [= <-]. exact Hin.
Qed.

Local Ltac tstep_red := unfold tstep; cbn -[fetch_needed dict sort_reply aggregates_of data_truthy].

Section Races.
Context `{EetZone}.

(** C30: Under every interleaving of [fetch_data] calls and price
    queries, and of the coordinators' own [_get_cache_data] calls on
    the event loop, from a state whose dicts hold sorted data, every
    dict of the heap (the region's current one and any orphaned one)
    keeps its ['_data'] sorted by timestamp and each region keeps a dict
    of its own; every coordinator that has finished holds, as
    [coordinator.data], a dict whose ['_data'] is sorted; and every
    query that has returned answered with the resolver on a sorted
    series: it reads ['_data'] in one statement, so it sees one stored
    series whole, never a partly written one. *)
Theorem interleaving_sorted cs qs s cs' qs' s' :
  Forall (fun c => exists t, c = CFetch t /\ t_pc t = PGet KFetch GCheck) cs ->
  Forall (fun q => q_pc q = QGet GCheck) qs ->
  cwf s -> heap_sorted s ->
  rtc mixed_step (cs, qs, s) (cs', qs', s') ->
  cwf s' /\ heap_sorted s' /\
  Forall (fun c => forall id, c = CDone (Some id) -> data_sorted (dict s' id) = true) cs' /\
  Forall (fun q => forall r, q_pc q = QDone r -> exists d, series_sorted d = true /\
            r = current_price_of fromisoformat (price_key_to_use (q_price_type q)) (q_now q) d) qs'.
Proof.
  intros Hcs Hqs Hw Hh Hr.
  assert (Hok : Forall (cjob_ok s) cs).
  { eapply Forall_impl; [exact Hcs|]. intros c (t & -> & Ht). simpl. unfold thread_ok. by rewrite Ht. }
  assert (Hq : Forall (qthread_ok s) qs).
  { eapply Forall_impl; [exact Hqs|]. intros q Hq. split; rewrite Hq; [intros ?|intros ? ?]; discriminate. }
  destruct (rtc_mixed_inv _ _ Hr (conj Hw (conj Hh (conj Hok Hq)))) as (Hw' & Hh' & _ & Hq'). simpl in *.
  split_and!; [done | done | |].
  - apply Forall_forall. intros c _ id _. by apply heap_sorted_dict.
  - eapply Forall_impl; [exact Hq'|]. intros q [_ H2]. exact H2.
Qed.

(** C28: No coalescing (spec section 5): when a region's dict is due
    for two calls, and each call makes its decision before the other
    stores a reply, both send the GET for the same region. *)
Theorem concurrent_fetches_duplicate s region id resX resY nowX nowY repX repY stX stY :
  c_table s !! region = Some id ->
  fetch_needed false (dict s id) nowX = true -> fetch_needed false (dict s id) nowY = true ->
  c_sent (run_schedule [0; 0; 0; 0; 1; 1; 1; 1]%nat
            [start region resX nowX repX stX; start region resY nowY repY stY] s).2 =
    c_sent s ++ [mk_request region resX; mk_request region resY].
Proof.
  intros Hr HX HY.
  set (X := start region resX nowX repX stX). set (Y := start region resY nowY repY stY).
  set (sX := send s (mk_request region resX)).
  set (L := last_fetch (dict s id)).
  rewrite (run_schedule_step 0 _ _ _ X (at_pc X (PGet KFetch GReturn)) s); [|done | tstep_red; by rewrite Hr].
  rewrite (run_schedule_step 0 _ _ _ (at_pc X (PGet KFetch GReturn)) (at_pc X (PReadLast id)) s);
    [|done | tstep_red; by rewrite Hr].
  rewrite (run_schedule_step 0 _ _ _ (at_pc X (PReadLast id)) (at_pc X (PDecide id L)) s); [|done..].
  rewrite (run_schedule_step 0 _ _ _ (at_pc X (PDecide id L)) (at_pc X (PAwait id)) sX);
    [|done | tstep_red; unfold L; by rewrite with_last_fetch_same, HX].
  rewrite (run_schedule_step 1 _ _ _ Y (at_pc Y (PGet KFetch GReturn)) sX); [|done | tstep_red; by rewrite Hr].
  rewrite (run_schedule_step 1 _ _ _ (at_pc Y (PGet KFetch GReturn)) (at_pc Y (PReadLast id)) sX);
    [|done | tstep_red; by rewrite Hr].
  rewrite (run_schedule_step 1 _ _ _ (at_pc Y (PReadLast id)) (at_pc Y (PDecide id L)) sX); [|done..].
  rewrite (run_schedule_step 1 _ _ _ (at_pc Y (PDecide id L)) (at_pc Y (PAwait id)) (send sX (mk_request region resY)));
    [|done | tstep_red; unfold sX, L; by rewrite dict_send, with_last_fetch_same, HY].
  simpl. by rewrite <- app_assoc.
Qed.
End Races.

Lemma cwf_singleton r id c sent : cwf (mk_cstate {[id := c]} {[r := id]} (S id) sent).
Proof.
  split; simpl.
  - intros r' id'. rewrite lookup_singleton_Some. intros [<- <-]. rewrite lookup_singleton_eq. split; [done | lia].
  - intros r1 r2 id'. rewrite !lookup_singleton_Some. intros [-> _] [-> _]. done.
Qed.

Lemma cwf_empty sent : cwf (mk_cstate ∅ ∅ 0 sent).
Proof. split; simpl; intros ?? ?; rewrite lookup_empty; discriminate. Qed.

(** ** Concrete interleavings (Europe/Helsinki) *)

(** No dict yet, nothing sent. *)
Definition cs0 : cstate := mk_cstate ∅ ∅ 0 [].

(** FI's dict holds the series fetched on 10 June, due at 11 June 15:00. *)
Definition fi_cs8 : cstate := mk_cstate {[0%nat := fi_cache_8]} {["FI" := 0%nat]} 1 [].

Definition y_series : list jvalue := series_10_11_12 (JNum 20) (JNum 30) (JNum 40).
Definition y_reply : http_reply := HttpOk (Some (JArr y_series)).

Definition fi_x : thread := start "FI" 15 jun11_1500 fi_reply jun11_1500.
Definition fi_y : thread := start "FI" 15 jun11_1500 y_reply jun11_1500.
Definition fi_err : thread := start "FI" 15 jun11_1500 HttpError jun11_1500.

(** X decides and sends; Y decides and sends; X stores its reply and
    reads it; Y stores, reads, writes min and max and returns; X writes
    min and max and returns. *)
Definition sched_stale : list nat :=
  repeat 0%nat 5 ++ repeat 1%nat 4 ++ repeat 0%nat 6 ++ repeat 1%nat 9 ++ repeat 0%nat 3.

(** X and Y both find no dict (line 53); X creates one, fetches and
    stores into it; Y creates another and binds it (line 54); X's
    [_process_data] gets Y's dict; Y's request fails. *)
Definition sched_lost : list nat :=
  [0; 1]%nat ++ repeat 0%nat 7 ++ [1%nat] ++ repeat 0%nat 6 ++ repeat 1%nat 4.

(** A price query for FI at 15:00 that reads ['_data'] after the first
    call has stored its reply and before the second call does. *)
Definition fi_query : qthread := qstart "FI" "VAT" jun11_1500.

(** The two calls of [sched_stale] as coordinators, with the query
    between X's store and Y's, and both coordinators' event-loop tails
    at the end. *)
Definition sched_mixed : list (nat + nat) :=
  map inl (repeat 0%nat 5 ++ repeat 1%nat 4 ++ repeat 0%nat 2) ++ repeat (inr 0%nat) 3 ++
  map inl (repeat 0%nat 4 ++ repeat 1%nat 9 ++ repeat 0%nat 3 ++ repeat 0%nat 4 ++ repeat 1%nat 4).

Definition mixed_run : list cjob * list qthread * cstate :=
  run_mixed sched_mixed [CFetch fi_x; CFetch fi_y] [fi_query] cs0.

(** The coordinators of [sched_lost], each running its event-loop tail
    once its job has returned; and the same two refreshes one after the
    other. *)
Definition lost_run : list cjob * list qthread * cstate :=
  run_mixed (map inl (sched_lost ++ [0; 0; 0; 1]%nat)) [CFetch fi_x; CFetch fi_err] [] cs0.

Definition serial_run : list cjob * list qthread * cstate :=
  run_mixed (map inl (repeat 0%nat 18 ++ repeat 1%nat 18)) [CFetch fi_x; CFetch fi_err] [] cs0.


Lemma interleaving_sorted_witness :
  Forall (fun c => exists t, c = CFetch t /\ t_pc t = PGet KFetch GCheck) [CFetch fi_x; CFetch fi_y] /\
  Forall (fun q => q_pc q = QGet GCheck) [fi_query] /\
  cwf cs0 /\ heap_sorted cs0 /\
  rtc mixed_step ([CFetch fi_x; CFetch fi_y], [fi_query], cs0) (mixed_run.1.1, mixed_run.1.2, mixed_run.2) /\
  mixed_run.1.1 = [CDone (Some 0%nat); CDone (Some 0%nat)] /\
  cwf mixed_run.2 /\ heap_sorted mixed_run.2 /\
  Forall (fun c => forall id, c = CDone (Some id) -> data_sorted (dict mixed_run.2 id) = true) mixed_run.1.1 /\
  Forall (fun q => forall r, q_pc q = QDone r -> exists d, series_sorted d = true /\
            r = current_price_of fromisoformat (price_key_to_use (q_price_type q)) (q_now q) d) mixed_run.1.2.
Proof.
  assert (Hcs : Forall (fun c => exists t, c = CFetch t /\ t_pc t = PGet KFetch GCheck) [CFetch fi_x; CFetch fi_y])
    by (repeat constructor; eexists; split; reflexivity).
  assert (Hqs : Forall (fun q => q_pc q = QGet GCheck) [fi_query]) by (repeat constructor).
  pose proof (cwf_empty []) as Hw.
  assert (Hh : heap_sorted cs0) by apply map_Forall_empty.
  pose proof (run_mixed_rtc sched_mixed [CFetch fi_x; CFetch fi_y] [fi_query] cs0) as Hr. fold mixed_run in Hr.
  rewrite (surjective_pairing mixed_run), (surjective_pairing mixed_run.1) in Hr.
  assert (Hd : mixed_run.1.1 = [CDone (Some 0%nat); CDone (Some 0%nat)]) by (vm_compute; reflexivity).
  split_and!; [exact Hcs | exact Hqs | exact Hw | exact Hh | exact Hr | exact Hd |..];
    apply (interleaving_sorted _ _ _ _ _ _ Hcs Hqs Hw Hh Hr).
Defined.

Lemma concurrent_fetches_duplicate_witness :
  c_table fi_cs8 !! "FI" = Some 0%nat /\ fetch_needed false (dict fi_cs8 0) jun11_1500 = true /\
  c_sent (run_schedule [0; 0; 0; 0; 1; 1; 1; 1]%nat [fi_x; fi_y] fi_cs8).2 =
    c_sent fi_cs8 ++ [mk_request "FI" 15; mk_request "FI" 15].
Proof.
  assert (Hr : c_table fi_cs8 !! "FI" = Some 0%nat) by reflexivity.
  assert (Hn : fetch_needed false (dict fi_cs8 0) jun11_1500 = true) by (vm_compute; reflexivity).
  split_and!; [exact Hr | exact Hn |].
  exact (concurrent_fetches_duplicate fi_cs8 "FI" 0 15 15 jun11_1500 jun11_1500 fi_reply y_reply
           jun11_1500 jun11_1500 Hr Hn Hn).
Defined.


