(* ===== verification/Sensor.v ===== *)
(** * Sensor: coordinators, sensors and the dicts they share

    sensor.py sets up, per config entry, a [SpotHintaDataUpdateCoordinator]
    (lines 57-100) and a [SpotHintaSensor] (lines 103-195).  A
    coordinator keeps a reference to a [SpotHintaAPI] object
    ([self.api], line 61); normally every coordinator holds the one in
    [hass.data[DOMAIN]['api']] (lines 41-47), but an unload drops that
    slot (Setup.v) and later entries get a new object.  So the world
    holds API objects by identity ([w_apis]) and each entry names its
    own.

    The coordinator's [data] starts as a placeholder dict (lines 65-72);
    each successful refresh replaces it by the dict that
    [api._get_cache_data(region)] returns (line 97), which is the API's
    own region dict, not a copy.  [async_update_state] (lines 174-193)
    writes ['current_price'] and ['last_refresh_utc'] into
    [coordinator.data], so after the first refresh it writes into the
    dict that every entry of the same region and API object shares, and
    [state] (lines 121-124) reads it back.  The keys written into an API
    region dict live in [w_price] and [w_refresh], indexed by the
    object's identity and the region; the API code itself never reads
    them.

    Home Assistant's scheduling and its coordinator class are not in
    the sources: a refresh and a quarter-hour update are steps the
    caller chooses, a successful refresh republishes the entry's state
    (CoordinatorEntity listens to its coordinator), and a failed one
    changes nothing but what [fetch_data] changed in the API object. *)

From S2P Require Import Prelude Json Clock Refresh Store IsoTime Resolver Api.

Open Scope Z_scope.

(** What [coordinator.data] refers to. *)
Inductive coord_data : Type :=
| Placeholder (current_price : option Q) (last_refresh_utc : option Z)  (** lines 65-72 *)
| ApiDict.                    (** [api._get_cache_data(region)] of the entry's API *)

(** A config entry: its coordinator and its sensor. *)
Record entry := mk_entry {
  e_region : string;
  e_resolution : Z;
  e_price_type : string;
  e_api : nat;                        (** identity of [coordinator.api] *)
  e_data : coord_data;
  e_last_update : option Z;           (** [coordinator.last_update], line 95 *)
  e_published : option (option Q)    (** last state written to Home Assistant *)
}.

Record world := mk_world {
  w_apis : gmap nat (gmap string region_cache);  (** [SpotHintaAPI] objects *)
  w_price : gmap (nat * string) (option Q);      (** ['current_price'] in an API's region dict *)
  w_refresh : gmap (nat * string) Z;             (** ['last_refresh_utc'] there *)
  w_hass_api : option nat;                       (** [hass.data[DOMAIN]['api']] *)
  w_next : nat;                                  (** identity of the next object created *)
  w_entries : list entry
}.

Definition set_data (e : entry) (d : coord_data) (lu : option Z) : entry :=
  mk_entry (e_region e) (e_resolution e) (e_price_type e) (e_api e) d lu (e_published e).

Definition set_entries (w : world) (es : list entry) : world :=
  mk_world (w_apis w) (w_price w) (w_refresh w) (w_hass_api w) (w_next w) es.

Definition set_entry (w : world) (i : nat) (e : entry) : world :=
  set_entries w (<[i := e]> (w_entries w)).

(** The state of the entry's API object. *)
Definition api_of (w : world) (e : entry) : gmap string region_cache :=
  default ∅ (w_apis w !! e_api e).

Definition set_api (w : world) (id : nat) (a : gmap string region_cache) : world :=
  mk_world (<[id := a]> (w_apis w)) (w_price w) (w_refresh w) (w_hass_api w) (w_next w) (w_entries w).

(** [coordinator.data.get('current_price')] and [state] (lines 121-124). *)
Definition read_current_price (w : world) (e : entry) : option Q :=
  match e_data e with
  | Placeholder p _ => p
  | ApiDict => default None (w_price w !! (e_api e, e_region e))
  end.

(** [async_write_ha_state]: the sensor's state is published. *)
Definition publish (w : world) (i : nat) (e : entry) : world :=
  set_entry w i (mk_entry (e_region e) (e_resolution e) (e_price_type e) (e_api e) (e_data e)
                          (e_last_update e) (Some (read_current_price w e))).

(** [extra_state_attributes] (lines 135-155): region, current price,
    min and max as [coordinator.data] holds them. *)
Definition extra_state_attributes (w : world) (i : nat) : option (string * option Q * option Q * option Q) :=
  e ← w_entries w !! i;
  match e_data e with
  | Placeholder p _ => Some (e_region e, p, Some 0%Q, Some 0%Q)
  | ApiDict =>
      let c := default empty_cache (api_of w e !! e_region e) in
      Some (e_region e, read_current_price w e, min_price c, max_price c)
  end.

(** The result of [_async_update_data] (lines 85-100). *)
Inductive update_result : Type :=
| Updated          (** returns the API's region dict *)
| UpdateFailed.    (** [fetch_data] returned False or raised *)

Section Host.
Context `{EetZone}.

(** One coordinator refresh of entry [i]: [fetch_data(region,
    price_resolution)] on its API object in the executor; on success
    [last_update] is set, [coordinator.data] becomes the API's region
    dict and the sensor republishes. *)
Definition coordinator_refresh (i : nat) (now : Z) (reply : http_reply) (stored_at : Z)
    (w : world) : world * update_result * option request :=
  match w_entries w !! i with
  | None => (w, UpdateFailed, None)
  | Some e =>
      let '(api', r, q) := fetch_data (e_region e) (e_resolution e) false now reply stored_at (api_of w e) in
      let w1 := set_api w (e_api e) api' in
      match r with
      | Ok true =>
          let e' := set_data e ApiDict (Some now) in
          (publish (set_entry w1 i e') i e', Updated, q)
      | _ => (w1, UpdateFailed, q)
      end
  end.

(** [async_update_state] of entry [i] (lines 174-193): the price is
    computed, written with the refresh instant into [coordinator.data],
    and published.  An exception in the executor job leaves everything
    but the API's lazily created entry unchanged. *)
Definition sensor_update_state (i : nat) (now : Z) (w : world) : world :=
  match w_entries w !! i with
  | None => w
  | Some e =>
      let '(api', r) :=
        calculate_current_price (e_region e) (e_resolution e) (e_price_type e) now (api_of w e) in
      let w1 := set_api w (e_api e) api' in
      match r with
      | Raise _ => w1
      | Ok new_price =>
          match e_data e with
          | Placeholder _ _ =>
              let e' := set_data e (Placeholder new_price (Some now)) (e_last_update e) in
              publish (set_entry w1 i e') i e'
          | ApiDict =>
              let k := (e_api e, e_region e) in
              publish (mk_world (w_apis w1) (<[k := new_price]> (w_price w1))
                                (<[k := now]> (w_refresh w1)) (w_hass_api w1) (w_next w1)
                                (w_entries w1)) i e
          end
      end
  end.

(** [async_added_to_hass] (lines 157-171): the quarter-hour timer is
    Home Assistant's (its calls are [sensor_update_state] steps); the
    sensor updates its state at once. *)
Definition async_added_to_hass (i : nat) (now : Z) (w : world) : world :=
  sensor_update_state i now w.
End Host.

(** The state a sensor shows. *)
Definition sensor_state (w : world) (i : nat) : option (option Q) :=
  w_entries w !! i ≫= e_published.

(** The coordinator's 120-minute timer (lines 78-83): refreshes of
    entry [i] at the given instants, each with its reply and store
    time; the requests sent, in order. *)
Fixpoint refresh_loop `{EetZone} (i : nat) (polls : list (Z * http_reply * Z)) (w : world)
    : world * list request :=
  match polls with
  | [] => (w, [])
  | (now, reply, t) :: rest =>
      let '(w1, _, q) := coordinator_refresh i now reply t w in
      let '(w2, qs) := refresh_loop i rest w1 in
      (w2, option_list q ++ qs)
  end.

Section HostProps.
Context `{EetZone}.

(** C9: After a successful refresh, a sensor shows the ['current_price']
    of its region's dict in its API object: the price the last sensor
    of that region and object wrote, whatever its price type. *)
Theorem refresh_publishes_shared_price i now reply t w w' q e :
  w_entries w !! i = Some e ->
  coordinator_refresh i now reply t w = (w', Updated, q) ->
  sensor_state w' i = Some (default None (w_price w !! (e_api e, e_region e))).
Proof.
  intros He. unfold coordinator_refresh. rewrite He.
  destruct (fetch_data _ _ _ _ _ _ _) as [[api' r] q'].
  destruct r as [[|]|]; intros Hr; invc Hr.
  assert (Hi : (i < length (w_entries w))%nat) by (by apply lookup_lt_Some in He).
  unfold sensor_state, publish, set_entry, set_entries. simpl.
  rewrite list_lookup_insert_eq by (by rewrite !length_insert). reflexivity.
Qed.
End HostProps.

(** ** Two entries for one region *)

Definition rec2 (ts : string) (vat no_vat : Q) : jvalue :=
  JObj [("DateTime", JStr ts); ("PriceWithTax", JNum vat); ("PriceNoTax", JNum no_vat)].

(** Tax-inclusive 5, 7, 9 and tax-exclusive 4, 6, 8. *)
Definition fi_reply2 : http_reply :=
  HttpOk (Some (JArr [rec2 "2024-06-11T12:00:00+03:00" 9 8; rec2 "2024-06-11T10:00:00+03:00" 5 4;
                      rec2 "2024-06-11T11:00:00+03:00" 7 6])).

(** The entries "FI / VAT" and "FI / NO_VAT" on the shared API object
    0, before their first refresh. *)
Definition two_entries : world :=
  mk_world {[ 0%nat := ∅ ]} ∅ ∅ (Some 0%nat) 1
    [mk_entry "FI" 15 "VAT" 0 (Placeholder (Some 0%Q) None) None None;
     mk_entry "FI" 15 "NO_VAT" 0 (Placeholder (Some 0%Q) None) None None].

(** Both coordinators refresh at 01:00, both sensors update at 11:30,
    then the VAT coordinator refreshes again at 13:00. *)
Definition aliasing_run : world :=
  let '(w1, _, _) := coordinator_refresh 0 jun11_0100 fi_reply2 jun11_0100 two_entries in
  let '(w2, _, _) := coordinator_refresh 1 jun11_0100 HttpError jun11_0100 w1 in
  let w3 := sensor_update_state 0 at_1130 w2 in
  let w4 := sensor_update_state 1 at_1130 w3 in
  let '(w5, _, _) := coordinator_refresh 0 at_1300 HttpError at_1300 w4 in
  w5.


(** Polls every two hours from 2024-06-10 15:00 to 2024-06-11 15:00
    (Helsinki), every reply good. *)
Definition two_hourly : list (Z * http_reply * Z) :=
  map (fun k => let t := jun10_1500 + 7200 * Z.of_nat k in (t, fi_reply2, t)) (seq 0 13).


Lemma refresh_publishes_shared_price_witness :
  let w2 := (let '(w1, _, _) := coordinator_refresh 0 jun11_0100 fi_reply2 jun11_0100 two_entries in
             let '(w2, _, _) := coordinator_refresh 1 jun11_0100 HttpError jun11_0100 w1 in
             sensor_update_state 1 at_1130 (sensor_update_state 0 at_1130 w2)) in
  exists e w' q, w_entries w2 !! 0%nat = Some e /\ coordinator_refresh 0 at_1300 HttpError at_1300 w2 = (w', Updated, q) /\
  sensor_state w' 0 = Some (default None (w_price w2 !! (e_api e, e_region e))).
Proof.
  intros w2.
  assert (He : w_entries w2 !! 0%nat =
               Some (mk_entry "FI" 15 "VAT" 0 ApiDict (Some jun11_0100) (Some (Some 7%Q)))) by (vm_compute; reflexivity).
  destruct (coordinator_refresh 0 at_1300 HttpError at_1300 w2) as [[w' u] q] eqn:Hr.
  assert (Hu : u = Updated).
  { change u with ((w', u, q).1.2). rewrite <- Hr. vm_compute. reflexivity. }
  subst u. exists (mk_entry "FI" 15 "VAT" 0 ApiDict (Some jun11_0100) (Some (Some 7%Q))), w', q.
  split; [exact He | split; [reflexivity | exact (refresh_publishes_shared_price _ _ _ _ _ _ _ _ He Hr)]].
Defined.
