(* ===== verification/Config.v ===== *)
(** * Config: constants and the configuration flow

    const.py lists the supported regions, price types and defaults;
    config_flow.py (lines 27-62) validates the user's choice with a
    voluptuous schema and creates one config entry per unique id
    [f"{region}_{price_type}"], aborting when that id is configured.
    So one region can have a VAT and a NO_VAT entry at the same time,
    the situation of Sensor.v's shared dict. *)

From S2P Require Import Prelude.

(** const.py, lines 2-24. *)
Definition DOMAIN : string := "spothinta".
Definition PRICE_RESOLUTION : Z := 15.
Definition SUPPORTED_REGIONS : list string :=
  ["DK1"; "DK2"; "EE"; "FI"; "LT"; "LV"; "NO1"; "NO2"; "NO3"; "NO4"; "NO5";
   "SE1"; "SE2"; "SE3"; "SE4"].
Definition DEFAULT_REGION : string := "FI".
Definition SUPPORTED_PRICE_TYPES : list string := ["VAT"; "NO_VAT"].
Definition DEFAULT_PRICE_TYPE : string := "VAT".
(** const.py, lines 27-30. *)
Definition PRICE_TYPE_OPTIONS_MAP : list (string * string) :=
  [("VAT", "Price including VAT"); ("NO_VAT", "Price excluding VAT")].

(** The form's answer: region, resolution and price type. *)
Record user_input := mk_input { in_region : string; in_resolution : Z; in_price_type : string }.

(** [STEP_USER_DATA_SCHEMA] (config_flow.py:27-36): [vol.In] on each
    field; the price type must be a key of [PRICE_TYPE_OPTIONS_MAP]. *)
Definition schema_ok (u : user_input) : bool :=
  existsb (String.eqb (in_region u)) SUPPORTED_REGIONS &&
  existsb (Z.eqb (in_resolution u)) [15; 60]%Z &&
  existsb (String.eqb (in_price_type u)) (map fst PRICE_TYPE_OPTIONS_MAP).

Definition unique_id (u : user_input) : string := in_region u ++ "_" ++ in_price_type u.

Inductive flow_result : Type :=
| ShowForm
| AbortAlreadyConfigured
| CreateEntry (title : string) (data : user_input).

(** [async_step_user] (lines 43-62) given the configured unique ids. *)
Definition async_step_user (configured : list string) (u : option user_input) : flow_result :=
  match u with
  | None => ShowForm
  | Some u =>
      if existsb (String.eqb (unique_id u)) configured then AbortAlreadyConfigured
      else CreateEntry ("Spot Price (" ++ in_region u ++ ") - " ++ in_price_type u) u
  end.

(** The configured ids after one flow. *)
Definition after_flow (configured : list string) (u : option user_input) : list string :=
  match async_step_user configured u with
  | CreateEntry _ d => unique_id d :: configured
  | _ => configured
  end.

Definition all_inputs : list user_input :=
  r ← SUPPORTED_REGIONS; res ← [15; 60]%Z; pt ← map fst PRICE_TYPE_OPTIONS_MAP; [mk_input r res pt].

Lemma schema_ok_all_inputs u : schema_ok u = true -> u ∈ all_inputs.
Proof.
  destruct u as [r res pt]. unfold schema_ok. cbn [in_region in_resolution in_price_type].
  intros [[Hr Hres]%andb_true_iff Hpt]%andb_true_iff.
  apply existsb_exists in Hr as (r' & Hr' & ->%String.eqb_eq).
  apply existsb_exists in Hres as (res' & Hres' & ->%Z.eqb_eq).
  apply existsb_exists in Hpt as (pt' & Hpt' & ->%String.eqb_eq).
  unfold all_inputs. apply list_elem_of_bind. exists r'. split; [|by apply list_elem_of_In].
  apply list_elem_of_bind. exists res'. split; [|by apply list_elem_of_In].
  apply list_elem_of_bind. exists pt'. split; [by left | by apply list_elem_of_In].
Qed.

Lemma unique_id_table :
  forallb (fun a => forallb (fun b =>
    implb (String.eqb (unique_id a) (unique_id b))
          (String.eqb (in_region a) (in_region b) && String.eqb (in_price_type a) (in_price_type b)))
    all_inputs) all_inputs = true.
Proof. vm_compute. reflexivity. Qed.

(** C26: On valid input the unique id determines region and price type: the
    flow refuses a second entry for the same pair and accepts the other
    price type of the same region. *)
Theorem unique_id_injective u v :
  schema_ok u = true -> schema_ok v = true -> unique_id u = unique_id v ->
  in_region u = in_region v /\ in_price_type u = in_price_type v.
Proof.
  intros Hu%schema_ok_all_inputs Hv%schema_ok_all_inputs Heq.
  pose proof unique_id_table as T.
  eapply forallb_forall in T; [|by apply list_elem_of_In, Hu].
  eapply forallb_forall in T; [|by apply list_elem_of_In, Hv].
  rewrite Heq, String.eqb_refl in T. simpl in T.
  apply andb_true_iff in T as [->%String.eqb_eq ->%String.eqb_eq]. done.
Qed.

(** C27: The configured ids never repeat. *)
Theorem after_flow_NoDup configured u :
  NoDup configured -> NoDup (after_flow configured u).
Proof.
  unfold after_flow, async_step_user. destruct u as [u|]; [|done].
  destruct (existsb (String.eqb (unique_id u)) configured) eqn:E; [done|].
  intros Hnd. constructor; [|done].
  intros Hin. apply list_elem_of_In in Hin.
  assert (existsb (String.eqb (unique_id u)) configured = true)
    by (apply existsb_exists; exists (unique_id u); rewrite String.eqb_refl; auto).
  congruence.
Qed.

Definition fi_vat : user_input := mk_input "FI" 15 "VAT".
Definition fi_no_vat : user_input := mk_input "FI" 15 "NO_VAT".

Lemma after_flow_NoDup_witness :
  NoDup (after_flow [] (Some fi_vat)) /\
  after_flow (after_flow [] (Some fi_vat)) (Some fi_no_vat) = ["FI_NO_VAT"; "FI_VAT"] /\
  NoDup (after_flow (after_flow [] (Some fi_vat)) (Some fi_no_vat)).
Proof.
  assert (H0 : NoDup (after_flow [] (Some fi_vat))) by (apply after_flow_NoDup; constructor).
  split; [exact H0 | split; [reflexivity | exact (after_flow_NoDup _ _ H0)]].
Defined.

Lemma unique_id_injective_witness :
  schema_ok fi_vat = true /\ schema_ok fi_vat = true /\ unique_id fi_vat = unique_id fi_vat /\
  in_region fi_vat = in_region fi_vat /\ in_price_type fi_vat = in_price_type fi_vat.
Proof.
  assert (H : schema_ok fi_vat = true) by reflexivity.
  split; [exact H | split; [exact H | split; [reflexivity | exact (unique_id_injective _ _ H H eq_refl)]]].
Defined.
