(* ===== verification/Setup.v ===== *)
(** * Setup: setting up and unloading config entries

    [sensor.async_setup_entry] (sensor.py:34-55) reads the entry's
    region, resolution and price type (with the defaults of const.py),
    takes the API object of [hass.data[DOMAIN]['api']], creating it when
    the slot is empty (lines 41-47), builds the coordinator, runs its
    first refresh (line 51: on failure Home Assistant raises
    [ConfigEntryNotReady] and the entry is not added) and adds the
    sensor, whose [async_added_to_hass] (lines 157-171) updates its state
    at once.  [__init__.async_setup_entry] (__init__.py:8-12) only
    forwards to it.

    [__init__.async_unload_entry] (__init__.py:15-22) unloads the entry's
    platform and then pops [hass.data[DOMAIN]], the slot holding the API
    object of every entry.  The remaining coordinators keep their
    reference to that object; an entry set up afterwards gets a new one.

    [run_step] is the host without unloads, [host_step] with them.  The
    theorems: without unloads every entry uses the one API object
    ([reachable_single_api]); after an unload two objects cache the
    same region and the region is fetched twice as often
    ([unload_duplicates_requests]); and entries of one region share its
    cache whatever resolution they were configured with
    ([resolution_ignored]). *)

From S2P Require Import Prelude Json Clock Refresh Store IsoTime Resolver Api Sensor Config.

Open Scope Z_scope.

(** [entry.data]: the keys the flow stored, each possibly missing. *)
Record entry_data := mk_entry_data {
  d_region : option string;
  d_resolution : option Z;
  d_price_type : option string
}.

(** The data of an entry created by the configuration flow. *)
Definition entry_data_of (u : user_input) : entry_data :=
  mk_entry_data (Some (in_region u)) (Some (in_resolution u)) (Some (in_price_type u)).

Inductive setup_result : Type :=
| SetupOk
| SetupNotReady.   (** [ConfigEntryNotReady] from the first refresh *)

(** Lines 41-47: the shared API object, created when the slot is empty. *)
Definition shared_api (w : world) : world * nat :=
  match w_hass_api w with
  | Some id => (w, id)
  | None =>
      (mk_world (<[w_next w := ∅]> (w_apis w)) (w_price w) (w_refresh w)
                (Some (w_next w)) (S (w_next w)) (w_entries w), w_next w)
  end.

Section Setup.
Context `{EetZone}.

(** [sensor.async_setup_entry] (lines 34-55) at [now], with the first
    refresh's reply and store instant, and the instant [added_at] of
    the sensor's first update (line 171). *)
Definition async_setup_entry (d : entry_data) (now : Z) (reply : http_reply) (stored_at added_at : Z)
    (w : world) : world * setup_result * option request :=
  let region := default DEFAULT_REGION (d_region d) in
  let price_resolution := default PRICE_RESOLUTION (d_resolution d) in
  let price_type := default DEFAULT_PRICE_TYPE (d_price_type d) in
  let '(w0, id) := shared_api w in
  let i := length (w_entries w0) in
  let e := mk_entry region price_resolution price_type id (Placeholder (Some 0%Q) None) None None in
  let '(w1, u, q) := coordinator_refresh i now reply stored_at (set_entries w0 (w_entries w0 ++ [e])) in
  match u with
  | UpdateFailed => (set_entries w1 (w_entries w0), SetupNotReady, q)
  | Updated => (async_added_to_hass i added_at w1, SetupOk, q)
  end.

(** [__init__.async_setup_entry] (lines 8-12) forwards to the sensor
    platform. *)
Definition integration_setup_entry (d : entry_data) (now : Z) (reply : http_reply) (stored_at added_at : Z)
    (w : world) : world * setup_result * option request :=
  async_setup_entry d now reply stored_at added_at w.
End Setup.

(** [__init__.async_unload_entry] (lines 15-22) of entry [i]; [unload_ok]
    is the result of unloading its platform, which removes its
    coordinator and sensor. *)
Definition async_unload_entry (i : nat) (unload_ok : bool) (w : world) : world * bool :=
  if unload_ok then
    (mk_world (w_apis w) (w_price w) (w_refresh w) None (w_next w)
              (take i (w_entries w) ++ drop (S i) (w_entries w)), true)
  else (w, false).

(** Home Assistant before any entry is set up. *)
Definition init_world : world := mk_world ∅ ∅ ∅ None 0 [].

Section Steps.
Context `{EetZone}.

Inductive run_step : world -> world -> Prop :=
| rs_setup d now reply t added w w' r q :
    async_setup_entry d now reply t added w = (w', r, q) -> run_step w w'
| rs_refresh i now reply t w w' u q :
    coordinator_refresh i now reply t w = (w', u, q) -> run_step w w'
| rs_update i now w : run_step w (sensor_update_state i now w).

Inductive host_step : world -> world -> Prop :=
| hs_run w w' : run_step w w' -> host_step w w'
| hs_unload i ok w : host_step w (async_unload_entry i ok w).1.
End Steps.

(** ** Without unloads, one API object *)

(** Every entry's coordinator uses the object of [hass.data[DOMAIN]['api']]
    (so there is no entry while the slot is empty). *)
Definition single_api (w : world) : Prop :=
  Forall (fun a => w_hass_api w = Some a) (e_api <$> w_entries w).

(** What a coordinator never changes: its region, resolution, price
    type and API object. *)
Definition e_ident (e : entry) : string * Z * string * nat :=
  (e_region e, e_resolution e, e_price_type e, e_api e).

Lemma apis_insert (l : list entry) i e e' :
  l !! i = Some e -> e_ident e' = e_ident e -> e_ident <$> <[i := e']> l = e_ident <$> l.
Proof.
  intros Hl He. rewrite list_fmap_insert. apply list_insert_id.
  rewrite list_lookup_fmap, Hl. simpl. by rewrite He.
Qed.

Lemma e_api_ident (l : list entry) : e_api <$> l = snd <$> (e_ident <$> l).
Proof. rewrite <- list_fmap_compose. done. Qed.

(** The steps that keep the entries' identities and the shared slot. *)
Definition keeps_apis (w w' : world) : Prop :=
  e_ident <$> w_entries w' = e_ident <$> w_entries w /\ w_hass_api w' = w_hass_api w.

Lemma keeps_apis_trans w1 w2 w3 : keeps_apis w1 w2 -> keeps_apis w2 w3 -> keeps_apis w1 w3.
Proof. intros [H1 H2] [H3 H4]. split; congruence. Qed.

Lemma set_api_keeps w id a : keeps_apis w (set_api w id a).
Proof. done. Qed.

Lemma set_entry_keeps w i e e' :
  w_entries w !! i = Some e -> e_ident e' = e_ident e -> keeps_apis w (set_entry w i e').
Proof. intros Hl He. split; [exact (apis_insert _ _ _ _ Hl He) | done]. Qed.

Lemma publish_keeps w i e e' :
  w_entries w !! i = Some e -> e_ident e' = e_ident e -> keeps_apis w (publish w i e').
Proof. intros Hl He. by apply (set_entry_keeps _ _ e). Qed.

Lemma lookup_set_entry w i e e' :
  w_entries w !! i = Some e -> w_entries (set_entry w i e') !! i = Some e'.
Proof.
  intros Hl. apply list_lookup_insert_eq. by apply lookup_lt_Some in Hl.
Qed.

Section StepsProps.
Context `{EetZone}.

Lemma coordinator_refresh_keeps i now reply t w w' u q :
  coordinator_refresh i now reply t w = (w', u, q) -> keeps_apis w w'.
Proof.
  unfold coordinator_refresh. destruct (w_entries w !! i) as [e|] eqn:He; [|by intros [= <- _ _]].
  destruct (fetch_data _ _ _ _ _ _ _) as [[api' r] q'].
  set (w1 := set_api w (e_api e) api').
  assert (He1 : w_entries w1 !! i = Some e) by exact He.
  destruct r as [[|]|]; intros [= <- _ _]; try apply set_api_keeps.
  apply (keeps_apis_trans _ w1); [apply set_api_keeps|].
  apply (keeps_apis_trans _ (set_entry w1 i (set_data e ApiDict (Some now))));
    [by apply (set_entry_keeps _ _ e) |].
  apply (publish_keeps _ _ (set_data e ApiDict (Some now))); [exact (lookup_set_entry _ _ _ _ He1) | done].
Qed.

Lemma sensor_update_state_keeps i now w : keeps_apis w (sensor_update_state i now w).
Proof.
  unfold sensor_update_state. destruct (w_entries w !! i) as [e|] eqn:He; [|done].
  destruct (calculate_current_price _ _ _ _ _) as [api' r].
  set (w1 := set_api w (e_api e) api').
  assert (He1 : w_entries w1 !! i = Some e) by exact He.
  destruct r as [p|]; [|apply set_api_keeps]. destruct (e_data e).
  - set (e' := set_data e (Placeholder p (Some now)) (e_last_update e)).
    apply (keeps_apis_trans _ w1); [apply set_api_keeps|].
    apply (keeps_apis_trans _ (set_entry w1 i e')); [by apply (set_entry_keeps _ _ e) |].
    apply (publish_keeps _ _ e'); [exact (lookup_set_entry _ _ _ _ He1) | done].
  - apply (keeps_apis_trans _ w1); [apply set_api_keeps|].
    eapply keeps_apis_trans; [| apply (publish_keeps _ _ e); [exact He1 | done]]. done.
Qed.

Lemma single_api_keeps w w' : keeps_apis w w' -> single_api w -> single_api w'.
Proof. intros [Ha Hh]. unfold single_api. by rewrite !e_api_ident, Ha, Hh. Qed.

Lemma async_setup_entry_single d now reply t added w w' r q :
  async_setup_entry d now reply t added w = (w', r, q) -> single_api w -> single_api w'.
Proof.
  unfold async_setup_entry. intros Hs Hsingle.
  assert (H0 : forall w0 id, shared_api w = (w0, id) ->
             w_hass_api w0 = Some id /\ w_entries w0 = w_entries w /\
             Forall (fun a => Some id = Some a) (e_api <$> w_entries w)).
  { intros w0 id. unfold shared_api. destruct (w_hass_api w) as [id0|] eqn:Eh.
    - intros [= <- <-]. split; [done | split; [done|]]. unfold single_api in Hsingle. by rewrite Eh in Hsingle.
    - intros [= <- <-]. split; [done | split; [done|]]. unfold single_api in Hsingle. rewrite Eh in Hsingle.
      destruct (w_entries w) as [|e0 es]; [constructor | by invc Hsingle]. }
  destruct (shared_api w) as [w0 id]. destruct (H0 w0 id eq_refl) as (Hh & He & HF).
  match type of Hs with context [coordinator_refresh ?i ?n ?rp ?st ?w1] =>
    destruct (coordinator_refresh i n rp st w1) as [[w1' u] q'] eqn:Hc end.
  destruct (coordinator_refresh_keeps _ _ _ _ _ _ _ _ Hc) as [Ha1 Hh1]. simpl in Ha1, Hh1.
  destruct u; invc Hs.
  - apply (single_api_keeps w1'); [unfold async_added_to_hass; apply sensor_update_state_keeps|].
    unfold single_api. rewrite e_api_ident, Ha1, <- e_api_ident, Hh1, Hh. simpl. rewrite He, fmap_app.
    apply Forall_app. split; [done|].
    by repeat constructor.
  - unfold single_api. simpl. by rewrite Hh1, Hh, He.
Qed.

Lemma run_step_single w w' : run_step w w' -> single_api w -> single_api w'.
Proof.
  destruct 1 as [d now reply t added w0 w1 r q Hs | i now reply t w0 w1 u q Hc | i now w0].
  - exact (async_setup_entry_single _ _ _ _ _ _ _ _ _ Hs).
  - apply single_api_keeps. exact (coordinator_refresh_keeps _ _ _ _ _ _ _ _ Hc).
  - apply single_api_keeps, sensor_update_state_keeps.
Qed.

(** C35: As long as no entry is unloaded, every coordinator holds the one
    API object of [hass.data[DOMAIN]['api']], so all entries share one
    cache per region. *)
Theorem reachable_single_api w : rtc run_step init_world w -> single_api w.
Proof.
  intros Hr. assert (H0 : single_api init_world) by constructor.
  induction Hr as [|x y z Hxy _ IH]; [done|]. exact (IH (run_step_single _ _ Hxy H0)).
Qed.
End StepsProps.

(** ** Europe/Helsinki runs of the host *)

Lemma triple_eta {A B C} (x : A * B * C) : x = (x.1.1, x.1.2, x.2).
Proof. by destruct x as [[? ?] ?]. Qed.

Definition fi_no_vat_60 : user_input := mk_input "FI" 60 "NO_VAT".

(** "FI / VAT" is set up at 01:00, "FI / NO_VAT" at 01:01; with
    [reload], the second entry is unloaded and set up again at 01:02
    (an entry reload); both coordinators then refresh at 15:00.  The
    requests sent, in order. *)
Definition reload_run (reload : bool) : list (option request) :=
  let '(w1, _, q1) := async_setup_entry (entry_data_of fi_vat) jun11_0100 fi_reply2 jun11_0100 jun11_0100 init_world in
  let '(w2, _, q2) := async_setup_entry (entry_data_of fi_no_vat) (jun11_0100 + 60) fi_reply2
                        (jun11_0100 + 60) (jun11_0100 + 60) w1 in
  let '(w3, _, q3) :=
    if reload then async_setup_entry (entry_data_of fi_no_vat) (jun11_0100 + 120) fi_reply2
                     (jun11_0100 + 120) (jun11_0100 + 120) (async_unload_entry 1 true w2).1
    else (w2, SetupOk, None) in
  let '(w4, _, q4) := coordinator_refresh 0 jun11_1500 fi_reply2 jun11_1500 w3 in
  let '(w5, _, q5) := coordinator_refresh 1 jun11_1500 fi_reply2 jun11_1500 w4 in
  [q1; q2; q3; q4; q5].


(** "FI / VAT" with resolution 15 and "FI / NO_VAT" with resolution 60
    are set up at 01:00 and 01:01; at 15:00 the coordinator of entry
    [first] refreshes first, then the other one. *)
Definition resolution_run (first : nat) : list (option request) :=
  let '(w1, _, q1) := async_setup_entry (entry_data_of fi_vat) jun11_0100 fi_reply2 jun11_0100 jun11_0100 init_world in
  let '(w2, _, q2) := async_setup_entry (entry_data_of fi_no_vat_60) (jun11_0100 + 60) fi_reply2
                        (jun11_0100 + 60) (jun11_0100 + 60) w1 in
  let '(w3, _, q3) := coordinator_refresh first jun11_1500 fi_reply2 jun11_1500 w2 in
  let '(w4, _, q4) := coordinator_refresh (1 - first) jun11_1500 fi_reply2 jun11_1500 w3 in
  [q1; q2; q3; q4].


Lemma reachable_single_api_witness :
  let w := (async_setup_entry (entry_data_of fi_vat) jun11_0100 fi_reply2 jun11_0100 jun11_0100 init_world).1.1 in
  rtc run_step init_world w /\ single_api w.
Proof.
  intros w. assert (Hr : rtc run_step init_world w).
  { eapply rtc_l; [|apply rtc_refl]. eapply rs_setup. apply triple_eta. }
  split; [exact Hr | exact (reachable_single_api _ Hr)].
Defined.
