(* ===== verification/Entities.v ===== *)
(** * Entities: the sensor entity's identity and constant attributes

    [SpotHintaSensor] (sensor.py:103-133) has constant class attributes
    (device class, state class, display precision), constant [icon] and
    [unit_of_measurement] properties, and an [__init__] that fixes its
    price type, its entity category and its [unique_id] and [name] from
    the region and the price type.  [sensor.async_setup_entry] builds one
    such sensor per config entry (lines 37, 39, 53-55); Home Assistant's
    entity registry keeps one entity per unique id.

    [run_flows] runs the configuration flow of Config.v on a sequence of
    answers and collects the entries it creates.  The theorem: the
    sensors of these entries have pairwise distinct unique ids, because
    the sensor's id is the flow's id with a fixed prefix and suffix, and
    the flow never creates two entries with one id. *)

From S2P Require Import Prelude Json Clock Refresh Store IsoTime Resolver Api Sensor Config Setup.

(** Home Assistant's enums, for the values the sensor uses. *)
Inductive device_class := MONETARY.
Inductive state_class := MEASUREMENT.
Inductive entity_category := CONFIG | DIAGNOSTIC.

(** Lines 106-108. *)
Definition attr_device_class : device_class := MONETARY.
Definition attr_state_class : state_class := MEASUREMENT.
Definition attr_suggested_display_precision : nat := 5.

(** Lines 126-133. *)
Definition icon : string := "mdi:flash".
Definition unit_of_measurement : string := "EUR/kWh".

(** What [__init__] sets on the entity (lines 110-117). *)
Record sensor_entity := mk_sensor_entity {
  price_type : string;
  attr_entity_category : option entity_category;
  attr_unique_id : string;
  attr_name : string
}.

(** [SpotHintaSensor.__init__(coordinator, region, price_type,
    entity_category)] (lines 110-117). *)
Definition sensor_init (region price_type : string) (entity_category : option entity_category)
    : sensor_entity :=
  mk_sensor_entity price_type entity_category
    (DOMAIN ++ "_" ++ region ++ "_" ++ price_type ++ "_price")
    ("Spot Price " ++ region ++ " " ++ price_type).

(** The sensor [async_setup_entry] adds for an entry (lines 37, 39 and
    53-55; the entity category keeps its default [None]). *)
Definition setup_sensor (d : entry_data) : sensor_entity :=
  sensor_init (default DEFAULT_REGION (d_region d)) (default DEFAULT_PRICE_TYPE (d_price_type d)) None.

(** The entries created by the flow answering each of [us] in turn,
    starting from the configured ids [configured]. *)
Fixpoint run_flows (configured : list string) (us : list (option user_input)) : list user_input :=
  match us with
  | [] => []
  | u :: rest =>
      match async_step_user configured u with
      | CreateEntry _ d => d :: run_flows (unique_id d :: configured) rest
      | _ => run_flows configured rest
      end
  end.

(** ** Strings *)

Lemma string_app_cons a (s t : string) : (String a s ++ t)%string = String a (s ++ t).
Proof. reflexivity. Qed.

Lemma string_app_length (s t : string) : String.length (s ++ t)%string = (String.length s + String.length t)%nat.
Proof. induction s as [|a s IH]; [done|]. rewrite string_app_cons. simpl. by rewrite IH. Qed.

Lemma string_app_assoc (s t u : string) : ((s ++ t) ++ u = s ++ (t ++ u))%string.
Proof. induction s as [|a s IH]; [done|]. rewrite !string_app_cons. by rewrite IH. Qed.

Lemma string_app_inj_r (s1 s2 t : string) : (s1 ++ t = s2 ++ t)%string -> s1 = s2.
Proof.
  revert s2. induction s1 as [|a s1 IH]; intros [|b s2] Heq; [done|..].
  1,2: apply (f_equal String.length) in Heq; rewrite !string_app_length in Heq; simpl in Heq; lia.
  rewrite !string_app_cons in Heq. injection Heq as -> Heq. f_equal. by apply IH.
Qed.

(** ** The sensor's id is the flow's id, framed *)

Lemma setup_sensor_unique_id u :
  attr_unique_id (setup_sensor (entry_data_of u)) = (DOMAIN ++ "_" ++ unique_id u ++ "_price")%string.
Proof.
  unfold setup_sensor, sensor_init, entry_data_of, unique_id. simpl.
  by rewrite !string_app_assoc.
Qed.

Lemma setup_sensor_unique_id_inj u v :
  attr_unique_id (setup_sensor (entry_data_of u)) = attr_unique_id (setup_sensor (entry_data_of v)) ->
  unique_id u = unique_id v.
Proof.
  rewrite !setup_sensor_unique_id. intros Heq.
  apply (inj (String.append (DOMAIN ++ "_"))) in Heq. by apply string_app_inj_r in Heq.
Qed.

(** ** Flows create entries with fresh ids *)

Lemma async_step_user_create configured u title d :
  async_step_user configured u = CreateEntry title d -> u = Some d /\ unique_id d ∉ configured.
Proof.
  unfold async_step_user. destruct u as [u|]; [|discriminate].
  destruct (existsb (String.eqb (unique_id u)) configured) eqn:E; [discriminate|].
  intros [= _ <-]. split; [done|]. intros Hin.
  assert (existsb (String.eqb (unique_id u)) configured = true)
    by (apply existsb_exists; exists (unique_id u); split; [by apply list_elem_of_In | apply String.eqb_refl]).
  congruence.
Qed.

Lemma run_flows_fresh configured us :
  NoDup (unique_id <$> run_flows configured us) /\
  Forall (fun d => unique_id d ∉ configured) (run_flows configured us).
Proof.
  revert configured. induction us as [|u us IH]; intros configured; simpl; [split; constructor|].
  destruct (async_step_user configured u) as [| |title d] eqn:E; [apply IH | apply IH |].
  destruct (async_step_user_create _ _ _ _ E) as [_ Hd].
  destruct (IH (unique_id d :: configured)) as [Hnd Hfr].
  split; simpl.
  - constructor; [|done]. intros (d' & Heq & Hd')%list_elem_of_fmap.
    eapply Forall_forall in Hfr; [|exact Hd']. apply Hfr. rewrite Heq. by left.
  - constructor; [done|]. eapply Forall_impl; [exact Hfr|]. intros d' Hn Hin. apply Hn. by right.
Qed.

Lemma NoDup_fmap_weaken {A B C} (f : A -> B) (g : A -> C) (l : list A) :
  (forall x y, f x = f y -> g x = g y) -> NoDup (g <$> l) -> NoDup (f <$> l).
Proof.
  intros Hfg. induction l as [|x l IH]; simpl; [constructor|]. intros [Hx Hl]%NoDup_cons.
  constructor; [|by apply IH]. intros (y & Hy & Hin)%list_elem_of_fmap.
  apply Hx, list_elem_of_fmap. exists y. split; [by apply Hfg | done].
Qed.

(** C22: Home Assistant's entity registry never sees one sensor id
    twice: the sensors that [async_setup_entry] builds for the entries
    any sequence of configuration flows creates have pairwise distinct
    unique ids. *)
Theorem setup_sensor_ids_NoDup configured us :
  NoDup ((fun u => attr_unique_id (setup_sensor (entry_data_of u))) <$> run_flows configured us).
Proof.
  apply (NoDup_fmap_weaken _ unique_id); [apply setup_sensor_unique_id_inj|].
  apply run_flows_fresh.
Qed.

(** The entries "FI / VAT" and "FI / NO_VAT", and a repeated "FI / VAT"
    at another resolution, which the flow refuses. *)
Lemma run_flows_fi :
  ((fun u => attr_unique_id (setup_sensor (entry_data_of u))) <$>
     run_flows [] [Some fi_vat; Some fi_no_vat; Some (mk_input "FI" 60 "VAT"); None]) =
  ["spothinta_FI_VAT_price"; "spothinta_FI_NO_VAT_price"]%string.
Proof. reflexivity. Qed.
