(* ===== verification/Provider.v ===== *)
(** * Provider: what api.spot-hinta.fi documents, and what the host sends

    The module comment of spothinta_api.py (lines 8-25) documents the
    provider: the supported regions (line 9), a rate limit of one
    request per minute and IP address (lines 11-14), and the parameters
    of /TodayAndDayForward, [priceResolution] 15 or 60 (line 18).
    [request_ok] is the parameter rule and [per_minute_ok] the rate
    limit on a log of timestamped requests.

    [sent_step] is the host of Setup.v with its requests as labels:
    setting up an entry whose data the configuration flow accepted,
    a coordinator refresh, a sensor update and an unload.  [sent_run]
    collects the labels of a run.  The theorems: every request of every
    run from an empty Home Assistant has documented parameters
    ([requests_documented]); yet two entries of different regions set
    up at the same instant send two requests in one second, beyond the
    documented rate ([setup_exceeds_rate_limit]). *)

From S2P Require Import Prelude Json Clock Refresh Store IsoTime Resolver Api Transport Sensor Config Setup.

Open Scope Z_scope.

(** Lines 9 and 16-18: a supported region, [priceResolution] 15 or 60. *)
Definition request_ok (q : request) : bool :=
  existsb (String.eqb (req_region q)) SUPPORTED_REGIONS && existsb (Z.eqb (req_resolution q)) [15; 60].

(** Lines 11-12: at most one request per minute. *)
Fixpoint per_minute_ok (log : list (Z * request)) : bool :=
  match log with
  | (t1, _) :: ((t2, _) :: _) as rest => (60 <=? t2 - t1) && per_minute_ok rest
  | _ => true
  end.

(** The provider as lines 11-14 document it: a request that follows
    the previous one within a minute is answered 429 (Too Many
    Requests); otherwise the answer is the day's series [body]. *)
Definition provider_answer (log : list (Z * request)) (now : Z) (body : jvalue) : transport :=
  match last log with
  | Some (t, _) =>
      if now - t <? 60 then Answer (mk_response 429 None) else Answer (mk_response 200 (Some body))
  | None => Answer (mk_response 200 (Some body))
  end.

(** The API object a new entry's coordinator gets (sensor.py:41-47). *)
Definition setup_api (w : world) : gmap string region_cache :=
  default ∅ (w_apis (shared_api w).1 !! (shared_api w).2).

(** The request an entry's coordinator sends has documented parameters. *)
Definition ident_ok (k : string * Z * string * nat) : bool := request_ok (mk_request k.1.1.1 k.1.1.2).

Definition entries_ok (w : world) : Prop := Forall (fun k => ident_ok k = true) (e_ident <$> w_entries w).

Section Sent.
Context `{EetZone}.

Inductive sent_step : world -> option (Z * request) -> world -> Prop :=
| ss_setup u now reply t added w w' r q :
    schema_ok u = true -> async_setup_entry (entry_data_of u) now reply t added w = (w', r, q) ->
    sent_step w (pair now <$> q) w'
| ss_refresh i now reply t w w' up q :
    coordinator_refresh i now reply t w = (w', up, q) -> sent_step w (pair now <$> q) w'
| ss_update i now w : sent_step w None (sensor_update_state i now w)
| ss_unload i ok w : sent_step w None (async_unload_entry i ok w).1.

Inductive sent_run : world -> list (Z * request) -> world -> Prop :=
| sr_nil w : sent_run w [] w
| sr_cons w l w' ls w'' : sent_step w l w' -> sent_run w' ls w'' -> sent_run w (option_list l ++ ls) w''.
End Sent.

(** ** Every request has documented parameters *)

Lemma entries_ok_keeps w w' : keeps_apis w w' -> entries_ok w -> entries_ok w'.
Proof. intros [Ha _]. unfold entries_ok. by rewrite Ha. Qed.

Lemma schema_ok_request u : schema_ok u = true -> request_ok (mk_request (in_region u) (in_resolution u)) = true.
Proof. unfold schema_ok, request_ok. simpl. by intros [[-> ->]%andb_true_iff _]%andb_true_iff. Qed.

Lemma shared_api_entries w : w_entries (shared_api w).1 = w_entries w.
Proof. unfold shared_api. by destruct (w_hass_api w). Qed.

Lemma async_unload_entry_ok i ok w : entries_ok w -> entries_ok (async_unload_entry i ok w).1.
Proof.
  unfold async_unload_entry, entries_ok. destruct ok; [|done]. simpl.
  rewrite fmap_app, fmap_take, fmap_drop. intros Hok. apply Forall_app.
  split; [by apply Forall_take | by apply Forall_drop].
Qed.

Section SentProps.
Context `{EetZone}.

Lemma coordinator_refresh_ok i now reply t w w' u q :
  entries_ok w -> coordinator_refresh i now reply t w = (w', u, q) ->
  entries_ok w' /\ forall q', q = Some q' -> request_ok q' = true.
Proof.
  intros Hok Hc. split; [exact (entries_ok_keeps _ _ (coordinator_refresh_keeps _ _ _ _ _ _ _ _ Hc) Hok)|].
  intros q' ->. revert Hc. unfold coordinator_refresh.
  destruct (w_entries w !! i) as [e|] eqn:He; [|by intros [= _ _]].
  destruct (fetch_data _ _ _ _ _ _ _) as [[api' r] q''] eqn:Hf.
  pose proof (fetch_data_request _ _ _ _ _ _ _ _ _ _ Hf) as Hq.
  intros Hc. assert (Hq' : q'' = Some q') by (destruct r as [[|]|]; by injection Hc). rewrite Hq' in Hq.
  revert Hq. destruct (fetch_needed _ _ _); intros Hq; [|discriminate]. injection Hq as ->.
  unfold entries_ok in Hok. eapply (Forall_lookup_1 _ _ i (e_ident e)) in Hok; [exact Hok|]. by rewrite list_lookup_fmap, He.
Qed.

Lemma async_setup_entry_ok u now reply t added w w' r q :
  schema_ok u = true -> entries_ok w ->
  async_setup_entry (entry_data_of u) now reply t added w = (w', r, q) ->
  entries_ok w' /\ forall q', q = Some q' -> request_ok q' = true.
Proof.
  intros Hu Hok. unfold async_setup_entry. cbn [d_region d_resolution d_price_type entry_data_of default].
  pose proof (shared_api_entries w) as Hw0. destruct (shared_api w) as [w0 id]. simpl in Hw0.
  match goal with |- context [coordinator_refresh ?i ?n ?rp ?st ?w1] =>
    destruct (coordinator_refresh i n rp st w1) as [[w1' u'] q'] eqn:Hc; set (ws := w1) in Hc end.
  assert (Hs : entries_ok ws).
  { unfold entries_ok, ws. simpl. rewrite fmap_app, Forall_app, Hw0.
    split; [exact Hok | repeat constructor; exact (schema_ok_request u Hu)]. }
  destruct (coordinator_refresh_ok _ _ _ _ _ _ _ _ Hs Hc) as [Hok1 Hq].
  destruct u'; intros [= <- _ <-]; split; try exact Hq.
  - apply (entries_ok_keeps w1'); [unfold async_added_to_hass; apply sensor_update_state_keeps | exact Hok1].
  - unfold entries_ok. simpl. rewrite Hw0. exact Hok.
Qed.

Lemma sent_step_ok w l w' :
  sent_step w l w' -> entries_ok w -> entries_ok w' /\ Forall (fun tq => request_ok tq.2 = true) (option_list l).
Proof.
  destruct 1 as [u now reply t added w0 w1 r q Hu Hs | i now reply t w0 w1 up q Hc | i now w0 | i ok w0]; intros Hok.
  - destruct (async_setup_entry_ok _ _ _ _ _ _ _ _ _ Hu Hok Hs) as [Hok' Hq]. split; [done|].
    destruct q as [q|]; simpl; repeat constructor. by apply Hq.
  - destruct (coordinator_refresh_ok _ _ _ _ _ _ _ _ Hok Hc) as [Hok' Hq]. split; [done|].
    destruct q as [q|]; simpl; repeat constructor. by apply Hq.
  - split; [exact (entries_ok_keeps _ _ (sensor_update_state_keeps _ _ _) Hok) | constructor].
  - split; [by apply async_unload_entry_ok | constructor].
Qed.

Lemma sent_run_ok w log w' :
  sent_run w log w' -> entries_ok w -> Forall (fun tq => request_ok tq.2 = true) log.
Proof.
  induction 1 as [w0 | w0 l w1 ls w2 Hs _ IH]; intros Hok; [constructor|].
  destruct (sent_step_ok _ _ _ Hs Hok) as [Hok' Hl]. apply Forall_app. split; [done | by apply IH].
Qed.

(** C17: Every request the integration sends, in any run of setups of
    entries the configuration flow accepted, coordinator refreshes,
    sensor updates and unloads from an empty Home Assistant, asks for a
    region the provider supports and a resolution of 15 or 60 minutes,
    as the provider's documentation requires. *)
Theorem requests_documented log w :
  sent_run init_world log w -> Forall (fun tq => request_ok tq.2 = true) log.
Proof. intros Hr. apply (sent_run_ok _ _ _ Hr). constructor. Qed.
End SentProps.

(** ** Two regions set up at one instant *)

Definition se3_vat : user_input := mk_input "SE3" 15 "VAT".

Definition two_region_log : list (Z * request) :=
  [(jun11_1500, mk_request "FI" 15); (jun11_1500, mk_request "SE3" 15)].

(** Entries "FI / VAT" and "SE3 / VAT" are set up at 15:00 on 11 June,
    each first refresh getting a good reply. *)
Lemma two_region_run : exists w, sent_run init_world two_region_log w.
Proof.
  destruct (async_setup_entry (entry_data_of fi_vat) jun11_1500 fi_reply jun11_1500 jun11_1500 init_world)
    as [[w1 r1] q1] eqn:E1.
  destruct (async_setup_entry (entry_data_of se3_vat) jun11_1500 fi_reply jun11_1500 jun11_1500 w1)
    as [[w2 r2] q2] eqn:E2.
  assert (Hw1 : w1 = (async_setup_entry (entry_data_of fi_vat) jun11_1500 fi_reply jun11_1500 jun11_1500
                        init_world).1.1) by by rewrite E1.
  assert (Hq1 : q1 = Some (mk_request "FI" 15)).
  { transitivity (async_setup_entry (entry_data_of fi_vat) jun11_1500 fi_reply jun11_1500 jun11_1500
                    init_world).2; [by rewrite E1 | vm_compute; reflexivity]. }
  assert (Hq2 : q2 = Some (mk_request "SE3" 15)).
  { transitivity (async_setup_entry (entry_data_of se3_vat) jun11_1500 fi_reply jun11_1500 jun11_1500 w1).2;
      [by rewrite E2 | rewrite Hw1; vm_compute; reflexivity]. }
  exists w2.
  replace two_region_log with (option_list (pair jun11_1500 <$> q1) ++ (option_list (pair jun11_1500 <$> q2) ++ []))
    by (rewrite Hq1, Hq2; reflexivity).
  apply (sr_cons _ _ w1); [exact (ss_setup fi_vat _ _ _ _ _ _ _ _ eq_refl E1)|].
  apply (sr_cons _ _ w2); [exact (ss_setup se3_vat _ _ _ _ _ _ _ _ eq_refl E2) | constructor].
Qed.

(** The rate limit of lines 11-12 is not enforced: setting up entries
    for two regions at one instant sends two requests in the same
    second. *)
Theorem setup_exceeds_rate_limit :
  (exists w, sent_run init_world two_region_log w) /\ per_minute_ok two_region_log = false.
Proof. split; [exact two_region_run | reflexivity]. Qed.

Lemma requests_documented_witness :
  (exists w, sent_run init_world two_region_log w) /\
  Forall (fun tq => request_ok tq.2 = true) two_region_log.
Proof.
  destruct two_region_run as [w Hr]. split; [by exists w | exact (requests_documented _ _ Hr)].
Defined.

(** ** Under the documented rate limit *)

Lemma provider_answer_429 log now body t0 q0 :
  last log = Some (t0, q0) -> now - t0 < 60 -> requests_reply (provider_answer log now body) = HttpError.
Proof.
  intros Hl Ht. unfold provider_answer. rewrite Hl. rewrite (proj2 (Z.ltb_lt _ _) Ht).
  apply requests_reply_status. simpl. lia.
Qed.

Section RateLimit.
Context `{EetZone}.

(** A setup whose first refresh must fetch and whose request fails
    raises [ConfigEntryNotReady], after sending the request. *)
Lemma async_setup_entry_failed u now reply t added w :
  fetch_needed false (get_cache_data (in_region u) (setup_api w)).2 now = true ->
  reply = HttpError \/ reply = HttpOk None ->
  (async_setup_entry (entry_data_of u) now reply t added w).1.2 = SetupNotReady /\
  (async_setup_entry (entry_data_of u) now reply t added w).2 = Some (mk_request (in_region u) (in_resolution u)).
Proof.
  unfold setup_api. intros Hn Hr. unfold async_setup_entry.
  cbn [d_region d_resolution d_price_type entry_data_of default].
  destruct (shared_api w) as [w0 id]. simpl in Hn. unfold coordinator_refresh. simpl.
  rewrite list_lookup_middle by done. unfold api_of. simpl.
  by rewrite (fetch_data_failed_request _ _ _ _ _ _ Hn Hr).
Qed.

(** C16: Under a provider that enforces its documented rate limit,
    setting up an entry whose region has no data in the shared API
    object, less than a minute after the last request, fails: the
    request it sends is answered 429 and Home Assistant gets
    [ConfigEntryNotReady]. *)
Theorem setup_rate_limited u now body t added log w t0 q0 :
  last log = Some (t0, q0) -> now - t0 < 60 ->
  fetch_needed false (get_cache_data (in_region u) (setup_api w)).2 now = true ->
  (async_setup_entry (entry_data_of u) now (requests_reply (provider_answer log now body)) t added w).1.2
    = SetupNotReady.
Proof.
  intros Hl Ht Hn. apply (async_setup_entry_failed _ _ _ _ _ _ Hn). left. exact (provider_answer_429 _ _ _ _ _ Hl Ht).
Qed.
End RateLimit.

(** FI is set up at 15:00 on 11 June under the rate-limited provider;
    SE3 follows ten seconds later. *)
Definition fi_body : jvalue := JArr (rev fi_series).

Definition setup_fi_limited : world * setup_result * option request :=
  async_setup_entry (entry_data_of fi_vat) jun11_1500 (requests_reply (provider_answer [] jun11_1500 fi_body))
    jun11_1500 jun11_1500 init_world.

Lemma setup_rate_limited_witness :
  setup_fi_limited.1.2 = SetupOk /\ setup_fi_limited.2 = Some (mk_request "FI" 15) /\
  last [(jun11_1500, mk_request "FI" 15)] = Some (jun11_1500, mk_request "FI" 15) /\
  jun11_1500 + 10 - jun11_1500 < 60 /\
  fetch_needed false (get_cache_data (in_region se3_vat) (setup_api setup_fi_limited.1.1)).2 (jun11_1500 + 10) = true /\
  (async_setup_entry (entry_data_of se3_vat) (jun11_1500 + 10)
     (requests_reply (provider_answer [(jun11_1500, mk_request "FI" 15)] (jun11_1500 + 10) fi_body))
     (jun11_1500 + 10) (jun11_1500 + 10) setup_fi_limited.1.1).1.2 = SetupNotReady.
Proof.
  assert (Hl : last [(jun11_1500, mk_request "FI" 15)] = Some (jun11_1500, mk_request "FI" 15)) by reflexivity.
  assert (Ht : jun11_1500 + 10 - jun11_1500 < 60) by lia.
  assert (Hn : fetch_needed false (get_cache_data (in_region se3_vat) (setup_api setup_fi_limited.1.1)).2
                 (jun11_1500 + 10) = true) by (vm_compute; reflexivity).
  split_and!; [vm_compute; reflexivity | vm_compute; reflexivity | exact Hl | exact Ht | exact Hn |].
  exact (setup_rate_limited se3_vat _ fi_body _ _ _ _ _ _ Hl Ht Hn).
Defined.
